(** * ADPC Gender Equality Monitor scraper: the per-country engine

    A shallow embedding of [src/hdx/scraper/adpc_gem/pipeline.py]
    (class [Pipeline], lines 106-539) together with the properties its
    specification states about it.

    Modelling conventions.
    - Python [int] is unbounded: [Z].
    - A CSV row ([csv.DictReader]) is a dictionary from column names to
      cells: [gmap string cell].  A cell is the text of the field, or the
      [None] that [DictReader] fills in for a record shorter than the
      header.  The surplus fields of a record longer than the header are
      kept by [DictReader] under the key [None], which nothing in the
      source reads; they are not part of a row here.
    - An exception is an explicit outcome: a fallible computation has type
      [result A]; [try/except] is a [match] on it.
    - The iteration order of a Python [set] is not fixed by the language.
      The one place where the source iterates a set ([min]/[max] over the
      set of years) takes that order as a parameter. *)

From Stdlib Require Import ZArith Ascii String.
From stdpp Require Import base option list gmap strings sorting.

Open Scope string_scope.
Open Scope Z_scope.

(** ** Exceptions *)

Inductive exn : Type :=
  | ValueError
  | TypeError
  | KeyError.

Inductive result (A : Type) : Type :=
  | Ok (a : A)
  | Raise (e : exn).
Arguments Ok {A} a.
Arguments Raise {A} e.

Global Instance result_ret : MRet result := λ A a, Ok a.
Global Instance result_bind : MBind result := λ A B f m,
  match m with
  | Ok a => f a
  | Raise e => Raise e
  end.

Global Instance result_fmap : FMap result := λ A B f m,
  match m with
  | Ok a => Ok (f a)
  | Raise e => Raise e
  end.

Definition is_Ok {A} (m : result A) : Prop := ∃ a, m = Ok a.

Global Instance is_Ok_dec {A} (m : result A) : Decision (is_Ok m).
Proof.
  destruct m as [a|e]; [left; by exists a | right; by intros [a ?]].
Defined.

Global Instance exn_eq_dec : EqDecision exn.
Proof. solve_decision. Defined.
Global Instance result_eq_dec `{EqDecision A} : EqDecision (result A).
Proof. solve_decision. Defined.

(** ** Cells

    A value found in a CSV row: a string, or [None]. *)
Inductive cell : Type :=
  | Str (s : string)
  | PyNone.

Coercion Str : string >-> cell.

Global Instance cell_eq_dec : EqDecision cell.
Proof. solve_decision. Defined.

(** Truth value of a cell in an [if]: [None] and the empty string are
    false. *)
Definition truthy (v : cell) : bool :=
  match v with
  | Str s => bool_decide (s ≠ "")
  | PyNone => false
  end.

(** ** Python's [int(v)]

    On ASCII text [int] skips the white space characters tab, line feed,
    vertical tab, form feed, carriage return and space on both sides, reads
    an optional sign and then decimal digits, where single underscores may
    separate digits; anything else raises [ValueError].  Bytes above 127
    are rejected here, so the non-ASCII digits and spaces that Python also
    accepts are outside the model, as is the interpreter's configurable
    limit on the digit count. *)

Definition is_space (c : ascii) : bool :=
  let n := N_of_ascii c in
  ((9 <=? n)%N && (n <=? 13)%N) || (n =? 32)%N.

Definition digit_of (c : ascii) : option Z :=
  let n := N_of_ascii c in
  if ((48 <=? n)%N && (n <=? 57)%N) then Some (Z.of_N n - 48) else None.

Fixpoint lstrip (l : list ascii) : list ascii :=
  match l with
  | c :: l' => if is_space c then lstrip l' else l
  | [] => []
  end.

Definition strip (l : list ascii) : list ascii :=
  rev (lstrip (rev (lstrip l))).

(** [digits acc after_digit l]: [after_digit] tells whether the previous
    character was a digit, the only place where an underscore or the end of
    the text is allowed. *)
Fixpoint digits (acc : Z) (after_digit : bool) (l : list ascii) : option Z :=
  match l with
  | [] => if after_digit then Some acc else None
  | c :: l' =>
      match digit_of c with
      | Some d => digits (10 * acc + d) true l'
      | None =>
          if Ascii.eqb c "_" && after_digit then digits acc false l' else None
      end
  end.

Definition signed_digits (l : list ascii) : option Z :=
  match l with
  | c :: l' =>
      if Ascii.eqb c "-" then Z.opp <$> digits 0 false l'
      else if Ascii.eqb c "+" then digits 0 false l'
      else digits 0 false l
  | [] => None
  end.

Definition int_str (s : string) : result Z :=
  match signed_digits (strip (list_ascii_of_string s)) with
  | Some z => Ok z
  | None => Raise ValueError
  end.

(** [int(None)] raises [TypeError]. *)
Definition py_int (v : cell) : result Z :=
  match v with
  | Str s => int_str s
  | PyNone => Raise TypeError
  end.

(** ** Data model *)

(** A raw CSV row and an output row: both are Python dictionaries with
    string keys whose values are cells. *)
Abbreviation Row := (gmap string cell).

(** [row.get(k, d)] *)
Definition get (row : Row) (k : string) (d : cell) : cell :=
  default d (row !! k).

(** [x[k]] *)
Definition getitem (x : Row) (k : string) : result cell :=
  match x !! k with
  | Some v => Ok v
  | None => Raise KeyError
  end.

(** An entry of [self._countries] (lines 47-53). *)
Record Country : Type := mkCountry {
  c_iso3 : string;
  c_name : string;
  c_area_id : Z;
}.

(** A value of [self._province_mapping] (lines 71-74). *)
Record ProvinceInfo : Type := mkProvinceInfo {
  p_iso3 : string;
  p_name : string;
}.

(** The two attributes of [Pipeline] the engine reads. *)
Record Pipeline : Type := mkPipeline {
  _countries : list Country;
  _province_mapping : gmap Z ProvinceInfo;
}.

(** JSON scalars found in the [properties] of a GeoJSON feature. *)
Inductive json : Type :=
  | JNull
  | JBool (b : bool)
  | JNum (z : Z)
  | JStr (s : string).

Global Instance json_eq_dec : EqDecision json.
Proof. solve_decision. Defined.

(** A GeoJSON feature: its [properties] and, kept opaque, the rest of the
    object (its geometry). *)
Record Feature : Type := mkFeature {
  f_properties : gmap string json;
  f_geometry : string;
}.

(** The dictionary built by [_filter_geojson_by_country] (lines 181-184). *)
Record FeatureCollection : Type := mkFeatureCollection {
  fc_type : string;
  fc_features : list Feature;
}.

(** ** Looking up a country's areas *)

(** Lines 106-118. *)
Fixpoint _get_country_area_id_in (countries : list Country)
    (country_code : string) : option Z :=
  match countries with
  | [] => None
  | country :: rest =>
      if bool_decide (c_iso3 country = country_code)
      then Some (c_area_id country)
      else _get_country_area_id_in rest country_code
  end.

Definition _get_country_area_id (self : Pipeline) (country_code : string)
    : option Z :=
  _get_country_area_id_in (_countries self) country_code.

(** Lines 120-133: the keys of the mapping whose entry has the country's
    code, as a set. *)
Definition _get_province_area_ids (self : Pipeline) (country_code : string)
    : gset Z :=
  dom (filter (λ kv : Z * ProvinceInfo, p_iso3 kv.2 = country_code)
         (_province_mapping self)).

(** ** The tabular partitioner (lines 135-163) *)

(** [int(row.get("area_id", -1))]: the default is the integer [-1], which
    [int] returns unchanged. *)
Definition row_area_id (row : Row) : result Z :=
  match row !! "area_id" with
  | Some v => py_int v
  | None => Ok (-1)
  end.

(** The body of the [try] block: [Ok true] when the row is appended. *)
Definition filter_body (country_area_id : option Z) (province_area_ids : gset Z)
    (row : Row) : result bool :=
  area_id ← row_area_id row;
  let admin_level := get row "admin_level" "" in
  if bool_decide (admin_level = Str "country")
     && bool_decide (Some area_id = country_area_id)
  then Ok true
  else if bool_decide (admin_level = Str "province")
          && bool_decide (area_id ∈ province_area_ids)
  then Ok true
  else Ok false.

(** The [for] loop with its [except (ValueError, TypeError): continue]; any
    other exception would leave the function. *)
Fixpoint filter_loop (country_area_id : option Z) (province_area_ids : gset Z)
    (rows : list Row) : result (list Row) :=
  match rows with
  | [] => Ok []
  | row :: rest =>
      match filter_body country_area_id province_area_ids row with
      | Ok true =>
          filtered ← filter_loop country_area_id province_area_ids rest;
          Ok (row :: filtered)
      | Ok false | Raise ValueError | Raise TypeError =>
          filter_loop country_area_id province_area_ids rest
      | Raise e => Raise e
      end
  end.

Definition _filter_csv_by_country (self : Pipeline) (rows : list Row)
    (country_code : string) : result (list Row) :=
  let country_area_id := _get_country_area_id self country_code in
  let province_area_ids := _get_province_area_ids self country_code in
  filter_loop country_area_id province_area_ids rows.

(** ** The geometry partitioner (lines 165-184) *)

Definition _filter_geojson_by_country (geojson : list Feature)
    (country_code : string) : FeatureCollection :=
  let filtered_features :=
    filter (λ feature, f_properties feature !! "iso" = Some (JStr country_code))
      geojson in
  {| fc_type := "FeatureCollection"; fc_features := filtered_features |}.

(** ** [sorted(l, key=...)]

    Python first applies [key] to every element, left to right, and lets
    the first exception escape; it then orders the elements by their keys
    with a stable sort that compares keys with [<] only.  A comparison that
    raises ends the sort with that exception.  The result of a stable sort
    does not depend on the algorithm, so insertion from the right stands
    for it. *)

Section py_sorted.
Context {A K : Type} (key : A → result K) (lt : K → K → result bool).

Fixpoint decorate (l : list A) : result (list (K * A)) :=
  match l with
  | [] => Ok []
  | x :: l' => k ← key x; d ← decorate l'; Ok ((k, x) :: d)
  end.

(** [x] stood before every element of [l] in the input: it stays before
    the first [y] that is not below it. *)
Fixpoint insert_keyed (x : K * A) (l : list (K * A))
    : result (list (K * A)) :=
  match l with
  | [] => Ok [x]
  | y :: l' =>
      below ← lt y.1 x.1;
      if below : bool then r ← insert_keyed x l'; Ok (y :: r)
      else Ok (x :: l)
  end.

Fixpoint sort_keyed (d : list (K * A)) : result (list (K * A)) :=
  match d with
  | [] => Ok []
  | x :: d' => s ← sort_keyed d'; insert_keyed x s
  end.

Definition py_sorted (l : list A) : result (list A) :=
  d ← decorate l; s ← sort_keyed d; Ok (s.*2).
End py_sorted.

(** [<] on the keys.  Integers and strings are ordered, strings by code
    point, which on UTF-8 text is the byte order; [None] is ordered with
    nothing.  Python compares two tuples at the first position where they
    differ (by [==]), and two equal tuples are not below each other. *)
Definition lt_Z (a b : Z) : result bool := Ok (a <? b).

(** [reverse=True]: the elements are sorted as if each comparison were
    reversed, elements with equal keys keeping their order. *)
Definition lt_rev (a b : Z) : result bool := Ok (b <? a).

Definition lt_cell (a b : cell) : result bool :=
  match a, b with
  | Str s, Str t => Ok (String.ltb s t)
  | _, _ => Raise TypeError
  end.

(** The last position of a tuple, and a position followed by others. *)
Definition lt_last {A : Type} `{EqDecision A} (ltA : A → A → result bool)
    (x y : A) : result bool :=
  if decide (x = y) then Ok false else ltA x y.

Definition lt_cons {A B : Type} `{EqDecision A} (ltA : A → A → result bool)
    (ltB : B → B → result bool) (x y : A * B) : result bool :=
  if decide (x.1 = y.1) then ltB x.2 y.2 else ltA x.1 y.1.

Definition lt_key2 : Z * cell → Z * cell → result bool :=
  lt_cons lt_Z (lt_last lt_cell).
Definition lt_key3 : Z * (cell * cell) → Z * (cell * cell) → result bool :=
  lt_cons lt_Z (lt_cons lt_cell (lt_last lt_cell)).
Definition lt_key4 : Z * (cell * (cell * cell))
    → Z * (cell * (cell * cell)) → result bool :=
  lt_cons lt_Z (lt_cons lt_cell (lt_cons lt_cell (lt_last lt_cell))).

(** [-int(x["year"])] *)
Definition neg_year (x : Row) : result Z :=
  y ← getitem x "year"; n ← py_int y; Ok (- n).

(** ** The seven schema transformers (lines 186-428) *)

(** A [for row in rows] loop whose body skips the row ([continue]), appends
    one record to [transformed], or raises. *)
Fixpoint for_rows (body : Row → result (option Row)) (rows : list Row)
    : result (list Row) :=
  match rows with
  | [] => Ok []
  | row :: rest =>
      o ← body row;
      transformed ← for_rows body rest;
      Ok (match o with Some new_row => new_row :: transformed
                     | None => transformed end)
  end.

(** Province resolution, written out identically in the four transformers
    that fill a [province] field (lines 226-228, 290-292, 366-368,
    407-409). *)
Definition province_name_of (self : Pipeline) (row : Row) : result string :=
  let area_id := get row "area_id" "" in
  admin1_info ←
    (if truthy area_id
     then a ← py_int area_id; Ok (_province_mapping self !! a)
     else Ok None);
  Ok (match admin1_info with
      | Some info => p_name info
      | None => ""
      end).

(** Lines 186-207. *)
Definition gii_national_row (country_code : string) (row : Row) : Row :=
  <["iso3" := Str country_code]>
  (<["country" := get row "admin_name" ""]>
  (<["year" := get row "year" ""]>
  (<["gender_inequality_index" := get row "gii" ""]> ∅))).

Definition _transform_gii_national (self : Pipeline) (rows : list Row)
    (country_code : string) : result (list Row) :=
  transformed ← for_rows (λ row,
    if bool_decide (row !! "admin_level" ≠ Some (Str "country")) then Ok None
    else Ok (Some (gii_national_row country_code row))) rows;
  py_sorted (λ x, y ← getitem x "year"; py_int y) lt_rev transformed.

(** Lines 209-241. *)
Definition gii_subnational_row (country_code country_name province_name : string)
    (row : Row) : Row :=
  <["iso3" := Str country_code]>
  (<["country" := Str country_name]>
  (<["province" := Str province_name]>
  (<["year" := get row "year" ""]>
  (<["gender_inequality_index" := get row "gii" ""]> ∅)))).

Definition _transform_gii_subnational (self : Pipeline) (rows : list Row)
    (country_code country_name : string) : result (list Row) :=
  transformed ← for_rows (λ row,
    if bool_decide (row !! "admin_level" ≠ Some (Str "province")) then Ok None
    else
      province_name ← province_name_of self row;
      Ok (Some (gii_subnational_row country_code country_name province_name row)))
    rows;
  py_sorted (λ x, n ← neg_year x; p ← getitem x "province"; Ok (n, p))
    lt_key2 transformed.

(** Lines 243-271.  The category is read from the column whose header is the
    empty string. *)
Definition dimension_national_row (country_code : string) (row : Row) : Row :=
  <["iso3" := Str country_code]>
  (<["country" := get row "admin_name" ""]>
  (<["dimension_category" := get row "" ""]>
  (<["dimension" := get row "dimension_name" ""]>
  (<["gender" := get row "F/M" ""]>
  (<["year" := get row "year" ""]>
  (<["value" := get row "value" ""]>
  (<["unit" := get row "Unit" ""]> ∅))))))).

Definition _transform_dimension_national (self : Pipeline) (rows : list Row)
    (country_code : string) : result (list Row) :=
  transformed ← for_rows (λ row,
    if bool_decide (row !! "admin_level" ≠ Some (Str "country")) then Ok None
    else Ok (Some (dimension_national_row country_code row))) rows;
  py_sorted (λ x, n ← neg_year x; c ← getitem x "dimension_category";
                  d ← getitem x "dimension"; Ok (n, (c, d)))
    lt_key3 transformed.

(** Lines 273-314. *)
Definition dimension_subnational_row
    (country_code country_name province_name : string) (row : Row) : Row :=
  <["iso3" := Str country_code]>
  (<["country" := Str country_name]>
  (<["province" := Str province_name]>
  (<["dimension_category" := get row "" ""]>
  (<["dimension" := get row "dimension_name" ""]>
  (<["gender" := get row "F/M" ""]>
  (<["year" := get row "year" ""]>
  (<["value" := get row "value" ""]>
  (<["unit" := get row "Unit" ""]> ∅)))))))).

Definition _transform_dimension_subnational (self : Pipeline) (rows : list Row)
    (country_code country_name : string) : result (list Row) :=
  transformed ← for_rows (λ row,
    if bool_decide (row !! "admin_level" ≠ Some (Str "province")) then Ok None
    else
      province_name ← province_name_of self row;
      Ok (Some (dimension_subnational_row country_code country_name
                  province_name row)))
    rows;
  py_sorted (λ x, n ← neg_year x; p ← getitem x "province";
                  c ← getitem x "dimension_category";
                  d ← getitem x "dimension"; Ok (n, (p, (c, d))))
    lt_key4 transformed.

(** Lines 316-347. *)
Definition indicator_national_row (country_code country_name : string)
    (row : Row) : Row :=
  <["iso3" := Str country_code]>
  (<["country" := Str country_name]>
  (<["indicator_category" := get row "common_name" ""]>
  (<["indicator" := get row "indicator_name" ""]>
  (<["gender" := get row "F/M" ""]>
  (<["year" := get row "year" ""]>
  (<["value" := get row "value" ""]>
  (<["unit" := get row "Unit" ""]> ∅))))))).

Definition _transform_indicator_national (self : Pipeline) (rows : list Row)
    (country_code country_name : string) : result (list Row) :=
  transformed ← for_rows (λ row,
    if bool_decide (row !! "admin_level" ≠ Some (Str "country")) then Ok None
    else Ok (Some (indicator_national_row country_code country_name row))) rows;
  py_sorted (λ x, n ← neg_year x; c ← getitem x "indicator_category";
                  i ← getitem x "indicator"; Ok (n, (c, i)))
    lt_key3 transformed.

(** Lines 349-390. *)
Definition indicator_subnational_row
    (country_code country_name province_name : string) (row : Row) : Row :=
  <["iso3" := Str country_code]>
  (<["country" := Str country_name]>
  (<["province" := Str province_name]>
  (<["indicator_category" := get row "common_name" ""]>
  (<["indicator" := get row "indicator_name" ""]>
  (<["gender" := get row "F/M" ""]>
  (<["year" := get row "year" ""]>
  (<["value" := get row "value" ""]>
  (<["unit" := get row "Unit" ""]> ∅)))))))).

Definition _transform_indicator_subnational (self : Pipeline) (rows : list Row)
    (country_code country_name : string) : result (list Row) :=
  transformed ← for_rows (λ row,
    if bool_decide (row !! "admin_level" ≠ Some (Str "province")) then Ok None
    else
      province_name ← province_name_of self row;
      Ok (Some (indicator_subnational_row country_code country_name
                  province_name row)))
    rows;
  py_sorted (λ x, n ← neg_year x; p ← getitem x "province";
                  c ← getitem x "indicator_category";
                  i ← getitem x "indicator"; Ok (n, (p, (c, i))))
    lt_key4 transformed.

(** Lines 392-428: no test of [admin_level] in this loop. *)
Definition sex_disaggregated_row
    (country_code country_name province_name : string) (row : Row) : Row :=
  <["iso3" := Str country_code]>
  (<["country" := Str country_name]>
  (<["province" := Str province_name]>
  (<["indicator" := get row "dataset_name_l1" ""]>
  (<["sub_indicator" := get row "dataset_name_l2" ""]>
  (<["gender" := get row "F/M" ""]>
  (<["year" := get row "year" ""]>
  (<["value" := get row "value" ""]>
  (<["unit" := get row "Unit" ""]>
  (<["calculation_type" := get row "calc" ""]>
  (<["definition" := get row "Definition" ""]> ∅)))))))))).

Definition _transform_sex_disaggregated (self : Pipeline) (rows : list Row)
    (country_code country_name : string) : result (list Row) :=
  transformed ← for_rows (λ row,
    province_name ← province_name_of self row;
    Ok (Some (sex_disaggregated_row country_code country_name
                province_name row)))
    rows;
  py_sorted (λ x, n ← neg_year x; p ← getitem x "province";
                  i ← getitem x "indicator"; Ok (n, (p, i)))
    lt_key3 transformed.

(** ** The temporal range extractor (lines 430-450) *)

(** [min(xs)] and [max(xs)] over the elements in the order the iteration
    yields them; both raise [ValueError] on an empty iteration. *)
Definition py_min (l : list Z) : result Z :=
  match l with
  | [] => Raise ValueError
  | x :: l' => Ok (foldl Z.min x l')
  end.

Definition py_max (l : list Z) : result Z :=
  match l with
  | [] => Raise ValueError
  | x :: l' => Ok (foldl Z.max x l')
  end.

(** The loop filling [years]: the values passed to [years.add], in order. *)
Fixpoint added_years (rows : list Row) : result (list Z) :=
  match rows with
  | [] => Ok []
  | row :: rest =>
      match row !! "year" with
      | Some year =>
          if truthy year then
            match py_int year with
            | Ok n => years ← added_years rest; Ok (n :: years)
            | Raise ValueError | Raise TypeError => added_years rest
            | Raise e => Raise e
            end
          else added_years rest
      | None => added_years rest
      end
  end.

(** An iteration order for sets of integers: given the values added to an
    empty set, the sequence in which iterating the set yields its
    elements.  Each element comes once. *)
Definition set_order (set_iter : list Z → list Z) : Prop :=
  ∀ l, NoDup (set_iter l) ∧ ∀ x, x ∈ set_iter l ↔ x ∈ l.

Definition _get_years_from_rows (set_iter : list Z → list Z)
    (rows : list Row) : result (Z * Z) :=
  years ← added_years rows;
  if bool_decide (years ≠ []) then
    mn ← py_min (set_iter years);
    mx ← py_max (set_iter years);
    Ok (mn, mx)
  else Ok (2000, 2024).

(** ** The per-country aggregator (lines 452-539) *)

(** The six parsed files read at lines 459-466. *)
Record Inputs : Type := mkInputs {
  gii_data : list Row;
  dimension_data : list Row;
  indicator_data : list Row;
  sex_disagg_data : list Row;
  country_geojson : list Feature;
  province_geojson : list Feature;
}.

(** One entry of [results] (lines 529-536).  The two inner dictionaries keep
    their insertion order, which [csv_data.values()] follows. *)
Record CountryResult : Type := mkCountryResult {
  r_iso3 : string;
  r_name : string;
  r_csv_data : list (string * list Row);
  r_geojson_data : list (string * FeatureCollection);
  r_min_year : Z;
  r_max_year : Z;
}.

(** The body of the loop over [self._countries] (lines 470-537). *)
Definition country_data (set_iter : list Z → list Z) (self : Pipeline)
    (inp : Inputs) (country : Country) : result CountryResult :=
  let country_code := c_iso3 country in
  let country_name := c_name country in
  gii_filtered ← _filter_csv_by_country self (gii_data inp) country_code;
  dimension_filtered ←
    _filter_csv_by_country self (dimension_data inp) country_code;
  indicator_filtered ←
    _filter_csv_by_country self (indicator_data inp) country_code;
  sex_disagg_filtered ←
    _filter_csv_by_country self (sex_disagg_data inp) country_code;
  t1 ← _transform_gii_national self gii_filtered country_code;
  t2 ← _transform_gii_subnational self gii_filtered country_code country_name;
  t3 ← _transform_dimension_national self dimension_filtered country_code;
  t4 ← _transform_dimension_subnational self dimension_filtered
         country_code country_name;
  t5 ← _transform_indicator_national self indicator_filtered
         country_code country_name;
  t6 ← _transform_indicator_subnational self indicator_filtered
         country_code country_name;
  t7 ← _transform_sex_disaggregated self sex_disagg_filtered
         country_code country_name;
  let csv_data :=
    [("gii-national", t1); ("gii-subnational", t2);
     ("dimension-national", t3); ("dimension-subnational", t4);
     ("indicator-national", t5); ("indicator-subnational", t6);
     ("sex-disaggregated", t7)] in
  let geojson_data :=
    [("country-boundary",
      _filter_geojson_by_country (country_geojson inp) country_code);
     ("province-boundaries",
      _filter_geojson_by_country (province_geojson inp) country_code)] in
  let all_rows := concat (csv_data.*2) in
  '(min_year, max_year) ← _get_years_from_rows set_iter all_rows;
  Ok {| r_iso3 := country_code; r_name := country_name;
        r_csv_data := csv_data; r_geojson_data := geojson_data;
        r_min_year := min_year; r_max_year := max_year |}.

Fixpoint for_countries (set_iter : list Z → list Z) (self : Pipeline)
    (inp : Inputs) (countries : list Country) : result (list CountryResult) :=
  match countries with
  | [] => Ok []
  | country :: rest =>
      r ← country_data set_iter self inp country;
      results ← for_countries set_iter self inp rest;
      Ok (r :: results)
  end.

Definition get_country_data (set_iter : list Z → list Z) (self : Pipeline)
    (inp : Inputs) : result (list CountryResult) :=
  for_countries set_iter self inp (_countries self).

(** * Specification vocabulary *)

(** [int(x["year"])] succeeds on a record whose [year] was copied from
    [row]. *)
Definition year_parses (row : Row) : Prop :=
  is_Ok (py_int (get row "year" "")).

Global Instance year_parses_dec row : Decision (year_parses row).
Proof. unfold year_parses. apply _. Defined.

(** The partition rule, one row at a time: the row's area identifier, read
    as the code reads it, is the country's at level ["country"], or the key
    of a mapping entry of the country at level ["province"]. *)
Definition keeps (self : Pipeline) (country_code : string) (row : Row) : Prop :=
  ∃ a, row_area_id row = Ok a ∧
    ((get row "admin_level" "" = "country"
      ∧ _get_country_area_id self country_code = Some a)
     ∨ (get row "admin_level" "" = "province"
        ∧ p_iso3 <$> _province_mapping self !! a = Some country_code)).

Global Instance keeps_dec self country_code row :
  Decision (keeps self country_code row).
Proof.
  unfold keeps. destruct (row_area_id row) as [a|e].
  - destruct (decide
      ((get row "admin_level" "" = "country"
        ∧ _get_country_area_id self country_code = Some a)
       ∨ (get row "admin_level" "" = "province"
          ∧ p_iso3 <$> _province_mapping self !! a = Some country_code)))
      as [Hyes|Hno].
    + left. by exists a.
    + right. intros (a' & [= <-] & Ha). by apply Hno.
  - right. by intros (a & [=] & _).
Defined.

(** The partition rule in the specification's words: the value of the row's
    [area_id] column must itself parse to the identifier. *)
Definition spec_keeps (self : Pipeline) (country : Country) (row : Row) : Prop :=
  ∃ v a, row !! "area_id" = Some v ∧ py_int v = Ok a ∧
    ((row !! "admin_level" = Some (Str "country") ∧ a = c_area_id country)
     ∨ (row !! "admin_level" = Some (Str "province")
        ∧ p_iso3 <$> _province_mapping self !! a = Some (c_iso3 country))).

(** The [year] values of [rows] that parse as integers, in the
    specification's words. *)
Definition parsable_years (rows : list Row) : list Z :=
  omap (λ row : Row,
    match row !! "year" with
    | Some v => match py_int v with Ok n => Some n | Raise _ => None end
    | None => None
    end) rows.

(** One cell is strictly below another: both are strings, in that
    order. *)
Definition cell_lt (x y : cell) : Prop :=
  match x, y with
  | Str s, Str t => String.ltb s t = true
  | _, _ => False
  end.

(** Lexicographic order on tuples of cells. *)
Fixpoint lex_le (xs ys : list cell) : Prop :=
  match xs, ys with
  | x :: xs', y :: ys' => cell_lt x y ∨ (x = y ∧ lex_le xs' ys')
  | _, _ => True
  end.

(** [a] may come directly before [b] in a table ordered by year, newest
    first, and then by the listed fields, ascending. *)
Definition ordered_by (fields : list string) (a b : Row) : Prop :=
  ∃ ya yb, py_int (get a "year" "") = Ok ya ∧ py_int (get b "year" "") = Ok yb ∧
    (yb < ya ∨ (ya = yb ∧ lex_le ((λ f, get a f "") <$> fields)
                                ((λ f, get b f "") <$> fields))).

(** The province name the specification assigns to a row: the mapped name
    when the row's [area_id] parses to a key of the mapping, the empty
    string otherwise. *)
Definition resolved_province (self : Pipeline) (row : Row) : string :=
  match row !! "area_id" with
  | Some v =>
      match py_int v with
      | Ok a =>
          match _province_mapping self !! a with
          | Some info => p_name info
          | None => ""
          end
      | Raise _ => ""
      end
  | None => ""
  end.

(** The rows a transformer keeps, by the level it is written for. *)
Definition at_level (level : string) (rows : list Row) : list Row :=
  filter (λ row : Row, row !! "admin_level" = Some (Str level)) rows.

(** The table named [name] in a result's [csv_data]. *)
Definition table (r : CountryResult) (name : string) : list Row :=
  match list_find (λ nt : string * list Row, nt.1 = name) (r_csv_data r) with
  | Some (_, (_, t)) => t
  | None => []
  end.

(** The order of a decorated list and of the elements it decorates: the
    key of the second was compared with the key of the first and found
    not to be below it. *)
Definition keyed_le {A K : Type} (lt : K → K → result bool) (a b : K * A)
    : Prop :=
  lt b.1 a.1 = Ok false.

Definition key_le {A K : Type} (key : A → result K) (lt : K → K → result bool)
    (a b : A) : Prop :=
  ∃ ka kb, key a = Ok ka ∧ key b = Ok kb ∧ lt kb ka = Ok false.

(** A cell that holds a text. *)
Definition text_cell (v : cell) : Prop := ∃ s, v = Str s.

Global Instance text_cell_dec v : Decision (text_cell v).
Proof.
  destruct v as [s|]; [left; by exists s | right; by intros [s ?]].
Defined.

(** A row none of whose cells is [None]: a record at least as long as the
    header. *)
Definition full_record (row : Row) : Prop :=
  ∀ k, row !! k ≠ Some PyNone.

Global Instance full_record_dec row : Decision (full_record row).
Proof.
  unfold full_record.
  destruct (decide (map_Forall (λ _ v, v ≠ PyNone) row)) as [Hall|Hex].
  - left. intros k Hk. by apply (Hall k PyNone).
  - right. intros Hfull. apply Hex. intros k v Hk ->. by apply (Hfull k).
Defined.

(** A transformer reading [sources] returns a table or raises.
    - A returned table holds one record per source: no row is dropped.
    - The first source whose year does not parse makes the transformer
      raise what [int] raises on that year: [ValueError] for a text that is
      no integer, [TypeError] for [None].
    - When every year parses and the transformer still raises, it raises
      [TypeError]: two sort keys could not be compared.
    - When every year parses and no cell is [None], a table is
      returned. *)
Definition all_or_error (T : result (list Row)) (sources records : list Row)
    : Prop :=
  (∀ out, T = Ok out → out ≡ₚ records)
  ∧ (∀ pre row post e,
       sources = (pre ++ row :: post)%list → Forall year_parses pre →
       py_int (get row "year" "") = Raise e →
       T = Raise e ∧ (e = ValueError ∨ e = TypeError))
  ∧ (Forall year_parses sources → ∀ e, T = Raise e → e = TypeError)
  ∧ (Forall year_parses sources → Forall full_record sources →
     ∃ out, T = Ok out ∧ out ≡ₚ records).

(** * Example data *)

(** A dictionary literal. *)
Definition row_of (l : list (string * string)) : Row :=
  list_to_map (prod_map id Str <$> l).

(** Two countries and three provinces. *)
Definition ex_self : Pipeline :=
  mkPipeline
    [mkCountry "KHM" "Cambodia" 1; mkCountry "VNM" "Viet Nam" 2]
    (<[12345 := mkProvinceInfo "KHM" "Phnom Penh"]>
     (<[12346 := mkProvinceInfo "KHM" "Battambang"]>
      {[ 777 := mkProvinceInfo "VNM" "Ha Noi" ]})).

(** A country whose area identifier is the partitioner's default. *)
Definition ex_default_country : Country := mkCountry "XXX" "Xanadu" (-1).
Definition ex_default_self : Pipeline :=
  mkPipeline [ex_default_country] ∅.
Definition ex_row_without_area : Row := row_of [("admin_level", "country")].

(** The scenario of the specification's section 8. *)
Definition ex_scenario_row : Row :=
  row_of [("area_id", "12345"); ("admin_level", "province");
          ("admin_name", "x"); ("year", "2019"); ("gii", "0.42")].
Definition ex_scenario_record : Row :=
  row_of [("iso3", "KHM"); ("country", "Cambodia");
          ("province", "Phnom Penh"); ("year", "2019");
          ("gender_inequality_index", "0.42")].

(** Rows with good and bad years. *)
Definition ex_year_rows : list Row :=
  [row_of [("year", "2019")]; row_of [("year", "abc")];
   row_of [("year", "")]; row_of [("indicator", "x")];
   row_of [("year", "1990")]; row_of [("year", " 2019")]].

(** A sex-disaggregated row with Cambodia's area identifier and no
    [admin_level]. *)
Definition ex_sex_row_without_level : Row :=
  row_of [("area_id", "1"); ("dataset_name_l1", "Literacy");
          ("F/M", "F"); ("year", "2019"); ("value", "80")].

(** Four small source tables and two feature collections for [ex_self].
    The national index rows spell the country's name differently from the
    country list; one area identifier is not a number. *)
Definition ex_inputs : Inputs :=
  {| gii_data :=
       [row_of [("area_id", "1"); ("admin_level", "country");
                ("admin_name", "Kingdom of Cambodia"); ("year", "2015");
                ("gii", "0.47")];
        row_of [("area_id", "12345"); ("admin_level", "province");
                ("admin_name", "Phnom Penh"); ("year", "2015");
                ("gii", "0.44")];
        row_of [("area_id", "12345"); ("admin_level", "province");
                ("admin_name", "Phnom Penh"); ("year", "2019");
                ("gii", "0.42")];
        row_of [("area_id", "12346"); ("admin_level", "province");
                ("admin_name", "Battambang"); ("year", "2019");
                ("gii", "0.45")];
        row_of [("area_id", "1"); ("admin_level", "country");
                ("admin_name", "Kingdom of Cambodia"); ("year", "2019");
                ("gii", "0.46")];
        row_of [("area_id", "2"); ("admin_level", "country");
                ("admin_name", "Viet Nam"); ("year", "2019");
                ("gii", "0.30")];
        row_of [("area_id", "n/a"); ("admin_level", "country");
                ("admin_name", "Nowhere"); ("year", "2019");
                ("gii", "0.50")]];
     dimension_data :=
       [row_of [("area_id", "12346"); ("admin_level", "province");
                ("", "Health"); ("dimension_name", "Maternal mortality");
                ("F/M", "F"); ("year", "2019"); ("value", "160");
                ("Unit", "per 100000")];
        row_of [("area_id", "12345"); ("admin_level", "province");
                ("", "Health"); ("dimension_name", "Adolescent births");
                ("F/M", "F"); ("year", "2019"); ("value", "30");
                ("Unit", "per 1000")];
        row_of [("area_id", "12345"); ("admin_level", "province");
                ("", "Empowerment"); ("dimension_name", "Seats held");
                ("F/M", "F"); ("year", "2019"); ("value", "20");
                ("Unit", "%")];
        row_of [("area_id", "1"); ("admin_level", "country");
                ("admin_name", "Kingdom of Cambodia"); ("", "Health");
                ("dimension_name", "Maternal mortality"); ("F/M", "F");
                ("year", "2019"); ("value", "160");
                ("Unit", "per 100000")]];
     indicator_data :=
       [row_of [("area_id", "12345"); ("admin_level", "province");
                ("common_name", "Labour"); ("indicator_name", "Participation");
                ("F/M", "M"); ("year", "2010"); ("value", "88");
                ("Unit", "%")];
        row_of [("area_id", "12345"); ("admin_level", "province");
                ("common_name", "Labour"); ("indicator_name", "Participation");
                ("F/M", "F"); ("year", "2019"); ("value", "77");
                ("Unit", "%")];
        row_of [("area_id", "12346"); ("admin_level", "province");
                ("common_name", "Education"); ("indicator_name", "Secondary");
                ("F/M", "F"); ("year", "2019"); ("value", "15");
                ("Unit", "%")];
        row_of [("area_id", "1"); ("admin_level", "country");
                ("common_name", "Labour"); ("indicator_name", "Participation");
                ("F/M", "F"); ("year", "1990"); ("value", "70");
                ("Unit", "%")]];
     sex_disagg_data :=
       [row_of [("area_id", "12346"); ("admin_level", "province");
                ("dataset_name_l1", "Literacy"); ("F/M", "F");
                ("year", "2019"); ("value", "71")];
        ex_sex_row_without_level;
        row_of [("area_id", "12345"); ("admin_level", "province");
                ("dataset_name_l1", "Literacy"); ("F/M", "F");
                ("year", "2019"); ("value", "90")];
        row_of [("area_id", "1"); ("admin_level", "country");
                ("dataset_name_l1", "Literacy"); ("F/M", "M");
                ("year", "2017"); ("value", "85")]];
     country_geojson :=
       [mkFeature {[ "iso" := JStr "KHM" ]} "polygon-khm";
        mkFeature {[ "iso" := JStr "VNM" ]} "polygon-vnm"];
     province_geojson :=
       [mkFeature {[ "iso" := JStr "KHM" ]} "polygon-12345";
        mkFeature {[ "iso" := JStr "VNM" ]} "polygon-777";
        mkFeature {[ "iso" := JStr "KHM" ]} "polygon-12346"] |}.

(** Only the sex-disaggregated row without [admin_level]. *)
Definition ex_sex_only_inputs : Inputs :=
  mkInputs [] [] [] [ex_sex_row_without_level] [] [].

(** Two rows of Cambodia, one per level, whose year is not a number. *)
Definition ex_bad_year_rows : list Row :=
  [row_of [("area_id", "1"); ("admin_level", "country"); ("year", "abc")];
   row_of [("area_id", "12345"); ("admin_level", "province");
           ("year", "abc")]].

(** The record of a line shorter than the header: Cambodia's national row
    with no field for the year and the columns after it. *)
Definition ex_short_row : Row :=
  <["year" := PyNone]> (<["gii" := PyNone]>
    (row_of [("area_id", "1"); ("admin_level", "country");
             ("admin_name", "Cambodia")])).

(** Two dimension rows of one year of which one has no category. *)
Definition ex_uncomparable_rows : list Row :=
  [row_of [("area_id", "1"); ("admin_level", "country"); ("", "Health");
           ("dimension_name", "Maternal mortality"); ("year", "2019")];
   <["" := PyNone]>
     (row_of [("area_id", "1"); ("admin_level", "country");
              ("dimension_name", "Seats held"); ("year", "2019")])].

(** A province row whose area identifier is not a number. *)
Definition ex_bad_area_row : Row :=
  row_of [("area_id", "abc"); ("admin_level", "province"); ("year", "2019")].

(** The country fields in the tables of the result [r] of [country]:
    every row carries the country's code; the [country] field is the
    country's name, except in the two national tables, where each record
    is built from one country-level row kept for the country and carries
    that row's [admin_name]. *)
Definition country_fields (self : Pipeline) (inp : Inputs) (country : Country)
    (r : CountryResult) : Prop :=
  let code := c_iso3 country in
  let kept rows := at_level "country" (filter (keeps self code) rows) in
  r_iso3 r = code ∧ r_name r = c_name country
  ∧ ∀ name t row, (name, t) ∈ r_csv_data r → row ∈ t →
      row !! "iso3" = Some (Str code)
      ∧ (name ≠ "gii-national" → name ≠ "dimension-national" →
         row !! "country" = Some (Str (c_name country)))
      ∧ (name = "gii-national" →
         t ≡ₚ gii_national_row code <$> kept (gii_data inp)
         ∧ ∃ src, src ∈ kept (gii_data inp)
                  ∧ row = gii_national_row code src
                  ∧ row !! "country" = Some (get src "admin_name" ""))
      ∧ (name = "dimension-national" →
         t ≡ₚ dimension_national_row code <$> kept (dimension_data inp)
         ∧ ∃ src, src ∈ kept (dimension_data inp)
                  ∧ row = dimension_national_row code src
                  ∧ row !! "country" = Some (get src "admin_name" "")).

(** * Further vocabulary *)

(** The keys of the records of the seven output tables, as the dictionary
    literals of the transformers list them (lines 200-205, 230-236,
    257-266, 294-304, 333-342, 370-380, 411-423). *)
Definition gii_national_keys : gset string :=
  list_to_set ["iso3"; "country"; "year"; "gender_inequality_index"].
Definition gii_subnational_keys : gset string :=
  list_to_set ["iso3"; "country"; "province"; "year";
               "gender_inequality_index"].
Definition dimension_national_keys : gset string :=
  list_to_set ["iso3"; "country"; "dimension_category"; "dimension";
               "gender"; "year"; "value"; "unit"].
Definition dimension_subnational_keys : gset string :=
  list_to_set ["iso3"; "country"; "province"; "dimension_category";
               "dimension"; "gender"; "year"; "value"; "unit"].
Definition indicator_national_keys : gset string :=
  list_to_set ["iso3"; "country"; "indicator_category"; "indicator";
               "gender"; "year"; "value"; "unit"].
Definition indicator_subnational_keys : gset string :=
  list_to_set ["iso3"; "country"; "province"; "indicator_category";
               "indicator"; "gender"; "year"; "value"; "unit"].
Definition sex_disaggregated_keys : gset string :=
  list_to_set ["iso3"; "country"; "province"; "indicator"; "sub_indicator";
               "gender"; "year"; "value"; "unit"; "calculation_type";
               "definition"].

(** The columns each table copies from its source: the field of the
    record and the header of the source column (same lines). *)
Definition gii_national_columns : list (string * string) :=
  [("country", "admin_name"); ("year", "year");
   ("gender_inequality_index", "gii")].
Definition gii_subnational_columns : list (string * string) :=
  [("year", "year"); ("gender_inequality_index", "gii")].
Definition dimension_subnational_columns : list (string * string) :=
  [("dimension_category", ""); ("dimension", "dimension_name");
   ("gender", "F/M"); ("year", "year"); ("value", "value"); ("unit", "Unit")].
Definition dimension_national_columns : list (string * string) :=
  ("country", "admin_name") :: dimension_subnational_columns.
Definition indicator_columns : list (string * string) :=
  [("indicator_category", "common_name"); ("indicator", "indicator_name");
   ("gender", "F/M"); ("year", "year"); ("value", "value"); ("unit", "Unit")].
Definition sex_disaggregated_columns : list (string * string) :=
  [("indicator", "dataset_name_l1"); ("sub_indicator", "dataset_name_l2");
   ("gender", "F/M"); ("year", "year"); ("value", "value"); ("unit", "Unit");
   ("calculation_type", "calc"); ("definition", "Definition")].

(** [record] copies the listed columns of [src]: a field holds the cell
    of the source column, be it a text or [None], and the empty string
    when [src] has no such column. *)
Definition copies (columns : list (string * string)) (src record : Row)
    : Prop :=
  Forall (λ fc : string * string,
    match src !! fc.2 with
    | Some v => record !! fc.1 = Some v
    | None => record !! fc.1 = Some (Str "")
    end) columns.

(** Every row of the table [out] has the keys [keys] and copies the
    columns [columns] of one of the rows [sources]. *)
Definition schema_of (keys : gset string) (columns : list (string * string))
    (sources out : list Row) : Prop :=
  Forall (λ row, dom row = keys
                 ∧ ∃ src, src ∈ sources ∧ copies columns src row) out.

(** ** Ordering the records of a table *)

(** What the sort needs of [<] on keys: a key is not below itself; a key
    below another is not above it; two keys compare in one direction when
    they do in the other; and keys found in order one after the other are
    in order.  For the cells of a tuple, which are compared only when they
    differ, the first is not asked, and two cells that are in order both
    ways are equal. *)
Definition key_order {K : Type} (lt : K → K → result bool) : Prop :=
  (∀ a, lt a a = Ok false)
  ∧ (∀ a b, lt a b = Ok true → lt b a = Ok false)
  ∧ (∀ a b, is_Ok (lt a b) → is_Ok (lt b a))
  ∧ (∀ a b c, lt b a = Ok false → lt c b = Ok false → lt c a = Ok false).

Definition cell_order {K : Type} (lt : K → K → result bool) : Prop :=
  (∀ a b, lt a b = Ok true → lt b a = Ok false)
  ∧ (∀ a b, is_Ok (lt a b) → is_Ok (lt b a))
  ∧ (∀ a b c, lt b a = Ok false → lt c b = Ok false → lt c a = Ok false)
  ∧ (∀ a b, lt b a = Ok false → lt a b = Ok false → a = b).

(** Two tuples of cells can be compared: at the first position where they
    differ both hold a text. *)
Fixpoint cells_orderable (xs ys : list cell) : Prop :=
  match xs, ys with
  | x :: xs', y :: ys' =>
      if decide (x = y) then cells_orderable xs' ys'
      else text_cell x ∧ text_cell y
  | _, _ => True
  end.

Global Instance cells_orderable_dec xs ys : Decision (cells_orderable xs ys).
Proof.
  revert ys. induction xs as [|x xs IH]; intros [|y ys]; simpl; try apply _.
  destruct (decide (x = y)); apply _.
Defined.

(** Two records can be put in order by year and then by [fields]: their
    years differ, or their cells at [fields] can be compared. *)
Definition orderable (fields : list string) (a b : Row) : Prop :=
  py_int (get a "year" "") ≠ py_int (get b "year" "")
  ∨ cells_orderable ((λ f, get a f "") <$> fields)
      ((λ f, get b f "") <$> fields).

Global Instance orderable_dec fields a b : Decision (orderable fields a b).
Proof. unfold orderable. apply _. Defined.

(** The transformer [T], reading [sources] and sorting the records
    [records] by year and [fields], returns a table exactly when the year
    of every source parses and any two records can be put in order. *)
Definition returns_iff (T : result (list Row)) (sources records : list Row)
    (fields : list string) : Prop :=
  is_Ok T ↔
  Forall year_parses sources
  ∧ ∀ a b, a ∈ records → b ∈ records → orderable fields a b.

(** Two national index rows: the record of a line that ends before the
    [gii] field, and a row that lacks the [admin_name] and [gii] columns
    and has a column no schema names. *)
Definition ex_schema_rows : list Row :=
  [<["gii" := PyNone]>
     (row_of [("admin_level", "country"); ("admin_name", "Cambodia");
              ("year", "2019")]);
   row_of [("admin_level", "country"); ("year", "2018");
           ("remark", "provisional")]].

(** The rows of the four source tables that the partitioner keeps for a
    country. *)
Definition kept_rows (self : Pipeline) (inp : Inputs) (country : Country)
    : list Row :=
  filter (keeps self (c_iso3 country))
    (gii_data inp ++ dimension_data inp ++ indicator_data inp
     ++ sex_disagg_data inp)%list.

(** The example tables with the two rows of [ex_bad_year_rows] added to the
    sex-disaggregated source. *)
Definition ex_inputs_bad_year : Inputs :=
  {| gii_data := gii_data ex_inputs;
     dimension_data := dimension_data ex_inputs;
     indicator_data := indicator_data ex_inputs;
     sex_disagg_data := (sex_disagg_data ex_inputs ++ ex_bad_year_rows)%list;
     country_geojson := country_geojson ex_inputs;
     province_geojson := province_geojson ex_inputs |}.

(** The example tables with the record of a short line added to the
    index source. *)
Definition ex_inputs_short : Inputs :=
  {| gii_data := (gii_data ex_inputs ++ [ex_short_row])%list;
     dimension_data := dimension_data ex_inputs;
     indicator_data := indicator_data ex_inputs;
     sex_disagg_data := sex_disagg_data ex_inputs;
     country_geojson := country_geojson ex_inputs;
     province_geojson := province_geojson ex_inputs |}.

(** The features of the collection named [name] in a result's
    [geojson_data]. *)
Definition geometry (r : CountryResult) (name : string) : list Feature :=
  match list_find (λ nc : string * FeatureCollection, nc.1 = name)
          (r_geojson_data r) with
  | Some (_, (_, fc)) => fc_features fc
  | None => []
  end.

(** * The dataset sink (lines 541-650)

    The HDX [Dataset] object belongs to a library.  The model keeps what
    this code hands to it: the name and title it is created with and, in
    order, the calls made on it with their arguments.  What the library
    does with them is outside the model. *)

(** [str.lower()]: ASCII capitals are lowered; other bytes are left alone,
    so the non-ASCII letters that Python also lowers are outside the
    model. *)
Definition lower_ascii (c : ascii) : ascii :=
  let n := N_of_ascii c in
  if ((65 <=? n) && (n <=? 90))%N then ascii_of_N (n + 32) else c.

Fixpoint lower (s : string) : string :=
  match s with
  | EmptyString => EmptyString
  | String c s' => String (lower_ascii c) (lower s')
  end.

(** [os.path.join(a, b)] on a POSIX system. *)
Definition join (a b : string) : string :=
  if String.prefix "/" b then b
  else if bool_decide (a = "") || String.prefix "/" (String.rev a)
       then a ++ b
       else a ++ "/" ++ b.

Inductive Call : Type :=
  | set_time_period_year_range (min_year max_year : Z)
  | add_tags (tags : list string)
  | set_subnational (b : bool)
  | add_country_location (country_code : string)
  (** [dataset.generate_resource(folder, filename, rows, headers,
      resourcedata)]; [headers] are the keys of the first row, whose order
      a [gmap] does not keep. *)
  | generate_resource (folder filename : string) (rows : list Row)
      (headers : gset string) (name description : string)
  (** [json.dump] to [path], then [Resource({name, description, format})],
      [set_file_to_upload(path)] and [dataset.add_update_resource]. *)
  | add_update_resource (name description format path : string)
      (geojson : FeatureCollection).

Record Dataset : Type := mkDataset {
  ds_name : string;
  ds_title : string;
  ds_calls : list Call;
}.

Definition call (dataset : Dataset) (c : Call) : Dataset :=
  {| ds_name := ds_name dataset; ds_title := ds_title dataset;
     ds_calls := ds_calls dataset ++ [c] |}.

Section sink.
(** [self._temp_dir], [self._configuration["tags"]], and the countries for
    which the library's [add_country_location] does not raise
    [HDXError]. *)
Variable _temp_dir : string.
Variable tags : list string.
Variable known_location : string → bool.

(** Lines 541-565. *)
Definition _add_csv_resource (dataset : Dataset) (rows : list Row)
    (resource_name description : string) : Dataset :=
  match rows with
  | [] => dataset
  | row0 :: _ =>
      let headers := dom row0 in
      call dataset
        (generate_resource _temp_dir resource_name rows headers
           resource_name description)
  end.

(** Lines 567-592. *)
Definition _add_geojson_resource (dataset : Dataset)
    (geojson : FeatureCollection) (resource_name description : string)
    : Dataset :=
  match fc_features geojson with
  | [] => dataset
  | _ :: _ =>
      let geojson_path := join _temp_dir resource_name in
      call dataset
        (add_update_resource resource_name description "GeoJSON"
           geojson_path geojson)
  end.

(** Lines 624-632 and 640-643. *)
Definition csv_descriptions (country_name : string) : gmap string string :=
  list_to_map
    [("gii-national",
      "National Gender Inequality Index scores for " ++ country_name);
     ("gii-subnational",
      "Subnational Gender Inequality Index scores for " ++ country_name);
     ("dimension-national",
      "National Gender Inequality Index by dimension for " ++ country_name);
     ("dimension-subnational",
      "Subnational Gender Inequality Index by dimension for " ++ country_name);
     ("indicator-national",
      "National Gender Inequality Index by indicator for " ++ country_name);
     ("indicator-subnational",
      "Subnational Gender Inequality Index by indicator for " ++ country_name);
     ("sex-disaggregated", "Sex-disaggregated data for " ++ country_name)].

Definition geojson_descriptions (country_name : string) : gmap string string :=
  list_to_map
    [("country-boundary", "Country boundary for " ++ country_name);
     ("province-boundaries", "Province boundaries for " ++ country_name)].

(** Lines 594-650.  [None] is the [return None] of the [except HDXError]
    branch. *)
Definition generate_dataset (country_data : CountryResult) : option Dataset :=
  let country_code := r_iso3 country_data in
  let country_name := r_name country_data in
  let iso_lower := lower country_code in
  let dataset_name := iso_lower ++ "-adpc-gem" in
  let dataset_title := country_name ++ " - Gender Equality Monitor" in
  let dataset :=
    {| ds_name := dataset_name; ds_title := dataset_title; ds_calls := [] |} in
  let dataset :=
    call dataset
      (set_time_period_year_range (r_min_year country_data)
         (r_max_year country_data)) in
  let dataset := call dataset (add_tags tags) in
  let dataset := call dataset (set_subnational true) in
  if known_location country_code then
    let dataset := call dataset (add_country_location country_code) in
    let dataset :=
      foldl (λ dataset '(suffix, rows),
               let resource_name := iso_lower ++ "-gem-" ++ suffix ++ ".csv" in
               let description :=
                 default "" (csv_descriptions country_name !! suffix) in
               _add_csv_resource dataset rows resource_name description)
        dataset (r_csv_data country_data) in
    let dataset :=
      foldl (λ dataset '(suffix, geojson),
               let resource_name :=
                 iso_lower ++ "-gem-" ++ suffix ++ ".geojson" in
               let description :=
                 default "" (geojson_descriptions country_name !! suffix) in
               _add_geojson_resource dataset geojson resource_name description)
        dataset (r_geojson_data country_data) in
    Some dataset
  else None.
End sink.

(** The names of the resources handed to a dataset, in order. *)
Definition resource_names (dataset : Dataset) : list string :=
  omap (λ c, match c with
             | generate_resource _ filename _ _ _ _ => Some filename
             | add_update_resource name _ _ _ _ => Some name
             | _ => None
             end) (ds_calls dataset).

(** The resource names a result gives rise to: one per non-empty table,
    then one per non-empty feature collection. *)
Definition expected_csv_names (r : CountryResult) : list string :=
  omap (λ '(suffix, rows),
          match rows : list Row with
          | [] => None
          | _ :: _ => Some (lower (r_iso3 r) ++ "-gem-" ++ suffix ++ ".csv")
          end) (r_csv_data r).

Definition expected_geojson_names (r : CountryResult) : list string :=
  omap (λ '(suffix, geojson),
          match fc_features geojson with
          | [] => None
          | _ :: _ =>
              Some (lower (r_iso3 r) ++ "-gem-" ++ suffix ++ ".geojson")
          end) (r_geojson_data r).

Definition expected_resource_names (r : CountryResult) : list string :=
  (expected_csv_names r ++ expected_geojson_names r)%list.

(** A sink for the examples: every country but Viet Nam has a known
    location. *)
Definition ex_known_location (country_code : string) : bool :=
  negb (String.eqb country_code "VNM").

(** * The reference data loader (lines 34-77)

    The loaders are modelled from the parsed [data["features"]] on; reading
    and parsing the files is outside the model. *)

(** [props[k]] *)
Definition json_getitem (props : gmap string json) (k : string) : result json :=
  match props !! k with
  | Some v => Ok v
  | None => Raise KeyError
  end.

(** A country dictionary as the loader builds it: its three values are
    whatever JSON the file holds. *)
Record LoadedCountry : Type := mkLoadedCountry {
  lc_iso3 : json;
  lc_name : json;
  lc_area_id : json;
}.

(** Lines 44-56. *)
Fixpoint _load_countries (features : list Feature)
    : result (list LoadedCountry) :=
  match features with
  | [] => Ok []
  | feature :: rest =>
      let props := f_properties feature in
      iso ← json_getitem props "iso";
      name_0 ← json_getitem props "name_0";
      area_id ← json_getitem props "area_id";
      countries ← _load_countries rest;
      Ok ({| lc_iso3 := iso; lc_name := name_0; lc_area_id := area_id |}
          :: countries)
  end.

(** Python's [==] on JSON scalars, which is also the equality of
    dictionary keys: [True] equals [1] and [False] equals [0]. *)
Definition py_eq (a b : json) : bool :=
  match a, b with
  | JNull, JNull => true
  | JStr s, JStr t => bool_decide (s = t)
  | JNum m, JNum n => bool_decide (m = n)
  | JBool x, JBool y => bool_decide (x = y)
  | JBool x, JNum n | JNum n, JBool x =>
      bool_decide (n = if x then 1 else 0)
  | _, _ => false
  end.

(** The integer a Boolean key stands for. *)
Definition py_key (a : json) : json :=
  match a with
  | JBool b => JNum (if b then 1 else 0)
  | _ => a
  end.

(** A dictionary with JSON keys, as the list of its items in insertion
    order.  [d[k] = v] replaces the value of an equal key, which keeps its
    place, and otherwise adds the item at the end. *)
Fixpoint dict_set {V : Type} (d : list (json * V)) (k : json) (v : V)
    : list (json * V) :=
  match d with
  | [] => [(k, v)]
  | (k', v') :: d' =>
      if py_eq k' k then (k', v) :: d' else (k', v') :: dict_set d' k v
  end.

(** [d.get(k)] *)
Fixpoint dict_get {V : Type} (d : list (json * V)) (k : json) : option V :=
  match d with
  | [] => None
  | (k', v') :: d' => if py_eq k' k then Some v' else dict_get d' k
  end.

(** A value of the mapping as the loader builds it. *)
Record LoadedProvince : Type := mkLoadedProvince {
  lp_iso3 : json;
  lp_name : json;
}.

(** Lines 68-77.  The right-hand side of the assignment is evaluated before
    the key. *)
Fixpoint build_province_mapping_loop (mapping : list (json * LoadedProvince))
    (features : list Feature) : result (list (json * LoadedProvince)) :=
  match features with
  | [] => Ok mapping
  | feature :: rest =>
      let props := f_properties feature in
      iso ← json_getitem props "iso";
      name_1 ← json_getitem props "name_1";
      area_id ← json_getitem props "area_id";
      build_province_mapping_loop
        (dict_set mapping area_id {| lp_iso3 := iso; lp_name := name_1 |})
        rest
  end.

Definition _build_province_mapping (features : list Feature)
    : result (list (json * LoadedProvince)) :=
  build_province_mapping_loop [] features.

(** The typed reading of the loaded reference data that the engine works
    with: codes and names are strings, area identifiers are integers. *)
Definition typed_country (c : LoadedCountry) : option Country :=
  match lc_iso3 c, lc_name c, lc_area_id c with
  | JStr iso3, JStr name, JNum area_id => Some (mkCountry iso3 name area_id)
  | _, _, _ => None
  end.

Definition typed_province (kv : json * LoadedProvince)
    : option (Z * ProvinceInfo) :=
  match kv.1, lp_iso3 kv.2, lp_name kv.2 with
  | JNum area_id, JStr iso3, JStr name =>
      Some (area_id, mkProvinceInfo iso3 name)
  | _, _, _ => None
  end.

(** The last feature of a collection whose [area_id] equals [k]. *)
Definition has_area (k : json) (feature : Feature) : bool :=
  match f_properties feature !! "area_id" with
  | Some a => py_eq a k
  | None => false
  end.

Fixpoint last_with_area (features : list Feature) (k : json)
    : option Feature :=
  match features with
  | [] => None
  | feature :: rest =>
      match last_with_area rest k with
      | Some later => Some later
      | None => if has_area k feature then Some feature else None
      end
  end.

(** Province features of the example countries; area 12345 appears
    twice. *)
Definition ex_province_features : list Feature :=
  [mkFeature (<["iso" := JStr "KHM"]> (<["name_1" := JStr "Phnom Penh (old)"]>
                {[ "area_id" := JNum 12345 ]})) "polygon-a";
   mkFeature (<["iso" := JStr "VNM"]> (<["name_1" := JStr "Ha Noi"]>
                {[ "area_id" := JNum 777 ]})) "polygon-b";
   mkFeature (<["iso" := JStr "KHM"]> (<["name_1" := JStr "Phnom Penh"]>
                {[ "area_id" := JNum 12345 ]})) "polygon-c"].

(** Country features of the example countries. *)
Definition ex_country_features : list Feature :=
  [mkFeature (<["iso" := JStr "KHM"]> (<["name_0" := JStr "Cambodia"]>
                {[ "area_id" := JNum 1 ]})) "polygon-khm";
   mkFeature (<["iso" := JStr "VNM"]> (<["name_0" := JStr "Viet Nam"]>
                {[ "area_id" := JNum 2 ]})) "polygon-vnm"].

(** * Properties *)

Set Warnings "-clear-no-such-hyp".

(** ** The error monad *)

(** Closed goals are settled by evaluation. *)
Ltac by_vm :=
  match goal with
  | |- ?x = ?y => vm_cast_no_check (@eq_refl _ y)
  | |- ?P => apply (bool_decide_unpack P); vm_cast_no_check I
  end.

Lemma is_Ok_eval {A} (m : result A) :
  bool_decide (is_Ok m) = true → ∃ a, m = Ok a.
Proof. by intros ?%bool_decide_eq_true. Qed.

Lemma bind_Ok {A B} (f : A → result B) (m : result A) (b : B) :
  m ≫= f = Ok b ↔ ∃ a, m = Ok a ∧ f a = Ok b.
Proof.
  destruct m as [a|e]; simpl; split.
  - eauto.
  - intros (a' & [= <-] & ?); done.
  - done.
  - intros (a' & ? & ?); done.
Qed.

Lemma int_str_raises (s : string) (e : exn) :
  int_str s = Raise e → e = ValueError.
Proof. unfold int_str. destruct (signed_digits _); congruence. Qed.

Lemma py_int_raises (v : cell) (e : exn) :
  py_int v = Raise e → e = ValueError ∨ e = TypeError.
Proof.
  destruct v as [s|]; simpl; [|intros [= <-]; by right].
  intros ->%int_str_raises. by left.
Qed.

Lemma py_int_cases (v : cell) :
  (∃ n, py_int v = Ok n) ∨ py_int v = Raise ValueError
  ∨ py_int v = Raise TypeError.
Proof.
  destruct (py_int v) as [n|e] eqn:Hv; [eauto|].
  apply py_int_raises in Hv as [->| ->]; auto.
Qed.

(** ** The partitioner *)

Lemma elem_of_province_area_ids (self : Pipeline) (country_code : string) (a : Z) :
  a ∈ _get_province_area_ids self country_code ↔
  p_iso3 <$> _province_mapping self !! a = Some country_code.
Proof.
  unfold _get_province_area_ids. rewrite elem_of_dom. unfold is_Some.
  setoid_rewrite map_lookup_filter_Some. rewrite fmap_Some. naive_solver.
Qed.

Lemma filter_body_spec (self : Pipeline) (country_code : string) (row : Row) :
  match filter_body (_get_country_area_id self country_code)
          (_get_province_area_ids self country_code) row with
  | Ok true => keeps self country_code row
  | Ok false => ¬ keeps self country_code row
  | Raise e => (e = ValueError ∨ e = TypeError) ∧ ¬ keeps self country_code row
  end.
Proof.
  unfold filter_body, keeps.
  destruct (row_area_id row) as [a|e] eqn:Ha; simpl.
  - pose proof (elem_of_province_area_ids self country_code a) as Hp.
    repeat case_bool_decide; simpl; naive_solver.
  - split; [|naive_solver].
    unfold row_area_id in Ha. destruct (row !! "area_id"); [|done].
    by eapply py_int_raises.
Qed.

Lemma filter_loop_spec (self : Pipeline) (country_code : string) (rows : list Row) :
  filter_loop (_get_country_area_id self country_code)
    (_get_province_area_ids self country_code) rows
  = Ok (filter (keeps self country_code) rows).
Proof.
  induction rows as [|row rows IH]; simpl; [done|].
  rewrite filter_cons.
  pose proof (filter_body_spec self country_code row) as Hb.
  destruct (filter_body _ _ row) as [[]|e].
  - rewrite IH. simpl. by rewrite decide_True.
  - by rewrite decide_False.
  - destruct Hb as [[-> | ->] Hb]; by rewrite decide_False.
Qed.

(** ** [for_rows] and [py_sorted] *)

Section py_sorted_facts.
Context {A K : Type} (key : A → result K) (lt : K → K → result bool).

Lemma decorate_Ok (l : list A) (d : list (K * A)) :
  decorate key l = Ok d →
  d.*2 = l ∧ Forall (λ kx, key kx.2 = Ok kx.1) d.
Proof.
  revert d. induction l as [|x l IH]; intros d; simpl.
  - intros [= <-]. by split.
  - destruct (key x) as [k|] eqn:Hk; simpl; [|done].
    destruct (decorate key l) as [d'|]; simpl; [|done].
    intros [= <-]. destruct (IH d' eq_refl) as [<- Hd]. split; [done|].
    by constructor.
Qed.

Lemma decorate_succeeds (l : list A) :
  Forall (λ x, is_Ok (key x)) l → is_Ok (decorate key l).
Proof.
  induction 1 as [|x l [k Hk] _ [d Hd]]; simpl.
  - by eexists.
  - rewrite Hk, Hd. by eexists.
Qed.

(** The first element whose key raises decides the outcome. *)
Lemma decorate_first_raise (pre post : list A) (x : A) (e : exn) :
  Forall (λ x, is_Ok (key x)) pre → key x = Raise e →
  decorate key (pre ++ x :: post) = Raise e.
Proof.
  intros Hpre Hx. induction Hpre as [|y pre [k Hk] _ IH]; simpl.
  - by rewrite Hx.
  - by rewrite Hk, IH.
Qed.

Lemma insert_keyed_perm (x : K * A) (l r : list (K * A)) :
  insert_keyed lt x l = Ok r → r ≡ₚ x :: l.
Proof.
  revert r. induction l as [|y l IH]; intros r; simpl.
  - by intros [= <-].
  - destruct (lt y.1 x.1) as [[]|]; simpl; [|by intros [= <-]|done].
    destruct (insert_keyed lt x l) as [r'|]; simpl; [|done].
    intros [= <-]. rewrite (IH r' eq_refl). apply Permutation_swap.
Qed.

Lemma sort_keyed_perm (d s : list (K * A)) :
  sort_keyed lt d = Ok s → s ≡ₚ d.
Proof.
  revert s. induction d as [|x d IH]; intros s; simpl.
  - by intros [= <-].
  - destruct (sort_keyed lt d) as [s'|]; simpl; [|done].
    intros ->%insert_keyed_perm. by rewrite (IH s' eq_refl).
Qed.

Lemma py_sorted_perm (l out : list A) :
  py_sorted key lt l = Ok out → out ≡ₚ l.
Proof.
  unfold py_sorted. destruct (decorate key l) as [d|] eqn:Hd; simpl; [|done].
  destruct (sort_keyed lt d) as [s|] eqn:Hs; simpl; [|done].
  intros [= <-]. apply decorate_Ok in Hd as [<- Hd].
  by rewrite (sort_keyed_perm _ _ Hs).
Qed.

(** The sort raises only what a comparison raises. *)
Lemma insert_keyed_raise (x : K * A) (l : list (K * A)) (e : exn) :
  insert_keyed lt x l = Raise e → ∃ a b, lt a b = Raise e.
Proof.
  induction l as [|y l IH]; simpl; [done|].
  destruct (lt y.1 x.1) as [[]|e'] eqn:Hyx; simpl.
  - destruct (insert_keyed lt x l); simpl; [done|].
    intros [= ->]. by apply IH.
  - done.
  - intros [= ->]. eauto.
Qed.

Lemma sort_keyed_raise (d : list (K * A)) (e : exn) :
  sort_keyed lt d = Raise e → ∃ a b, lt a b = Raise e.
Proof.
  induction d as [|x d IH]; simpl; [done|].
  destruct (sort_keyed lt d) as [s|e']; simpl.
  - apply insert_keyed_raise.
  - intros [= ->]. by apply IH.
Qed.

(** Elements that can all be compared are sorted. *)
Lemma insert_keyed_succeeds (x : K * A) (l : list (K * A)) :
  Forall (λ y, is_Ok (lt y.1 x.1)) l → is_Ok (insert_keyed lt x l).
Proof.
  induction 1 as [|y l [[] Hy] _ [r Hr]]; simpl.
  - by eexists.
  - rewrite Hy, Hr. by eexists.
  - rewrite Hy. by eexists.
Qed.

Lemma sort_keyed_succeeds (d : list (K * A)) :
  (∀ x y, x ∈ d → y ∈ d → is_Ok (lt x.1 y.1)) → is_Ok (sort_keyed lt d).
Proof.
  induction d as [|x d IH]; intros Hcmp; simpl; [by eexists|].
  destruct IH as [s Hs].
  { intros y z Hy Hz. apply Hcmp; by right. }
  rewrite Hs. simpl. apply insert_keyed_succeeds.
  apply Forall_forall. intros y Hy.
  rewrite (sort_keyed_perm _ _ Hs) in Hy. apply Hcmp; [by right|by left].
Qed.

Lemma py_sorted_succeeds (l : list A) :
  Forall (λ x, is_Ok (key x)) l →
  (∀ x y kx ky, x ∈ l → y ∈ l → key x = Ok kx → key y = Ok ky →
                is_Ok (lt kx ky)) →
  ∃ out, py_sorted key lt l = Ok out ∧ out ≡ₚ l.
Proof.
  intros [d Hd]%decorate_succeeds Hcmp.
  pose proof (decorate_Ok _ _ Hd) as [Hl Hkeys].
  destruct (sort_keyed_succeeds d) as [s Hs].
  { intros x y Hx Hy. rewrite Forall_forall in Hkeys.
    apply (Hcmp x.2 y.2).
    - rewrite <- Hl. by apply list_elem_of_fmap_2.
    - rewrite <- Hl. by apply list_elem_of_fmap_2.
    - by apply Hkeys.
    - by apply Hkeys. }
  assert (py_sorted key lt l = Ok s.*2) as Hout.
  { unfold py_sorted. rewrite Hd. simpl. by rewrite Hs. }
  eexists. split; [exact Hout|]. by eapply py_sorted_perm.
Qed.

Lemma py_sorted_first_raise (pre post : list A) (x : A) (e : exn) :
  Forall (λ x, is_Ok (key x)) pre → key x = Raise e →
  py_sorted key lt (pre ++ x :: post) = Raise e.
Proof.
  intros Hpre Hx. unfold py_sorted.
  by rewrite (decorate_first_raise pre post x e).
Qed.

Lemma py_sorted_raise_compare (l : list A) (e : exn) :
  Forall (λ x, is_Ok (key x)) l →
  py_sorted key lt l = Raise e → ∃ a b, lt a b = Raise e.
Proof.
  intros [d Hd]%decorate_succeeds. unfold py_sorted. rewrite Hd. simpl.
  destruct (sort_keyed lt d) as [s|e'] eqn:Hs; simpl; [done|].
  intros [= ->]. by eapply sort_keyed_raise.
Qed.

(** A key found below another is not above it. *)
Hypothesis lt_asym : ∀ a b, lt a b = Ok true → lt b a = Ok false.

Lemma insert_keyed_sorted (x : K * A) (l r : list (K * A)) :
  Sorted (keyed_le lt) l → insert_keyed lt x l = Ok r →
  Sorted (keyed_le lt) r.
Proof.
  intros Hl. revert r. induction Hl as [|y l Hl IH Hhd]; intros r; simpl.
  - intros [= <-]. repeat constructor.
  - destruct (lt y.1 x.1) as [[]|] eqn:Hyx; simpl; [| |done].
    + destruct (insert_keyed lt x l) as [r'|] eqn:Hr'; simpl; [|done].
      intros [= <-]. constructor; [by apply IH|].
      destruct Hhd as [|z l Hyz]; simpl in Hr'.
      * injection Hr' as <-. constructor. by apply lt_asym.
      * destruct (lt z.1 x.1) as [[]|]; simpl in Hr'; [| |done].
        -- destruct (insert_keyed lt x l); simpl in Hr'; [|done].
           injection Hr' as <-. by constructor.
        -- injection Hr' as <-. constructor. by apply lt_asym.
    + intros [= <-]. constructor; [by constructor|]. by constructor.
Qed.

Lemma sort_keyed_sorted (d s : list (K * A)) :
  sort_keyed lt d = Ok s → Sorted (keyed_le lt) s.
Proof.
  revert s. induction d as [|x d IH]; intros s; simpl.
  - intros [= <-]. constructor.
  - destruct (sort_keyed lt d) as [s'|]; simpl; [|done].
    apply insert_keyed_sorted. by apply IH.
Qed.

Lemma keyed_sorted_values (d : list (K * A)) :
  Forall (λ kx, key kx.2 = Ok kx.1) d →
  Sorted (keyed_le lt) d → Sorted (key_le key lt) d.*2.
Proof.
  intros Hd Hs. induction Hs as [|x d Hs IH Hhd]; simpl; [constructor|].
  apply Forall_cons in Hd as [Hx Hd]. constructor; [by apply IH|].
  destruct Hhd as [|y d Hxy]; simpl; constructor.
  apply Forall_cons in Hd as [Hy _]. by exists x.1, y.1.
Qed.

Lemma py_sorted_sorted (l out : list A) :
  py_sorted key lt l = Ok out → Sorted (key_le key lt) out.
Proof.
  unfold py_sorted. destruct (decorate key l) as [d|] eqn:Hd; simpl; [|done].
  destruct (sort_keyed lt d) as [s|] eqn:Hs; simpl; [|done].
  intros [= <-]. apply decorate_Ok in Hd as [<- Hd].
  apply keyed_sorted_values; [|by eapply sort_keyed_sorted].
  by rewrite (sort_keyed_perm _ _ Hs).
Qed.
End py_sorted_facts.

(** ** Comparing keys *)

Lemma lt_cell_raise (a b : cell) (e : exn) :
  lt_cell a b = Raise e → e = TypeError.
Proof. destruct a, b; simpl; congruence. Qed.

Lemma lt_last_raise {A} `{EqDecision A} (ltA : A → A → result bool) :
  (∀ a b e, ltA a b = Raise e → e = TypeError) →
  ∀ a b e, lt_last ltA a b = Raise e → e = TypeError.
Proof. intros HA a b e. unfold lt_last. case_decide; [done|apply HA]. Qed.

Lemma lt_cons_raise {A B} `{EqDecision A} (ltA : A → A → result bool)
    (ltB : B → B → result bool) :
  (∀ a b e, ltA a b = Raise e → e = TypeError) →
  (∀ a b e, ltB a b = Raise e → e = TypeError) →
  ∀ a b e, lt_cons ltA ltB a b = Raise e → e = TypeError.
Proof.
  intros HA HB a b e. unfold lt_cons. case_decide; [apply HB|apply HA].
Qed.

Lemma lt_Z_raise (a b : Z) (e : exn) : lt_Z a b = Raise e → e = TypeError.
Proof. done. Qed.

Lemma lt_rev_raise (a b : Z) (e : exn) : lt_rev a b = Raise e → e = TypeError.
Proof. done. Qed.

Lemma lt_key2_raise a b e : lt_key2 a b = Raise e → e = TypeError.
Proof.
  apply lt_cons_raise; [apply lt_Z_raise|].
  apply lt_last_raise, lt_cell_raise.
Qed.

Lemma lt_key3_raise a b e : lt_key3 a b = Raise e → e = TypeError.
Proof.
  apply lt_cons_raise; [apply lt_Z_raise|].
  apply lt_cons_raise; [apply lt_cell_raise|].
  apply lt_last_raise, lt_cell_raise.
Qed.

Lemma lt_key4_raise a b e : lt_key4 a b = Raise e → e = TypeError.
Proof.
  apply lt_cons_raise; [apply lt_Z_raise|].
  apply lt_cons_raise; [apply lt_cell_raise|].
  apply lt_cons_raise; [apply lt_cell_raise|].
  apply lt_last_raise, lt_cell_raise.
Qed.

Lemma string_ltb_asym (s t : string) :
  String.ltb s t = true → String.ltb t s = false.
Proof.
  unfold String.ltb. rewrite (String.compare_antisym t s).
  by destruct (String.compare s t).
Qed.

Lemma lt_cell_asym (a b : cell) :
  lt_cell a b = Ok true → lt_cell b a = Ok false.
Proof.
  destruct a as [s|], b as [t|]; simpl; try done.
  intros [= H]. by rewrite (string_ltb_asym _ _ H).
Qed.

Lemma lt_Z_asym (a b : Z) : lt_Z a b = Ok true → lt_Z b a = Ok false.
Proof.
  unfold lt_Z. intros [= H%Z.ltb_lt]. f_equal. apply Z.ltb_ge. lia.
Qed.

Lemma lt_rev_asym (a b : Z) : lt_rev a b = Ok true → lt_rev b a = Ok false.
Proof.
  unfold lt_rev. intros [= H%Z.ltb_lt]. f_equal. apply Z.ltb_ge. lia.
Qed.

Lemma lt_last_asym {A} `{EqDecision A} (ltA : A → A → result bool) :
  (∀ a b, ltA a b = Ok true → ltA b a = Ok false) →
  ∀ a b, lt_last ltA a b = Ok true → lt_last ltA b a = Ok false.
Proof.
  intros HA a b. unfold lt_last. repeat case_decide; try done. apply HA.
Qed.

Lemma lt_cons_asym {A B} `{EqDecision A} (ltA : A → A → result bool)
    (ltB : B → B → result bool) :
  (∀ a b, ltA a b = Ok true → ltA b a = Ok false) →
  (∀ a b, ltB a b = Ok true → ltB b a = Ok false) →
  ∀ a b, lt_cons ltA ltB a b = Ok true → lt_cons ltA ltB b a = Ok false.
Proof.
  intros HA HB a b. unfold lt_cons. repeat case_decide; try congruence.
  - apply HB.
  - apply HA.
Qed.

Lemma lt_key2_asym a b : lt_key2 a b = Ok true → lt_key2 b a = Ok false.
Proof.
  apply lt_cons_asym; [apply lt_Z_asym|]. apply lt_last_asym, lt_cell_asym.
Qed.

Lemma lt_key3_asym a b : lt_key3 a b = Ok true → lt_key3 b a = Ok false.
Proof.
  apply lt_cons_asym; [apply lt_Z_asym|].
  apply lt_cons_asym; [apply lt_cell_asym|].
  apply lt_last_asym, lt_cell_asym.
Qed.

Lemma lt_key4_asym a b : lt_key4 a b = Ok true → lt_key4 b a = Ok false.
Proof.
  apply lt_cons_asym; [apply lt_Z_asym|].
  apply lt_cons_asym; [apply lt_cell_asym|].
  apply lt_cons_asym; [apply lt_cell_asym|].
  apply lt_last_asym, lt_cell_asym.
Qed.

(** Keys whose cells are all strings can be compared. *)
Lemma lt_last_text (a b : cell) :
  text_cell a → text_cell b → is_Ok (lt_last lt_cell a b).
Proof.
  intros [s ->] [t ->]. unfold lt_last. case_decide; by eexists.
Qed.

Lemma lt_cons_text {B} (ltB : B → B → result bool) (a b : cell) (x y : B) :
  text_cell a → text_cell b → is_Ok (ltB x y) →
  is_Ok (lt_cons lt_cell ltB (a, x) (b, y)).
Proof.
  intros [s ->] [t ->] HB. unfold lt_cons. simpl.
  case_decide; [done|by eexists].
Qed.

Lemma lt_cons_Z {B} (ltB : B → B → result bool) (m n : Z) (x y : B) :
  is_Ok (ltB x y) → is_Ok (lt_cons lt_Z ltB (m, x) (n, y)).
Proof.
  intros HB. unfold lt_cons. simpl. case_decide; [done|by eexists].
Qed.

Lemma full_record_get (row : Row) (k d : string) :
  full_record row → text_cell (get row k d).
Proof.
  intros Hfull. unfold get. specialize (Hfull k).
  destruct (row !! k) as [[s|]|]; simpl; [by exists s|done|by exists d].
Qed.

(** ** Province resolution *)

Lemma province_name_of_unfold (self : Pipeline) (row : Row) :
  province_name_of self row =
  match row !! "area_id" with
  | None => Ok ""
  | Some v =>
      if truthy v then
        match py_int v with
        | Ok a => Ok (match _province_mapping self !! a with
                      | Some info => p_name info
                      | None => ""
                      end)
        | Raise e => Raise e
        end
      else Ok ""
  end.
Proof.
  unfold province_name_of, get. destruct (row !! "area_id") as [v|]; simpl.
  - destruct (truthy v); [|reflexivity]. destruct (py_int v); reflexivity.
  - reflexivity.
Qed.

Lemma falsy_int (v : cell) : truthy v = false → ¬ is_Ok (py_int v).
Proof.
  destruct v as [s|]; simpl; [|by intros _ [? ?]].
  intros Hs%bool_decide_eq_false. destruct (decide (s = "")) as [->|]; [|done].
  by intros [? ?].
Qed.

Lemma province_name_of_Ok (self : Pipeline) (row : Row) (p : string) :
  province_name_of self row = Ok p → p = resolved_province self row.
Proof.
  rewrite province_name_of_unfold. unfold resolved_province.
  destruct (row !! "area_id") as [v|]; [|congruence].
  destruct (truthy v) eqn:Hv.
  - destruct (py_int v); congruence.
  - apply falsy_int in Hv. destruct (py_int v); [|congruence].
    exfalso. apply Hv. by eexists.
Qed.

Lemma province_name_of_raise (self : Pipeline) (row : Row) (e : exn) :
  province_name_of self row = Raise e →
  e = ValueError ∧ ¬ is_Ok (row_area_id row).
Proof.
  rewrite province_name_of_unfold. unfold row_area_id.
  destruct (row !! "area_id") as [v|]; [|done].
  destruct (truthy v) eqn:Hv; [|done].
  destruct (py_int v) eqn:Hs; [done|]. intros [= ->].
  split; [|by intros [? ?]].
  destruct v as [s|]; [by eapply int_str_raises|done].
Qed.

Lemma province_name_of_succeeds (self : Pipeline) (row : Row) :
  is_Ok (row_area_id row) →
  province_name_of self row = Ok (resolved_province self row).
Proof.
  intros Ha. destruct (province_name_of self row) as [p|e] eqn:Hp.
  - by apply province_name_of_Ok in Hp as ->.
  - by apply province_name_of_raise in Hp as [_ []].
Qed.

(** ** The common shape of the seven transformers *)

Lemma for_rows_Ok (body : Row → result (option Row)) (rows out : list Row) :
  for_rows body rows = Ok out →
  out = omap (λ row, match body row with Ok o => o | Raise _ => None end) rows
  ∧ Forall (λ row, is_Ok (body row)) rows.
Proof.
  revert out. induction rows as [|row rows IH]; intros out; simpl.
  - intros [= <-]. by split.
  - destruct (body row) as [o|] eqn:Hrow; simpl; [|done].
    destruct (for_rows body rows) as [t|]; simpl; [|done].
    intros [= <-]. destruct (IH t eq_refl) as [-> Hall]. split.
    + by destruct o.
    + constructor; [by eexists|done].
Qed.

Lemma omap_filter_fmap {A B} (f : A → option B) (g : A → B) (P : A → Prop)
    `{∀ x, Decision (P x)} (l : list A) :
  (∀ x, x ∈ l → P x → f x = Some (g x)) →
  (∀ x, x ∈ l → ¬ P x → f x = None) →
  omap f l = g <$> filter P l.
Proof.
  induction l as [|x l IH]; intros Hyes Hno; [done|].
  rewrite filter_cons. cbn [omap list_omap].
  rewrite IH.
  - destruct (decide (P x)) as [HP|HP].
    + by rewrite Hyes by (done || by left).
    + by rewrite Hno by (done || by left).
  - intros y Hy. apply Hyes. by right.
  - intros y Hy. apply Hno. by right.
Qed.

Section transformer.
Context {K : Type} (body : Row → result (option Row))
  (key : Row → result K) (lt : K → K → result bool).
Context (keep : Row → Prop) `{∀ row, Decision (keep row)} (rec : Row → Row).

Hypothesis body_skip : ∀ row, ¬ keep row → body row = Ok None.
Hypothesis body_keep : ∀ row o, keep row → body row = Ok o → o = Some (rec row).
Hypothesis body_raise : ∀ row e,
  body row = Raise e → e = ValueError ∧ ¬ is_Ok (row_area_id row).
Hypothesis key_spec : ∀ row,
  match py_int (get row "year" "") with
  | Ok _ => is_Ok (key (rec row))
  | Raise e => key (rec row) = Raise e
  end.
Hypothesis lt_raise : ∀ a b e, lt a b = Raise e → e = TypeError.
Hypothesis key_full : ∀ a b ka kb,
  full_record a → full_record b →
  key (rec a) = Ok ka → key (rec b) = Ok kb → is_Ok (lt ka kb).

Lemma transformer_transformed (rows t : list Row) :
  for_rows body rows = Ok t → t = rec <$> filter keep rows.
Proof.
  intros [-> Hall]%for_rows_Ok. rewrite Forall_forall in Hall.
  apply omap_filter_fmap.
  - intros row Hin Hk. destruct (Hall row Hin) as [o Ho]. rewrite Ho.
    by eapply body_keep.
  - intros row _ Hk. by rewrite body_skip.
Qed.

Lemma transformer_Ok (rows out : list Row) :
  for_rows body rows ≫= py_sorted key lt = Ok out →
  out ≡ₚ rec <$> filter keep rows.
Proof.
  intros Hb. apply bind_Ok in Hb as (t & Ht & Hs).
  apply transformer_transformed in Ht as ->.
  by apply py_sorted_perm in Hs.
Qed.

Lemma transformer_loop_succeeds (rows : list Row) :
  Forall (λ row, is_Ok (row_area_id row)) rows →
  for_rows body rows = Ok (rec <$> filter keep rows).
Proof.
  intros Hrows. destruct (for_rows body rows) as [t|e] eqn:Hfor.
  - by apply transformer_transformed in Hfor as ->.
  - exfalso. clear -Hrows Hfor body_raise.
    induction Hrows as [|row rows Hrow _ IH]; simpl in Hfor; [done|].
    destruct (body row) as [o|e'] eqn:Hb; simpl in Hfor.
    + destruct (for_rows body rows); simpl in Hfor; [done|]. by eapply IH.
    + by apply body_raise in Hb as [_ []].
Qed.

Lemma keys_Ok (sources : list Row) :
  Forall year_parses sources → Forall (λ x, is_Ok (key x)) (rec <$> sources).
Proof.
  intros Hyears. apply Forall_fmap. eapply Forall_impl; [exact Hyears|].
  intros row [n Hn]. simpl. pose proof (key_spec row) as Hk.
  by rewrite Hn in Hk.
Qed.

Lemma transformer_succeeds (rows : list Row) :
  Forall (λ row, is_Ok (row_area_id row)) rows →
  Forall year_parses (filter keep rows) →
  Forall full_record (filter keep rows) →
  ∃ out, for_rows body rows ≫= py_sorted key lt = Ok out
         ∧ out ≡ₚ rec <$> filter keep rows.
Proof.
  intros Hrows Hyears Hfull. rewrite transformer_loop_succeeds by done. simpl.
  apply py_sorted_succeeds; [by apply keys_Ok|].
  rewrite Forall_forall in Hfull.
  intros x y kx ky (a & -> & Ha)%list_elem_of_fmap
    (b & -> & Hb)%list_elem_of_fmap.
  apply key_full; by apply Hfull.
Qed.

Lemma transformer_first_bad (rows pre post : list Row) (row : Row) (e : exn) :
  Forall (λ row, is_Ok (row_area_id row)) rows →
  filter keep rows = (pre ++ row :: post)%list →
  Forall year_parses pre → py_int (get row "year" "") = Raise e →
  for_rows body rows ≫= py_sorted key lt = Raise e
  ∧ (e = ValueError ∨ e = TypeError).
Proof.
  intros Hrows Hsplit Hpre Hbad. split; [|by eapply py_int_raises].
  rewrite transformer_loop_succeeds by done. simpl.
  rewrite Hsplit, fmap_app, fmap_cons.
  apply py_sorted_first_raise; [by apply keys_Ok|].
  pose proof (key_spec row) as Hk. by rewrite Hbad in Hk.
Qed.

Lemma transformer_raises_type (rows : list Row) (e : exn) :
  Forall (λ row, is_Ok (row_area_id row)) rows →
  Forall year_parses (filter keep rows) →
  for_rows body rows ≫= py_sorted key lt = Raise e → e = TypeError.
Proof.
  intros Hrows Hyears. rewrite transformer_loop_succeeds by done. simpl.
  intros (a & b & Hab)%py_sorted_raise_compare; [|by apply keys_Ok].
  by eapply lt_raise.
Qed.

Lemma transformer_outcome (rows : list Row) :
  (∀ out, for_rows body rows ≫= py_sorted key lt = Ok out →
          out ≡ₚ rec <$> filter keep rows)
  ∧ (Forall (λ row, is_Ok (row_area_id row)) rows →
     all_or_error (for_rows body rows ≫= py_sorted key lt)
       (filter keep rows) (rec <$> filter keep rows)).
Proof.
  split; [apply transformer_Ok|]. intros Hrows. split_and!.
  - apply transformer_Ok.
  - intros pre row post e. by apply transformer_first_bad.
  - intros Hyears e. by apply transformer_raises_type.
  - by apply transformer_succeeds.
Qed.
End transformer.

(** The sort key of a record is computed from the year it copied: it is
    defined when the year parses, and raises what [int] raises on the
    year otherwise. *)
Ltac year_key :=
  intros row; try unfold neg_year;
  match goal with
  | |- context [getitem ?x "year"] =>
      change (getitem x "year") with (Ok (get row "year" ""))
  end;
  cbv beta iota delta [mbind result_bind];
  destruct (py_int (get row "year" "")) as [n|e];
  [ eexists; reflexivity | reflexivity ].

(** ** Reading a sort key back from a row *)

Lemma getitem_Ok (x : Row) (k : string) (v : cell) :
  getitem x k = Ok v → get x k "" = v.
Proof. unfold getitem, get. destruct (x !! k); simpl; congruence. Qed.

Lemma neg_year_Ok (x : Row) (n : Z) :
  neg_year x = Ok n → ∃ y, py_int (get x "year" "") = Ok y ∧ n = - y.
Proof.
  unfold neg_year. intros Hn.
  apply bind_Ok in Hn as (s & Hs & Hn). apply getitem_Ok in Hs as <-.
  apply bind_Ok in Hn as (y & Hy & [= <-]). eauto.
Qed.

Ltac invert_key H :=
  repeat match type of H with
  | _ ≫= _ = Ok _ =>
      let H' := fresh "Hk" in apply bind_Ok in H as (? & H' & H)
  end;
  injection H as <-;
  repeat match goal with
  | Hn : neg_year _ = Ok _ |- _ =>
      apply neg_year_Ok in Hn as (? & ? & ->)
  | Hg : getitem _ _ = Ok _ |- _ => apply getitem_Ok in Hg as <-
  end.

(** A cell of a record built from a row without [None] is a string. *)
Ltac record_cell :=
  cbv delta [gii_national_row gii_subnational_row dimension_national_row
             dimension_subnational_row indicator_national_row
             indicator_subnational_row sex_disaggregated_row] beta;
  unfold get at 1; repeat (rewrite lookup_insert_ne by done);
  rewrite lookup_insert_eq; simpl;
  first [ by eexists | by apply full_record_get ].

(** The keys of the records of two rows without [None] are compared. *)
Ltac full_key :=
  intros a b ka kb Ha Hb Hka Hkb; invert_key Hka; invert_key Hkb;
  repeat first [ apply lt_cons_Z | apply lt_cons_text | apply lt_last_text ];
  record_cell.

Lemma filter_all (rows : list Row) : filter (λ _ : Row, True) rows = rows.
Proof.
  induction rows as [|row rows IH]; [done|].
  rewrite filter_cons. simpl. by rewrite IH.
Qed.


(** ** The seven transformers, one by one

    Each lemma has the same two parts: what a returned table holds, and,
    for rows whose area identifier reads well (as the partitioner leaves
    them), when the transformer returns and when it raises. *)

Ltac national_body :=
  [> intros row Hk; by rewrite bool_decide_eq_true_2
   | intros row o Hk; rewrite bool_decide_eq_false_2 by (by intros ?);
     congruence
   | intros row e; case_bool_decide; done
   | .. ].

Ltac subnational_body :=
  [> intros row Hk; by rewrite bool_decide_eq_true_2
   | intros row o Hk; rewrite bool_decide_eq_false_2 by (by intros ?);
     destruct (province_name_of _ row) as [p|] eqn:Hp; simpl; [|done];
     apply province_name_of_Ok in Hp as ->; congruence
   | intros row e; case_bool_decide; [done|];
     destruct (province_name_of _ row) as [p|e'] eqn:Hp; simpl; [done|];
     intros [= ->]; by apply province_name_of_raise in Hp
   | .. ].

Lemma gii_national_outcome (self : Pipeline) (rows : list Row) (code : string) :
  let T := _transform_gii_national self rows code in
  let records := gii_national_row code <$> at_level "country" rows in
  (∀ out, T = Ok out → out ≡ₚ records)
  ∧ (Forall (λ row, is_Ok (row_area_id row)) rows →
     all_or_error T (at_level "country" rows) records).
Proof.
  apply (transformer_outcome _ _ _
           (λ row : Row, row !! "admin_level" = Some (Str "country"))
           (gii_national_row code)); national_body.
  - year_key.
  - apply lt_rev_raise.
  - intros a b ka kb _ _ _ _. by eexists.
Qed.

Lemma gii_subnational_outcome (self : Pipeline) (rows : list Row)
    (code name : string) :
  let T := _transform_gii_subnational self rows code name in
  let records :=
    (λ row, gii_subnational_row code name (resolved_province self row) row)
      <$> at_level "province" rows in
  (∀ out, T = Ok out → out ≡ₚ records)
  ∧ (Forall (λ row, is_Ok (row_area_id row)) rows →
     all_or_error T (at_level "province" rows) records).
Proof.
  apply (transformer_outcome _ _ _
           (λ row : Row, row !! "admin_level" = Some (Str "province"))
           (λ row, gii_subnational_row code name (resolved_province self row)
                     row)); subnational_body.
  - year_key.
  - apply lt_key2_raise.
  - full_key.
Qed.

Lemma dimension_national_outcome (self : Pipeline) (rows : list Row)
    (code : string) :
  let T := _transform_dimension_national self rows code in
  let records := dimension_national_row code <$> at_level "country" rows in
  (∀ out, T = Ok out → out ≡ₚ records)
  ∧ (Forall (λ row, is_Ok (row_area_id row)) rows →
     all_or_error T (at_level "country" rows) records).
Proof.
  apply (transformer_outcome _ _ _
           (λ row : Row, row !! "admin_level" = Some (Str "country"))
           (dimension_national_row code)); national_body.
  - year_key.
  - apply lt_key3_raise.
  - full_key.
Qed.

Lemma dimension_subnational_outcome (self : Pipeline) (rows : list Row)
    (code name : string) :
  let T := _transform_dimension_subnational self rows code name in
  let records :=
    (λ row, dimension_subnational_row code name (resolved_province self row)
              row) <$> at_level "province" rows in
  (∀ out, T = Ok out → out ≡ₚ records)
  ∧ (Forall (λ row, is_Ok (row_area_id row)) rows →
     all_or_error T (at_level "province" rows) records).
Proof.
  apply (transformer_outcome _ _ _
           (λ row : Row, row !! "admin_level" = Some (Str "province"))
           (λ row, dimension_subnational_row code name
                     (resolved_province self row) row)); subnational_body.
  - year_key.
  - apply lt_key4_raise.
  - full_key.
Qed.

Lemma indicator_national_outcome (self : Pipeline) (rows : list Row)
    (code name : string) :
  let T := _transform_indicator_national self rows code name in
  let records := indicator_national_row code name <$> at_level "country" rows in
  (∀ out, T = Ok out → out ≡ₚ records)
  ∧ (Forall (λ row, is_Ok (row_area_id row)) rows →
     all_or_error T (at_level "country" rows) records).
Proof.
  apply (transformer_outcome _ _ _
           (λ row : Row, row !! "admin_level" = Some (Str "country"))
           (indicator_national_row code name)); national_body.
  - year_key.
  - apply lt_key3_raise.
  - full_key.
Qed.

Lemma indicator_subnational_outcome (self : Pipeline) (rows : list Row)
    (code name : string) :
  let T := _transform_indicator_subnational self rows code name in
  let records :=
    (λ row, indicator_subnational_row code name (resolved_province self row)
              row) <$> at_level "province" rows in
  (∀ out, T = Ok out → out ≡ₚ records)
  ∧ (Forall (λ row, is_Ok (row_area_id row)) rows →
     all_or_error T (at_level "province" rows) records).
Proof.
  apply (transformer_outcome _ _ _
           (λ row : Row, row !! "admin_level" = Some (Str "province"))
           (λ row, indicator_subnational_row code name
                     (resolved_province self row) row)); subnational_body.
  - year_key.
  - apply lt_key4_raise.
  - full_key.
Qed.

Lemma sex_disaggregated_outcome (self : Pipeline) (rows : list Row)
    (code name : string) :
  let T := _transform_sex_disaggregated self rows code name in
  let records :=
    (λ row, sex_disaggregated_row code name (resolved_province self row) row)
      <$> rows in
  (∀ out, T = Ok out → out ≡ₚ records)
  ∧ (Forall (λ row, is_Ok (row_area_id row)) rows →
     all_or_error T rows records).
Proof.
  pose proof (λ Hskip Hkeep Hraise Hkey Hlt Hfull,
    transformer_outcome
      (λ row, province_name ← province_name_of self row;
              Ok (Some (sex_disaggregated_row code name province_name row)))
      (λ x, n ← neg_year x; p ← getitem x "province";
            i ← getitem x "indicator"; Ok (n, (p, i)))
      lt_key3 (λ _ : Row, True)
      (λ row, sex_disaggregated_row code name (resolved_province self row) row)
      Hskip Hkeep Hraise Hkey Hlt Hfull rows) as Hout.
  rewrite filter_all in Hout. apply Hout; clear Hout.
  - intros row []. done.
  - intros row o _. destruct (province_name_of self row) as [p|] eqn:Hp;
      simpl; [|done].
    apply province_name_of_Ok in Hp as ->. congruence.
  - intros row e. destruct (province_name_of self row) as [p|e'] eqn:Hp;
      simpl; [done|].
    intros [= ->]. by apply province_name_of_raise in Hp.
  - year_key.
  - apply lt_key3_raise.
  - full_key.
Qed.

(** What a returned table holds, whatever the rows. *)
Lemma gii_national_records (self : Pipeline) (rows out : list Row)
    (code : string) :
  _transform_gii_national self rows code = Ok out →
  out ≡ₚ gii_national_row code <$> at_level "country" rows.
Proof. apply (proj1 (gii_national_outcome self rows code)). Qed.

Lemma gii_subnational_records (self : Pipeline) (rows out : list Row)
    (code name : string) :
  _transform_gii_subnational self rows code name = Ok out →
  out ≡ₚ (λ row, gii_subnational_row code name (resolved_province self row)
                   row) <$> at_level "province" rows.
Proof. apply (proj1 (gii_subnational_outcome self rows code name)). Qed.

Lemma dimension_national_records (self : Pipeline) (rows out : list Row)
    (code : string) :
  _transform_dimension_national self rows code = Ok out →
  out ≡ₚ dimension_national_row code <$> at_level "country" rows.
Proof. apply (proj1 (dimension_national_outcome self rows code)). Qed.

Lemma dimension_subnational_records (self : Pipeline) (rows out : list Row)
    (code name : string) :
  _transform_dimension_subnational self rows code name = Ok out →
  out ≡ₚ (λ row, dimension_subnational_row code name
                   (resolved_province self row) row)
           <$> at_level "province" rows.
Proof. apply (proj1 (dimension_subnational_outcome self rows code name)). Qed.

Lemma indicator_national_records (self : Pipeline) (rows out : list Row)
    (code name : string) :
  _transform_indicator_national self rows code name = Ok out →
  out ≡ₚ indicator_national_row code name <$> at_level "country" rows.
Proof. apply (proj1 (indicator_national_outcome self rows code name)). Qed.

Lemma indicator_subnational_records (self : Pipeline) (rows out : list Row)
    (code name : string) :
  _transform_indicator_subnational self rows code name = Ok out →
  out ≡ₚ (λ row, indicator_subnational_row code name
                   (resolved_province self row) row)
           <$> at_level "province" rows.
Proof. apply (proj1 (indicator_subnational_outcome self rows code name)). Qed.

Lemma sex_disaggregated_records (self : Pipeline) (rows out : list Row)
    (code name : string) :
  _transform_sex_disaggregated self rows code name = Ok out →
  out ≡ₚ (λ row, sex_disaggregated_row code name (resolved_province self row)
                   row) <$> rows.
Proof. apply (proj1 (sex_disaggregated_outcome self rows code name)). Qed.

(** ** The partitioner: claim C3 *)

(** C3, counterexample.  The claim lets a row through only when the value
    of its [area_id] column parses to the wanted identifier.  A row with no
    [area_id] column is read as [-1] and is kept for a country whose
    identifier is [-1]. *)
Lemma partition_default_area_counterexample :
  _filter_csv_by_country ex_default_self [ex_row_without_area]
    (c_iso3 ex_default_country) = Ok [ex_row_without_area]
  ∧ ¬ spec_keeps ex_default_self ex_default_country ex_row_without_area.
Proof.
  split; [by_vm|].
  intros (s & a & Hs & _). vm_compute in Hs. discriminate.
Qed.

(** C3, amended.  The partitioner never raises, keeps the order of the rows,
    and keeps exactly the rows selected by [keeps]: level ["country"] with
    the identifier of the first country carrying the code, or level
    ["province"] with the key of a mapping entry of that code, where a row
    without [area_id] column counts as having identifier [-1].  A row whose
    [area_id] value does not parse, be it a text that is no integer or the
    [None] of a short record, is left out. *)
Theorem filter_csv_by_country_spec (self : Pipeline) (rows : list Row)
    (country_code : string) :
  _filter_csv_by_country self rows country_code
    = Ok (filter (keeps self country_code) rows)
  ∧ ∀ row v e, row !! "area_id" = Some v → py_int v = Raise e →
      row ∉ filter (keeps self country_code) rows.
Proof.
  split; [apply filter_loop_spec|].
  intros row v e Hv Hint [(a & Ha & _) _]%list_elem_of_filter.
  unfold row_area_id in Ha. rewrite Hv in Ha. congruence.
Qed.

(** The index rows of the example data, partitioned for Cambodia: the row
    with [area_id] ["n/a"] is left out. *)
Lemma filter_csv_by_country_spec_witness :
  _filter_csv_by_country ex_self (gii_data ex_inputs) "KHM"
    = Ok (filter (keeps ex_self "KHM") (gii_data ex_inputs))
  ∧ row_of [("area_id", "n/a"); ("admin_level", "country");
            ("admin_name", "Nowhere"); ("year", "2019"); ("gii", "0.50")]
      ∉ filter (keeps ex_self "KHM") (gii_data ex_inputs).
Proof.
  destruct (filter_csv_by_country_spec ex_self (gii_data ex_inputs) "KHM")
    as [Hout Hbad].
  split; [exact Hout|].
  apply (Hbad _ (Str "n/a") ValueError); by_vm.
Defined.

(** ** The temporal range extractor: claims C4 and C10 *)

Lemma added_years_parsable (rows : list Row) :
  added_years rows = Ok (parsable_years rows).
Proof.
  induction rows as [|row rows IH]; [done|].
  unfold parsable_years in *. cbn [added_years omap list_omap].
  destruct (row !! "year") as [v|]; [|done].
  destruct (truthy v) eqn:Hv.
  - destruct (py_int_cases v) as [[n Hn]|[Hn|Hn]]; rewrite Hn; [|done..].
    rewrite IH. done.
  - apply falsy_int in Hv. destruct (py_int v); [|done].
    exfalso. apply Hv. by eexists.
Qed.

Lemma foldl_min_spec (l : list Z) (x : Z) :
  let m := foldl Z.min x l in
  m ∈ x :: l ∧ ∀ y, y ∈ x :: l → m ≤ y.
Proof.
  revert x. induction l as [|z l IH]; intros x; simpl.
  - split; [by left|]. intros y ->%list_elem_of_singleton. lia.
  - destruct (IH (Z.min x z)) as [Hin Hle]. split.
    + apply elem_of_cons in Hin as [->|Hin].
      * destruct (Z.min_spec x z) as [[_ ->]|[_ ->]]; [left|right; left]; done.
      * by do 2 right.
    + intros y Hy. assert (foldl Z.min (Z.min x z) l ≤ Z.min x z) as Hm
        by (apply Hle; by left).
      rewrite !elem_of_cons in Hy. destruct Hy as [->|[->|Hy]]; [lia..|].
      apply Hle. by right.
Qed.

Lemma foldl_max_spec (l : list Z) (x : Z) :
  let m := foldl Z.max x l in
  m ∈ x :: l ∧ ∀ y, y ∈ x :: l → y ≤ m.
Proof.
  revert x. induction l as [|z l IH]; intros x; simpl.
  - split; [by left|]. intros y ->%list_elem_of_singleton. lia.
  - destruct (IH (Z.max x z)) as [Hin Hle]. split.
    + apply elem_of_cons in Hin as [->|Hin].
      * destruct (Z.max_spec x z) as [[_ ->]|[_ ->]]; [right; left|left]; done.
      * by do 2 right.
    + intros y Hy. assert (Z.max x z ≤ foldl Z.max (Z.max x z) l) as Hm
        by (apply Hle; by left).
      rewrite !elem_of_cons in Hy. destruct Hy as [->|[->|Hy]]; [lia..|].
      apply Hle. by right.
Qed.

Lemma py_min_spec (l : list Z) :
  l ≠ [] → ∃ m, py_min l = Ok m ∧ m ∈ l ∧ ∀ y, y ∈ l → m ≤ y.
Proof.
  destruct l as [|x l]; [done|]. intros _. eexists. split; [done|].
  apply foldl_min_spec.
Qed.

Lemma py_max_spec (l : list Z) :
  l ≠ [] → ∃ m, py_max l = Ok m ∧ m ∈ l ∧ ∀ y, y ∈ l → y ≤ m.
Proof.
  destruct l as [|x l]; [done|]. intros _. eexists. split; [done|].
  apply foldl_max_spec.
Qed.

Lemma set_order_nonempty (set_iter : list Z → list Z) (l : list Z) :
  set_order set_iter → l ≠ [] → set_iter l ≠ [].
Proof.
  intros Hord Hl Hnil. destruct l as [|x l]; [done|].
  destruct (Hord (x :: l)) as [_ Hin].
  assert (x ∈ set_iter (x :: l)) as Hx by (apply Hin; by left).
  rewrite Hnil in Hx. by apply elem_of_nil in Hx.
Qed.

(** What the extractor returns, whatever the iteration order. *)
Lemma get_years_from_rows_range (set_iter : list Z → list Z) (rows : list Row) :
  set_order set_iter →
  (parsable_years rows = [] →
   _get_years_from_rows set_iter rows = Ok (2000, 2024))
  ∧ (parsable_years rows ≠ [] →
     ∃ mn mx, _get_years_from_rows set_iter rows = Ok (mn, mx)
       ∧ mn ∈ parsable_years rows ∧ mx ∈ parsable_years rows
       ∧ ∀ y, y ∈ parsable_years rows → mn ≤ y ≤ mx).
Proof.
  intros Hord. unfold _get_years_from_rows.
  rewrite added_years_parsable. simpl. split.
  - intros ->. done.
  - intros Hne. rewrite bool_decide_eq_true_2 by done.
    pose proof (set_order_nonempty _ _ Hord Hne) as Hit.
    destruct (py_min_spec _ Hit) as (mn & -> & Hmn & Hmin).
    destruct (py_max_spec _ Hit) as (mx & -> & Hmx & Hmax).
    destruct (Hord (parsable_years rows)) as [_ Hin]. simpl.
    exists mn, mx. split_and!; [done|by apply Hin..|].
    intros y Hy%Hin. split; [by apply Hmin | by apply Hmax].
Qed.

Lemma get_years_from_rows_ordered (set_iter : list Z → list Z)
    (rows : list Row) (mn mx : Z) :
  _get_years_from_rows set_iter rows = Ok (mn, mx) → mn ≤ mx.
Proof.
  unfold _get_years_from_rows. rewrite added_years_parsable. simpl.
  case_bool_decide as Hne; [|intros [= <- <-]; lia].
  destruct (set_iter (parsable_years rows)) as [|x l] eqn:Hit; [done|].
  simpl. intros [= <- <-].
  destruct (foldl_min_spec l x) as [_ Hmin].
  destruct (foldl_max_spec l x) as [_ Hmax].
  specialize (Hmin x ltac:(by left)). specialize (Hmax x ltac:(by left)).
  simpl in *. lia.
Qed.

(** The order in which a set of years is visited does not show in the
    result. *)
Lemma get_years_from_rows_order_irrelevant (it1 it2 : list Z → list Z)
    (rows : list Row) :
  set_order it1 → set_order it2 →
  _get_years_from_rows it1 rows = _get_years_from_rows it2 rows.
Proof.
  intros H1 H2.
  destruct (get_years_from_rows_range it1 rows H1) as [Hnil1 Hne1].
  destruct (get_years_from_rows_range it2 rows H2) as [Hnil2 Hne2].
  destruct (decide (parsable_years rows = [])) as [Hnil|Hne].
  - by rewrite Hnil1, Hnil2.
  - destruct (Hne1 Hne) as (mn1 & mx1 & -> & Hmn1 & Hmx1 & Hb1).
    destruct (Hne2 Hne) as (mn2 & mx2 & -> & Hmn2 & Hmx2 & Hb2).
    pose proof (Hb1 _ Hmn2). pose proof (Hb1 _ Hmx2).
    pose proof (Hb2 _ Hmn1). pose proof (Hb2 _ Hmx1).
    do 2 f_equal; lia.
Qed.

Lemma remove_dups_set_order : set_order remove_dups.
Proof.
  intros l. split; [apply NoDup_remove_dups|]. intros x.
  apply elem_of_remove_dups.
Qed.

Lemma reverse_remove_dups_set_order : set_order (λ l, reverse (remove_dups l)).
Proof.
  intros l. split.
  - rewrite reverse_Permutation. apply NoDup_remove_dups.
  - intros x. rewrite elem_of_reverse. apply elem_of_remove_dups.
Qed.

(** ** The aggregator *)

(** What a successful pass over one country consists of. *)
Lemma country_data_Ok (set_iter : list Z → list Z) (self : Pipeline)
    (inp : Inputs) (country : Country) (r : CountryResult) :
  country_data set_iter self inp country = Ok r →
  let code := c_iso3 country in
  let name := c_name country in
  let part rows := filter (keeps self code) rows in
  ∃ t1 t2 t3 t4 t5 t6 t7 mn mx,
    _transform_gii_national self (part (gii_data inp)) code = Ok t1
    ∧ _transform_gii_subnational self (part (gii_data inp)) code name = Ok t2
    ∧ _transform_dimension_national self (part (dimension_data inp)) code
        = Ok t3
    ∧ _transform_dimension_subnational self (part (dimension_data inp))
        code name = Ok t4
    ∧ _transform_indicator_national self (part (indicator_data inp))
        code name = Ok t5
    ∧ _transform_indicator_subnational self (part (indicator_data inp))
        code name = Ok t6
    ∧ _transform_sex_disaggregated self (part (sex_disagg_data inp))
        code name = Ok t7
    ∧ _get_years_from_rows set_iter
        (t1 ++ t2 ++ t3 ++ t4 ++ t5 ++ t6 ++ t7) = Ok (mn, mx)
    ∧ r = {| r_iso3 := code; r_name := name;
             r_csv_data :=
               [("gii-national", t1); ("gii-subnational", t2);
                ("dimension-national", t3); ("dimension-subnational", t4);
                ("indicator-national", t5); ("indicator-subnational", t6);
                ("sex-disaggregated", t7)];
             r_geojson_data :=
               [("country-boundary",
                 _filter_geojson_by_country (country_geojson inp) code);
                ("province-boundaries",
                 _filter_geojson_by_country (province_geojson inp) code)];
             r_min_year := mn; r_max_year := mx |}.
Proof.
  unfold country_data, _filter_csv_by_country.
  rewrite !filter_loop_spec. cbn [mbind result_bind].
  intros Hr.
  destruct (_transform_gii_national _ _ _) as [t1|] eqn:H1; [|done].
  destruct (_transform_gii_subnational _ _ _ _) as [t2|] eqn:H2; [|done].
  destruct (_transform_dimension_national _ _ _) as [t3|] eqn:H3; [|done].
  destruct (_transform_dimension_subnational _ _ _ _) as [t4|] eqn:H4; [|done].
  destruct (_transform_indicator_national _ _ _ _) as [t5|] eqn:H5; [|done].
  destruct (_transform_indicator_subnational _ _ _ _) as [t6|] eqn:H6; [|done].
  destruct (_transform_sex_disaggregated _ _ _ _) as [t7|] eqn:H7; [|done].
  cbv zeta in Hr. cbn [mbind result_bind fmap list_fmap snd concat] in Hr.
  rewrite app_nil_r in Hr.
  destruct (_get_years_from_rows _ _) as [[mn mx]|] eqn:Hy; [|done].
  injection Hr as <-.
  by exists t1, t2, t3, t4, t5, t6, t7, mn, mx.
Qed.

Lemma for_countries_Ok (set_iter : list Z → list Z) (self : Pipeline)
    (inp : Inputs) (countries : list Country) (results : list CountryResult) :
  for_countries set_iter self inp countries = Ok results →
  Forall2 (λ country r, country_data set_iter self inp country = Ok r)
    countries results.
Proof.
  revert results.
  induction countries as [|c cs IH]; intros results; cbn [for_countries].
  - intros [= <-]. constructor.
  - destruct (country_data _ _ _ c) as [r|] eqn:Hc; cbn [mbind result_bind]; [|done].
    destruct (for_countries _ _ _ cs) as [rs|]; cbn [mbind result_bind];
      [|done].
    intros [= <-]. constructor; [done|]. by apply IH.
Qed.

Lemma country_data_order_irrelevant (it1 it2 : list Z → list Z)
    (self : Pipeline) (inp : Inputs) (country : Country) :
  set_order it1 → set_order it2 →
  country_data it1 self inp country = country_data it2 self inp country.
Proof.
  intros H1 H2. unfold country_data.
  destruct (_filter_csv_by_country self (gii_data inp) _); [|done].
  destruct (_filter_csv_by_country self (dimension_data inp) _); [|done].
  destruct (_filter_csv_by_country self (indicator_data inp) _); [|done].
  destruct (_filter_csv_by_country self (sex_disagg_data inp) _); [|done].
  cbn [mbind result_bind].
  destruct (_transform_gii_national _ _ _); [|done].
  destruct (_transform_gii_subnational _ _ _ _); [|done].
  destruct (_transform_dimension_national _ _ _); [|done].
  destruct (_transform_dimension_subnational _ _ _ _); [|done].
  destruct (_transform_indicator_national _ _ _ _); [|done].
  destruct (_transform_indicator_subnational _ _ _ _); [|done].
  destruct (_transform_sex_disaggregated _ _ _ _); [|done].
  cbn [mbind result_bind].
  by rewrite (get_years_from_rows_order_irrelevant it1 it2).
Qed.

(** ** Orders on keys *)

Lemma string_ltb_total (s t : string) :
  String.ltb s t = false → s ≠ t → String.ltb t s = true.
Proof.
  unfold String.ltb. rewrite (String.compare_antisym t s).
  destruct (String.compare s t) eqn:Hc; [|done..].
  intros _ Hne. by apply String.compare_eq_iff in Hc.
Qed.

Lemma lt_cell_false (x y : cell) :
  lt_cell x y = Ok false → x ≠ y → cell_lt y x.
Proof.
  destruct x as [s|], y as [t|]; simpl; try done.
  intros [= Hst] Hne. apply string_ltb_total; congruence.
Qed.

Lemma lt_last_cell_false (x y : cell) :
  lt_last lt_cell x y = Ok false → cell_lt y x ∨ y = x.
Proof.
  unfold lt_last. case_decide; [by right|]. intros H'. left.
  by apply lt_cell_false.
Qed.

Lemma lt_cons_cell_false {B} (ltB : B → B → result bool) (x y : cell)
    (xs ys : B) :
  lt_cons lt_cell ltB (x, xs) (y, ys) = Ok false →
  cell_lt y x ∨ (y = x ∧ ltB xs ys = Ok false).
Proof.
  unfold lt_cons. simpl. case_decide; [by right|]. intros H'. left.
  by apply lt_cell_false.
Qed.

Lemma lt_cons_Z_false {B} (ltB : B → B → result bool) (m n : Z) (xs ys : B) :
  lt_cons lt_Z ltB (m, xs) (n, ys) = Ok false →
  n < m ∨ (n = m ∧ ltB xs ys = Ok false).
Proof.
  unfold lt_cons, lt_Z. simpl. case_decide; [by right|].
  intros [= Hmn%Z.ltb_ge]. left. lia.
Qed.

Lemma Sorted_weaken {A} (R R' : A → A → Prop) (l : list A) :
  (∀ a b, R a b → R' a b) → Sorted R l → Sorted R' l.
Proof.
  intros HR. induction 1 as [|x l _ IH Hhd]; constructor; [done|].
  destruct Hhd; constructor. by apply HR.
Qed.

Lemma key2_ordered (f : string) (a b : Row) :
  key_le (λ x, n ← neg_year x; p ← getitem x f; Ok (n, p)) lt_key2 a b →
  ordered_by [f] a b.
Proof.
  intros (ka & kb & Ha & Hb & Hlt). invert_key Ha. invert_key Hb.
  eexists _, _. split_and!; [done..|].
  apply lt_cons_Z_false in Hlt as [?|[? Hlt]]; [left; lia|right].
  split; [lia|]. simpl. apply lt_last_cell_false in Hlt. tauto.
Qed.

Lemma key3_ordered (f g : string) (a b : Row) :
  key_le (λ x, n ← neg_year x; p ← getitem x f; i ← getitem x g;
               Ok (n, (p, i))) lt_key3 a b →
  ordered_by [f; g] a b.
Proof.
  intros (ka & kb & Ha & Hb & Hlt). invert_key Ha. invert_key Hb.
  eexists _, _. split_and!; [done..|].
  apply lt_cons_Z_false in Hlt as [?|[? Hlt]]; [left; lia|right].
  split; [lia|]. simpl.
  apply lt_cons_cell_false in Hlt as [?|[? Hlt]]; [by left|right].
  split; [done|]. apply lt_last_cell_false in Hlt. tauto.
Qed.

Lemma key4_ordered (f g h : string) (a b : Row) :
  key_le (λ x, n ← neg_year x; p ← getitem x f; c ← getitem x g;
               d ← getitem x h; Ok (n, (p, (c, d)))) lt_key4 a b →
  ordered_by [f; g; h] a b.
Proof.
  intros (ka & kb & Ha & Hb & Hlt). invert_key Ha. invert_key Hb.
  eexists _, _. split_and!; [done..|].
  apply lt_cons_Z_false in Hlt as [?|[? Hlt]]; [left; lia|right].
  split; [lia|]. simpl.
  apply lt_cons_cell_false in Hlt as [?|[? Hlt]]; [by left|right].
  split; [done|].
  apply lt_cons_cell_false in Hlt as [?|[? Hlt]]; [by left|right].
  split; [done|]. apply lt_last_cell_false in Hlt. tauto.
Qed.

(** ** Rows left by the partitioner *)

Lemma partitioned_area_ok (self : Pipeline) (raw rows : list Row)
    (country_code : string) :
  _filter_csv_by_country self raw country_code = Ok rows →
  rows = filter (keeps self country_code) raw
  ∧ Forall (λ row, is_Ok (row_area_id row)) rows.
Proof.
  unfold _filter_csv_by_country. rewrite filter_loop_spec. intros [= <-].
  split; [done|]. apply Forall_forall.
  intros row [(a & Ha & _) _]%list_elem_of_filter. by exists a.
Qed.

(** ** The transformers and the year: claim C1 *)

(** C1, counterexample.  Two rows that the partitioner lets through for
    Cambodia have the year ["abc"].  Each of the seven transformers raises
    [ValueError] on them: the sort key calls [int] on the year outside any
    [try].  Nothing is returned, so no row is dropped. *)
Lemma unparsable_year_raises_counterexample :
  _filter_csv_by_country ex_self ex_bad_year_rows "KHM" = Ok ex_bad_year_rows
  ∧ _transform_gii_national ex_self ex_bad_year_rows "KHM" = Raise ValueError
  ∧ _transform_gii_subnational ex_self ex_bad_year_rows "KHM" "Cambodia"
    = Raise ValueError
  ∧ _transform_dimension_national ex_self ex_bad_year_rows "KHM"
    = Raise ValueError
  ∧ _transform_dimension_subnational ex_self ex_bad_year_rows "KHM" "Cambodia"
    = Raise ValueError
  ∧ _transform_indicator_national ex_self ex_bad_year_rows "KHM" "Cambodia"
    = Raise ValueError
  ∧ _transform_indicator_subnational ex_self ex_bad_year_rows "KHM" "Cambodia"
    = Raise ValueError
  ∧ _transform_sex_disaggregated ex_self ex_bad_year_rows "KHM" "Cambodia"
    = Raise ValueError.
Proof. repeat split; by_vm. Qed.

(** C1, amended.  On country-filtered rows no transformer drops a row on
    account of its year; it returns a table or raises.  A returned table
    has exactly one record for every row the transformer reads (the rows
    of its level; all rows for the sex-disaggregated table).  When the year
    of one of these rows is missing or does not parse, no table is
    returned: the transformer raises what [int] raises on the first such
    year, [ValueError] for a text that is no integer and [TypeError] for
    the [None] of a short record.  When every year parses, the only other
    failure is a [TypeError] from comparing two sort keys, which needs a
    [None] in a sort column; without any [None] the table is returned. *)
Theorem transformers_all_or_error (self : Pipeline) (raw rows : list Row)
    (code name : string) :
  _filter_csv_by_country self raw code = Ok rows →
  all_or_error (_transform_gii_national self rows code)
    (at_level "country" rows)
    (gii_national_row code <$> at_level "country" rows)
  ∧ all_or_error (_transform_gii_subnational self rows code name)
      (at_level "province" rows)
      ((λ row, gii_subnational_row code name (resolved_province self row) row)
         <$> at_level "province" rows)
  ∧ all_or_error (_transform_dimension_national self rows code)
      (at_level "country" rows)
      (dimension_national_row code <$> at_level "country" rows)
  ∧ all_or_error (_transform_dimension_subnational self rows code name)
      (at_level "province" rows)
      ((λ row, dimension_subnational_row code name
                 (resolved_province self row) row)
         <$> at_level "province" rows)
  ∧ all_or_error (_transform_indicator_national self rows code name)
      (at_level "country" rows)
      (indicator_national_row code name <$> at_level "country" rows)
  ∧ all_or_error (_transform_indicator_subnational self rows code name)
      (at_level "province" rows)
      ((λ row, indicator_subnational_row code name
                 (resolved_province self row) row)
         <$> at_level "province" rows)
  ∧ all_or_error (_transform_sex_disaggregated self rows code name)
      rows
      ((λ row, sex_disaggregated_row code name (resolved_province self row)
                 row) <$> rows).
Proof.
  intros [_ Harea]%partitioned_area_ok. split_and!.
  - by apply gii_national_outcome.
  - by apply gii_subnational_outcome.
  - by apply dimension_national_outcome.
  - by apply dimension_subnational_outcome.
  - by apply indicator_national_outcome.
  - by apply indicator_subnational_outcome.
  - by apply sex_disaggregated_outcome.
Qed.

(** On the example data: the index-subnational table of Cambodia is returned
    in full; a row with year ["abc"] makes the index-national transformer
    raise [ValueError], the record of a short line makes it raise
    [TypeError]; two dimension rows of one year, one of them without
    category, cannot be sorted. *)
Lemma transformers_all_or_error_witness :
  (∃ out, _transform_gii_subnational ex_self
            (filter (keeps ex_self "KHM") (gii_data ex_inputs))
            "KHM" "Cambodia" = Ok out
          ∧ out ≡ₚ (λ row, gii_subnational_row "KHM" "Cambodia"
                             (resolved_province ex_self row) row)
                     <$> at_level "province"
                           (filter (keeps ex_self "KHM") (gii_data ex_inputs)))
  ∧ _transform_gii_national ex_self
      (filter (keeps ex_self "KHM") ex_bad_year_rows) "KHM"
    = Raise ValueError
  ∧ _transform_gii_national ex_self
      (filter (keeps ex_self "KHM") [ex_short_row]) "KHM"
    = Raise TypeError
  ∧ ∀ e, _transform_dimension_national ex_self
           (filter (keeps ex_self "KHM") ex_uncomparable_rows) "KHM"
         = Raise e → e = TypeError.
Proof.
  split_and!.
  - destruct (transformers_all_or_error ex_self (gii_data ex_inputs)
                (filter (keeps ex_self "KHM") (gii_data ex_inputs))
                "KHM" "Cambodia") as (_ & (_ & _ & _ & Hall) & _); [by_vm|].
    apply Hall; by_vm.
  - destruct (transformers_all_or_error ex_self ex_bad_year_rows
                (filter (keeps ex_self "KHM") ex_bad_year_rows)
                "KHM" "Cambodia") as ((_ & Hbad & _) & _); [by_vm|].
    apply (Hbad [] (row_of [("area_id", "1"); ("admin_level", "country");
                            ("year", "abc")]) []); [by_vm|constructor|by_vm].
  - destruct (transformers_all_or_error ex_self [ex_short_row]
                (filter (keeps ex_self "KHM") [ex_short_row])
                "KHM" "Cambodia") as ((_ & Hbad & _) & _); [by_vm|].
    apply (Hbad [] ex_short_row []); [by_vm|constructor|by_vm].
  - destruct (transformers_all_or_error ex_self ex_uncomparable_rows
                (filter (keeps ex_self "KHM") ex_uncomparable_rows)
                "KHM" "Cambodia") as (_ & _ & (_ & _ & Htype & _) & _);
      [by_vm|].
    apply Htype. by_vm.
Defined.

(** ** Country fields of the output rows: claim C2 *)

(** C2, counterexample.  The national index rows of [ex_inputs] name the
    country "Kingdom of Cambodia" in [admin_name]; the country list calls
    it "Cambodia".  The national index table copies [admin_name]. *)
Lemma country_field_counterexample :
  fmap (M:=list)
       (λ r, (r_name r,
              (λ row : Row, row !! "country") <$> table r "gii-national"))
    <$> get_country_data remove_dups ex_self ex_inputs
  = Ok [("Cambodia", [Some (Str "Kingdom of Cambodia");
                      Some (Str "Kingdom of Cambodia")]);
        ("Viet Nam", [Some (Str "Viet Nam")])].
Proof. by_vm. Qed.

(** The country fields of the rows of one result. *)
Lemma country_data_fields (set_iter : list Z → list Z) (self : Pipeline)
    (inp : Inputs) (country : Country) (r : CountryResult) :
  country_data set_iter self inp country = Ok r →
  country_fields self inp country r.
Proof.
  intros Hr. unfold country_fields. apply country_data_Ok in Hr
    as (t1 & t2 & t3 & t4 & t5 & t6 & t7 & mn & mx
        & H1 & H2 & H3 & H4 & H5 & H6 & H7 & _ & ->).
  pose proof (proj1 (gii_national_outcome _ _ _) _ H1) as Hp1.
  pose proof (proj1 (gii_subnational_outcome _ _ _ _) _ H2) as Hp2.
  pose proof (proj1 (dimension_national_outcome _ _ _) _ H3) as Hp3.
  pose proof (proj1 (dimension_subnational_outcome _ _ _ _) _ H4) as Hp4.
  pose proof (proj1 (indicator_national_outcome _ _ _ _) _ H5) as Hp5.
  pose proof (proj1 (indicator_subnational_outcome _ _ _ _) _ H6) as Hp6.
  pose proof (proj1 (sex_disaggregated_outcome _ _ _ _) _ H7) as Hp7.
  cbv zeta. split; [done|]. split; [done|]. cbn [r_csv_data].
  intros name t row Ht Hrow.
  rewrite !elem_of_cons, elem_of_nil in Ht.
  destruct Ht as [Ht|[Ht|[Ht|[Ht|[Ht|[Ht|[Ht|[]]]]]]]];
    injection Ht as -> ->.
  - split_and!; [| | |done].
    + rewrite Hp1 in Hrow.
      by apply list_elem_of_fmap in Hrow as (src & -> & Hsrc).
    + done.
    + intros _. split; [done|]. rewrite Hp1 in Hrow.
      apply list_elem_of_fmap in Hrow as (src & -> & Hsrc). by exists src.
  - rewrite Hp2 in Hrow.
    apply list_elem_of_fmap in Hrow as (src & -> & Hsrc). by split_and!.
  - split_and!; [| |done|].
    + rewrite Hp3 in Hrow.
      by apply list_elem_of_fmap in Hrow as (src & -> & Hsrc).
    + done.
    + intros _. split; [done|]. rewrite Hp3 in Hrow.
      apply list_elem_of_fmap in Hrow as (src & -> & Hsrc). by exists src.
  - rewrite Hp4 in Hrow.
    apply list_elem_of_fmap in Hrow as (src & -> & Hsrc). by split_and!.
  - rewrite Hp5 in Hrow.
    apply list_elem_of_fmap in Hrow as (src & -> & Hsrc). by split_and!.
  - rewrite Hp6 in Hrow.
    apply list_elem_of_fmap in Hrow as (src & -> & Hsrc). by split_and!.
  - rewrite Hp7 in Hrow.
    apply list_elem_of_fmap in Hrow as (src & -> & Hsrc). by split_and!.
Qed.

(** C2, amended.  In every table of the result of country C, every row has
    [iso3] equal to C's code.  The [country] field equals C's name in five
    tables: index-subnational, dimension-subnational, indicator-national,
    indicator-subnational and sex-disaggregated.  The index-national and
    dimension-national tables hold one record for each country-level row
    kept for C, and the [country] field of a record is the [admin_name]
    of the row it was built from (the empty string when the row has no
    such column), whatever the country list calls C. *)
Theorem output_rows_country_fields (set_iter : list Z → list Z)
    (self : Pipeline) (inp : Inputs) (results : list CountryResult) :
  get_country_data set_iter self inp = Ok results →
  Forall2 (country_fields self inp) (_countries self) results.
Proof.
  intros Hres%for_countries_Ok.
  eapply Forall2_impl; [exact Hres|].
  intros country r. apply country_data_fields.
Qed.

(** The aggregator returns on the example data, and its results carry the
    country fields as stated. *)
Lemma output_rows_country_fields_witness :
  ∃ results,
    get_country_data remove_dups ex_self ex_inputs = Ok results
    ∧ Forall2 (country_fields ex_self ex_inputs) (_countries ex_self) results.
Proof.
  destruct (is_Ok_eval (get_country_data remove_dups ex_self ex_inputs))
    as [results Hres]; [by_vm|].
  exists results. split; [exact Hres|].
  exact (output_rows_country_fields remove_dups ex_self ex_inputs results Hres).
Defined.

(** ** The year range: claims C4 and C10 *)

(** C4.  For every iteration order of the set of years: when some [year]
    value parses, the extractor returns the smallest and the largest of
    the parsed values; when none does, the empty list of rows included, it
    returns [(2000, 2024)]. *)
Theorem get_years_from_rows_spec (set_iter : list Z → list Z)
    (rows : list Row) :
  set_order set_iter →
  (parsable_years rows = [] →
   _get_years_from_rows set_iter rows = Ok (2000, 2024))
  ∧ (parsable_years rows ≠ [] →
     ∃ mn mx, _get_years_from_rows set_iter rows = Ok (mn, mx)
       ∧ mn ∈ parsable_years rows ∧ mx ∈ parsable_years rows
       ∧ ∀ y, y ∈ parsable_years rows → mn ≤ y ≤ mx).
Proof. apply get_years_from_rows_range. Qed.

(** Both branches on example rows, with the set visited in the order of
    first insertion. *)
Lemma get_years_from_rows_spec_witness :
  _get_years_from_rows remove_dups [] = Ok (2000, 2024)
  ∧ ∃ mn mx, _get_years_from_rows remove_dups ex_year_rows = Ok (mn, mx)
      ∧ mn ∈ parsable_years ex_year_rows ∧ mx ∈ parsable_years ex_year_rows
      ∧ ∀ y, y ∈ parsable_years ex_year_rows → mn ≤ y ≤ mx.
Proof.
  split.
  - apply (get_years_from_rows_spec remove_dups []);
      [exact remove_dups_set_order | reflexivity].
  - apply (get_years_from_rows_spec remove_dups ex_year_rows);
      [exact remove_dups_set_order | by_vm].
Defined.

(** C10.  Every result the aggregator returns has [min_year <= max_year]:
    the smallest element of a set is at most its largest, and the fallback
    pair is ordered. *)
Theorem year_range_ordered (set_iter : list Z → list Z) (self : Pipeline)
    (inp : Inputs) (results : list CountryResult) :
  get_country_data set_iter self inp = Ok results →
  Forall (λ r, r_min_year r ≤ r_max_year r) results.
Proof.
  intros Hres%for_countries_Ok.
  induction Hres as [|country r countries results Hr _ IH]; constructor;
    [|exact IH].
  apply country_data_Ok in Hr
    as (t1 & t2 & t3 & t4 & t5 & t6 & t7 & mn & mx & _ & _ & _ & _ & _ & _ & _
        & Hyears & ->).
  simpl. by eapply get_years_from_rows_ordered.
Qed.

(** The aggregator returns on the example data, with ordered year ranges. *)
Lemma year_range_ordered_witness :
  ∃ results,
    get_country_data remove_dups ex_self ex_inputs = Ok results
    ∧ Forall (λ r, r_min_year r ≤ r_max_year r) results.
Proof.
  destruct (is_Ok_eval (get_country_data remove_dups ex_self ex_inputs))
    as [results Hres]; [by_vm|].
  exists results. split; [exact Hres|].
  exact (year_range_ordered remove_dups ex_self ex_inputs results Hres).
Defined.

(** ** Determinism: claim C9 *)

(** C9.  Two runs on the same parsed inputs give the same outcome: the
    same sequence of results, with the same tables in the same order and
    the same geometry collections, or the same exception.  The one thing a
    run may vary, the order in which the set of years is visited, does not
    show. *)
Theorem get_country_data_deterministic (it1 it2 : list Z → list Z)
    (self : Pipeline) (inp : Inputs) :
  set_order it1 → set_order it2 →
  get_country_data it1 self inp = get_country_data it2 self inp.
Proof.
  intros H1 H2. unfold get_country_data.
  induction (_countries self) as [|country countries IH];
    cbn [for_countries]; [done|].
  by rewrite (country_data_order_irrelevant it1 it2), IH.
Qed.

(** Two runs on the example data, one visiting each set of years in the
    order of first insertion, the other in the reverse order. *)
Lemma get_country_data_deterministic_witness :
  get_country_data remove_dups ex_self ex_inputs
  = get_country_data (λ l, reverse (remove_dups l)) ex_self ex_inputs.
Proof.
  apply (get_country_data_deterministic remove_dups
           (λ l, reverse (remove_dups l)) ex_self ex_inputs).
  - exact remove_dups_set_order.
  - exact reverse_remove_dups_set_order.
Defined.

(** ** The scenario of section 8: claim C8 *)

(** C8.  With a province mapping that holds the entry
    12345 -> (KHM, Phnom Penh), whatever else it holds and whatever the
    country list, the one source row of the scenario, code "KHM" and name
    "Cambodia", the index-subnational transformer returns exactly the one
    expected record. *)
Theorem gii_subnational_scenario (self : Pipeline) :
  _province_mapping self !! 12345 = Some (mkProvinceInfo "KHM" "Phnom Penh") →
  _transform_gii_subnational self [ex_scenario_row] "KHM" "Cambodia"
  = Ok [ex_scenario_record].
Proof.
  intros Hentry.
  assert (province_name_of self ex_scenario_row = Ok "Phnom Penh") as Hname.
  { rewrite province_name_of_unfold.
    change (ex_scenario_row !! "area_id") with (Some (Str "12345")).
    cbv iota beta. change (truthy "12345") with true.
    change (py_int "12345") with (Ok 12345). cbv iota beta.
    by rewrite Hentry. }
  unfold _transform_gii_subnational. cbn [for_rows].
  rewrite bool_decide_eq_false_2 by (intros Hne; by apply Hne).
  cbn [mbind result_bind]. rewrite Hname. cbn [mbind result_bind].
  by_vm.
Qed.

(** The mapping of the example pipeline holds the entry among others. *)
Lemma gii_subnational_scenario_witness :
  _transform_gii_subnational ex_self [ex_scenario_row] "KHM" "Cambodia"
  = Ok [ex_scenario_record].
Proof. apply (gii_subnational_scenario ex_self). by_vm. Defined.

(** ** Sort order of the subnational tables: claim C5 *)

(** C5.  Whenever one of the three subnational transformers or the
    sex-disaggregated transformer returns a table, any two adjacent rows of
    it are in order: the year, as an integer, does not increase; at equal
    years the province does not decrease; at equal provinces the category
    and then the name (for the sex-disaggregated table: the indicator) do
    not decrease. *)
Theorem subnational_tables_sorted (self : Pipeline) (rows : list Row)
    (code name : string) :
  (∀ out, _transform_gii_subnational self rows code name = Ok out →
          Sorted (ordered_by ["province"]) out)
  ∧ (∀ out, _transform_dimension_subnational self rows code name = Ok out →
            Sorted (ordered_by ["province"; "dimension_category"; "dimension"])
              out)
  ∧ (∀ out, _transform_indicator_subnational self rows code name = Ok out →
            Sorted (ordered_by ["province"; "indicator_category"; "indicator"])
              out)
  ∧ (∀ out, _transform_sex_disaggregated self rows code name = Ok out →
            Sorted (ordered_by ["province"; "indicator"]) out).
Proof.
  split_and!; intros out Hout; apply bind_Ok in Hout as (t & _ & Hs).
  - apply py_sorted_sorted in Hs; [|apply lt_key2_asym].
    eapply Sorted_weaken; [|exact Hs]. intros a b. apply key2_ordered.
  - apply py_sorted_sorted in Hs; [|apply lt_key4_asym].
    eapply Sorted_weaken; [|exact Hs]. intros a b. apply key4_ordered.
  - apply py_sorted_sorted in Hs; [|apply lt_key4_asym].
    eapply Sorted_weaken; [|exact Hs]. intros a b. apply key4_ordered.
  - apply py_sorted_sorted in Hs; [|apply lt_key3_asym].
    eapply Sorted_weaken; [|exact Hs]. intros a b. apply key3_ordered.
Qed.

Lemma eval_length {A} (m : result (list A)) (l : list A) (n : nat) :
  length <$> m = Ok n → m = Ok l → length l = n.
Proof. intros Hn ->. by injection Hn. Qed.

(** Two tables of three rows each, returned and sorted. *)
Lemma subnational_tables_sorted_witness :
  (∃ out, _transform_gii_subnational ex_self (gii_data ex_inputs)
            "KHM" "Cambodia" = Ok out
          ∧ length out = 3%nat ∧ Sorted (ordered_by ["province"]) out)
  ∧ (∃ out, _transform_sex_disaggregated ex_self
              (filter (keeps ex_self "KHM") (sex_disagg_data ex_inputs))
              "KHM" "Cambodia" = Ok out
            ∧ length out = 3%nat
            ∧ Sorted (ordered_by ["province"; "indicator"]) out).
Proof.
  split.
  - destruct (is_Ok_eval (_transform_gii_subnational ex_self
                (gii_data ex_inputs) "KHM" "Cambodia")) as [out Hout]; [by_vm|].
    exists out. split; [exact Hout|]. split.
    + eapply eval_length; [|exact Hout]. by_vm.
    + by apply (subnational_tables_sorted ex_self (gii_data ex_inputs)
                  "KHM" "Cambodia").
  - destruct (is_Ok_eval (_transform_sex_disaggregated ex_self
                (filter (keeps ex_self "KHM") (sex_disagg_data ex_inputs))
                "KHM" "Cambodia")) as [out Hout]; [by_vm|].
    exists out. split; [exact Hout|]. split.
    + eapply eval_length; [|exact Hout]. by_vm.
    + by apply (subnational_tables_sorted ex_self
                  (filter (keeps ex_self "KHM") (sex_disagg_data ex_inputs))
                  "KHM" "Cambodia").
Defined.

(** ** Province resolution: claim C6 *)

(** Resolution returns for every row, but one whose [area_id] is a
    non-empty text that is no integer. *)
Lemma province_name_of_total (self : Pipeline) (row : Row) :
  (∀ s : string, row !! "area_id" = Some (Str s) → s = "" ∨ is_Ok (py_int s)) →
  province_name_of self row = Ok (resolved_province self row).
Proof.
  intros Harea. destruct (province_name_of self row) as [p|e] eqn:Hp.
  - by apply province_name_of_Ok in Hp as ->.
  - exfalso. rewrite province_name_of_unfold in Hp.
    destruct (row !! "area_id") as [[s|]|] eqn:Hs; [|done..].
    destruct (Harea s eq_refl) as [->|[a Ha]]; [done|].
    rewrite Ha in Hp. by destruct (truthy s).
Qed.

(** C6.  Resolution returns the mapped name when the [area_id] parses to a
    key of the mapping and the empty string otherwise, for every row but
    one whose [area_id] is a non-empty text that is no integer; so it does
    when the [area_id] is absent, empty or [None].  The rows a
    province-resolving transformer processes are rows the partitioner has
    kept: on every such row the [area_id] is absent or parses as an
    integer, so resolution never fails.  A transformer that returns a
    table has one record, with that province, for every row it reads: no
    row is dropped; and it does return when every year parses and no cell
    is [None], so resolution is no cause of failure. *)
Theorem province_resolution (self : Pipeline) (raw rows : list Row)
    (country_code : string) :
  _filter_csv_by_country self raw country_code = Ok rows →
  (∀ row,
     (∀ s : string, row !! "area_id" = Some (Str s) → s = "" ∨ is_Ok (py_int s)) →
     province_name_of self row = Ok (resolved_province self row))
  ∧ Forall (λ row,
    (row !! "area_id" = None
     ∨ ∃ v a, row !! "area_id" = Some v ∧ py_int v = Ok a)
    ∧ province_name_of self row = Ok (resolved_province self row)
    ∧ (∀ v a info, row !! "area_id" = Some v → py_int v = Ok a →
         _province_mapping self !! a = Some info →
         province_name_of self row = Ok (p_name info))
    ∧ (∀ v a, row !! "area_id" = Some v → py_int v = Ok a →
         _province_mapping self !! a = None →
         province_name_of self row = Ok "")
    ∧ (row !! "area_id" = None → province_name_of self row = Ok "")) rows
  ∧ ∀ code name,
      let sub := at_level "province" rows in
      let T2 := _transform_gii_subnational self rows code name in
      let T4 := _transform_dimension_subnational self rows code name in
      let T6 := _transform_indicator_subnational self rows code name in
      let T7 := _transform_sex_disaggregated self rows code name in
      (∀ out, T2 = Ok out →
         out ≡ₚ (λ row, gii_subnational_row code name
                          (resolved_province self row) row) <$> sub)
      ∧ (∀ out, T4 = Ok out →
           out ≡ₚ (λ row, dimension_subnational_row code name
                            (resolved_province self row) row) <$> sub)
      ∧ (∀ out, T6 = Ok out →
           out ≡ₚ (λ row, indicator_subnational_row code name
                            (resolved_province self row) row) <$> sub)
      ∧ (∀ out, T7 = Ok out →
           out ≡ₚ (λ row, sex_disaggregated_row code name
                            (resolved_province self row) row) <$> rows)
      ∧ (Forall year_parses sub → Forall full_record sub →
         is_Ok T2 ∧ is_Ok T4 ∧ is_Ok T6)
      ∧ (Forall year_parses rows → Forall full_record rows → is_Ok T7).
Proof.
  intros [_ Harea]%partitioned_area_ok. split; [apply province_name_of_total|].
  split.
  - eapply Forall_impl; [exact Harea|]. intros row [a Ha].
    pose proof (province_name_of_succeeds self row (ex_intro _ a Ha)) as Hp.
    pose proof Hp as Hp'.
    unfold row_area_id in Ha. unfold resolved_province in Hp'.
    destruct (row !! "area_id") as [v|] eqn:Hv.
    + rewrite Ha in Hp'. split_and!; [right; eauto|exact Hp| | |done].
      * intros v' a' info [= <-]. rewrite Ha. intros [= <-] Hinfo.
        by rewrite Hinfo in Hp'.
      * intros v' a' [= <-]. rewrite Ha. intros [= <-] Hinfo.
        by rewrite Hinfo in Hp'.
    + split_and!; [by left|done|done..].
  - intros code name sub T2 T4 T6 T7.
    destruct (gii_subnational_outcome self rows code name) as [Hp2 Ha2].
    destruct (dimension_subnational_outcome self rows code name) as [Hp4 Ha4].
    destruct (indicator_subnational_outcome self rows code name) as [Hp6 Ha6].
    destruct (sex_disaggregated_outcome self rows code name) as [Hp7 Ha7].
    split_and!; [done..| |].
    + intros Hyears Hfull.
      destruct (Ha2 Harea) as (_ & _ & _ & H2).
      destruct (Ha4 Harea) as (_ & _ & _ & H4).
      destruct (Ha6 Harea) as (_ & _ & _ & H6).
      destruct (H2 Hyears Hfull) as (? & ? & _).
      destruct (H4 Hyears Hfull) as (? & ? & _).
      destruct (H6 Hyears Hfull) as (? & ? & _).
      split_and!; by eexists.
    + intros Hyears Hfull.
      destruct (Ha7 Harea) as (_ & _ & _ & H7).
      destruct (H7 Hyears Hfull) as (? & ? & _). by eexists.
Qed.

(** Cambodia's sex-disaggregated rows: two provinces of the mapping and the
    country itself, whose identifier is no key of the mapping. *)
Lemma province_resolution_witness :
  ∃ rows,
    _filter_csv_by_country ex_self (sex_disagg_data ex_inputs) "KHM" = Ok rows
    ∧ Forall (λ row, province_name_of ex_self row
                     = Ok (resolved_province ex_self row)) rows
    ∧ resolved_province ex_self <$> rows = ["Battambang"; "Phnom Penh"; ""]
    ∧ is_Ok (_transform_sex_disaggregated ex_self rows "KHM" "Cambodia").
Proof.
  destruct (is_Ok_eval (_filter_csv_by_country ex_self
              (sex_disagg_data ex_inputs) "KHM")) as [rows Hrows]; [by_vm|].
  exists rows. split; [exact Hrows|].
  destruct (province_resolution ex_self (sex_disagg_data ex_inputs) rows
              "KHM" Hrows) as (_ & Hres & Htables).
  assert (rows = filter (keeps ex_self "KHM") (sex_disagg_data ex_inputs))
    as Hpart.
  { unfold _filter_csv_by_country in Hrows. rewrite filter_loop_spec in Hrows.
    by injection Hrows. }
  split_and!.
  - eapply Forall_impl; [exact Hres|]. by intros row (_ & Hp & _).
  - rewrite Hpart. by_vm.
  - apply (Htables "KHM" "Cambodia"); rewrite Hpart; by_vm.
Defined.

(** ** The sex-disaggregated table: claim C7 *)

(** C7, counterexample.  A sex-disaggregated row carries Cambodia's area
    identifier and no [admin_level].  The transformer alone would turn it
    into a record, but the partitioner, which tests [admin_level] for every
    table, has removed it: Cambodia's table is empty. *)
Lemma sex_row_without_level_counterexample :
  row_area_id ex_sex_row_without_level = Ok 1
  ∧ _get_country_area_id ex_self "KHM" = Some 1
  ∧ length <$> _transform_sex_disaggregated ex_self [ex_sex_row_without_level]
                 "KHM" "Cambodia" = Ok 1%nat
  ∧ fmap (M:=list) (λ r, (r_iso3 r, table r "sex-disaggregated"))
      <$> get_country_data remove_dups ex_self ex_sex_only_inputs
    = Ok [("KHM", []); ("VNM", [])].
Proof. repeat split; by_vm. Qed.

(** C7, amended.  The sex-disaggregated table of a country holds one
    record for every sex-disaggregated source row that the partitioner
    keeps for the country, and nothing else.  The partitioner applies to
    this table the rule it applies to the others, so a row whose
    [admin_level] is absent or is neither ["country"] nor ["province"] is
    not kept; the transformer adds no test of its own. *)
Theorem sex_disaggregated_table (set_iter : list Z → list Z) (self : Pipeline)
    (inp : Inputs) (country : Country) (r : CountryResult) :
  country_data set_iter self inp country = Ok r →
  table r "sex-disaggregated"
    ≡ₚ (λ row, sex_disaggregated_row (c_iso3 country) (c_name country)
                 (resolved_province self row) row)
         <$> filter (keeps self (c_iso3 country)) (sex_disagg_data inp)
  ∧ ∀ row, get row "admin_level" "" ≠ "country" →
           get row "admin_level" "" ≠ "province" →
           row ∉ filter (keeps self (c_iso3 country)) (sex_disagg_data inp).
Proof.
  intros Hr. apply country_data_Ok in Hr
    as (t1 & t2 & t3 & t4 & t5 & t6 & t7 & mn & mx
        & _ & _ & _ & _ & _ & _ & H7 & _ & ->).
  split.
  - change (table _ "sex-disaggregated") with t7.
    exact (proj1 (sex_disaggregated_outcome _ _ _ _) _ H7).
  - intros row Hc Hp [(a & _ & [[? _]|[? _]]) _]%list_elem_of_filter; done.
Qed.

(** Cambodia's table on the example data: three of the four source rows
    reach it; the row without [admin_level] does not. *)
Lemma sex_disaggregated_table_witness :
  ∃ r, country_data remove_dups ex_self ex_inputs (mkCountry "KHM" "Cambodia" 1)
       = Ok r
       ∧ table r "sex-disaggregated"
           ≡ₚ (λ row, sex_disaggregated_row "KHM" "Cambodia"
                        (resolved_province ex_self row) row)
                <$> filter (keeps ex_self "KHM") (sex_disagg_data ex_inputs)
       ∧ ex_sex_row_without_level
           ∉ filter (keeps ex_self "KHM") (sex_disagg_data ex_inputs).
Proof.
  destruct (is_Ok_eval (country_data remove_dups ex_self ex_inputs
                          (mkCountry "KHM" "Cambodia" 1))) as [r Hr]; [by_vm|].
  exists r. split; [exact Hr|].
  destruct (sex_disaggregated_table remove_dups ex_self ex_inputs
              (mkCountry "KHM" "Cambodia" 1) r Hr) as [Hperm Hout].
  split; [exact Hperm|]. apply Hout; discriminate.
Defined.

(** * Further properties of the engine *)

(** ** Looking up a country's area *)

(** X1.  [_get_country_area_id] returns [None] exactly when no loaded
    country carries the code; otherwise it returns the area identifier of
    the first country in load order that carries it, whatever later
    entries with the same code say. *)
Theorem get_country_area_id_first (self : Pipeline) (country_code : string) :
  match _get_country_area_id self country_code with
  | None => ∀ c, c ∈ _countries self → c_iso3 c ≠ country_code
  | Some a =>
      ∃ (pre : list Country) c post,
        _countries self = (pre ++ c :: post)%list
        ∧ c_iso3 c = country_code ∧ c_area_id c = a
        ∧ ∀ c', c' ∈ pre → c_iso3 c' ≠ country_code
  end.
Proof.
  unfold _get_country_area_id.
  induction (_countries self) as [|c cs IH]; simpl.
  - intros c Hc. by apply elem_of_nil in Hc.
  - case_bool_decide as Hcode.
    + exists [], c, cs. split_and!; [done..|].
      intros c' Hc'. by apply elem_of_nil in Hc'.
    + destruct (_get_country_area_id_in cs country_code) as [a|].
      * destruct IH as (pre & c0 & post & -> & Hc0 & Ha & Hpre).
        exists (c :: pre), c0, post. split_and!; [done..|].
        intros c' [->|Hc']%elem_of_cons; [done|by apply Hpre].
      * intros c' [->|Hc']%elem_of_cons; [done|by apply IH].
Qed.

(** X2.  When no two loaded countries share a code, every loaded country
    is looked up to its own area identifier. *)
Theorem get_country_area_id_own (self : Pipeline) (c : Country) :
  NoDup (c_iso3 <$> _countries self) →
  c ∈ _countries self →
  _get_country_area_id self (c_iso3 c) = Some (c_area_id c).
Proof.
  unfold _get_country_area_id.
  induction (_countries self) as [|c0 cs IH]; intros Hnd Hc.
  - by apply elem_of_nil in Hc.
  - rewrite fmap_cons in Hnd. apply NoDup_cons in Hnd as [Hnotin Hnd].
    simpl. apply elem_of_cons in Hc as [->|Hc].
    + by rewrite bool_decide_eq_true_2.
    + rewrite bool_decide_eq_false_2; [by apply IH|].
      intros Heq. apply Hnotin. rewrite Heq. by apply list_elem_of_fmap_2.
Qed.

(** The second country of the example list. *)
Lemma get_country_area_id_own_witness :
  _get_country_area_id ex_self "VNM" = Some 2.
Proof.
  apply (get_country_area_id_own ex_self (mkCountry "VNM" "Viet Nam" 2)).
  - by_vm.
  - right. left.
Defined.

(** ** The partitioner, across countries and across calls *)

(** X3.  No province-level row is kept for two different countries: the
    province mapping assigns each area identifier to one code. *)
Theorem province_row_one_country (self : Pipeline) (rows1 rows2 out1 out2 : list Row)
    (code1 code2 : string) (row : Row) :
  _filter_csv_by_country self rows1 code1 = Ok out1 →
  _filter_csv_by_country self rows2 code2 = Ok out2 →
  row ∈ out1 → row ∈ out2 →
  get row "admin_level" "" = "province" →
  code1 = code2.
Proof.
  intros [-> _]%partitioned_area_ok [-> _]%partitioned_area_ok.
  intros [(a1 & Ha1 & H1) _]%list_elem_of_filter
         [(a2 & Ha2 & H2) _]%list_elem_of_filter Hlevel.
  rewrite Ha1 in Ha2. injection Ha2 as <-.
  destruct H1 as [[Hc _]|[_ H1]]; [by rewrite Hlevel in Hc|].
  destruct H2 as [[Hc _]|[_ H2]]; [by rewrite Hlevel in Hc|].
  congruence.
Qed.

(** The scenario row is kept for Cambodia whichever table it comes from. *)
Lemma province_row_one_country_witness : "KHM" = "KHM".
Proof.
  apply (province_row_one_country ex_self [ex_scenario_row]
           (ex_scenario_row :: gii_data ex_inputs)
           [ex_scenario_row]
           (filter (keeps ex_self "KHM")
              (ex_scenario_row :: gii_data ex_inputs))
           "KHM" "KHM" ex_scenario_row); by_vm.
Defined.

(** X4.  Partitioning twice for the same country changes nothing, and the
    partition of a concatenation is the concatenation of the partitions. *)
Theorem filter_csv_by_country_composes (self : Pipeline) (rows rows' : list Row)
    (country_code : string) :
  (_filter_csv_by_country self rows country_code
     ≫= λ out, _filter_csv_by_country self out country_code)
  = _filter_csv_by_country self rows country_code
  ∧ _filter_csv_by_country self (rows ++ rows')%list country_code
    = (out ← _filter_csv_by_country self rows country_code;
       out' ← _filter_csv_by_country self rows' country_code;
       Ok (out ++ out')%list).
Proof.
  unfold _filter_csv_by_country. rewrite !filter_loop_spec. simpl.
  rewrite filter_loop_spec. split.
  - f_equal. induction rows as [|row rows IH]; [done|].
    rewrite filter_cons. case_decide as Hk; [|done].
    rewrite filter_cons, decide_True by done. by rewrite IH.
  - by rewrite filter_app.
Qed.

(** ** The transformers: schemas, levels and order *)

Lemma transformed_schema {out : list Row} (rec : Row → Row)
    (sources : list Row) (keys : gset string) :
  (∀ src, dom (rec src) = keys) →
  out ≡ₚ rec <$> sources → Forall (λ row, dom row = keys) out.
Proof.
  intros Hdom ->. apply Forall_fmap, Forall_forall. intros src _. apply Hdom.
Qed.

Lemma transformed_schema_of {out : list Row} (rec : Row → Row)
    (sources : list Row) (keys : gset string)
    (columns : list (string * string)) :
  (∀ src, dom (rec src) = keys) →
  (∀ src, copies columns src (rec src)) →
  out ≡ₚ rec <$> sources → schema_of keys columns sources out.
Proof.
  intros Hdom Hcopy Hperm. unfold schema_of. rewrite Hperm.
  apply Forall_fmap, Forall_forall. intros src Hsrc.
  simpl. split; [apply Hdom|]. by exists src.
Qed.

(** A record copies its columns. *)
Ltac copies_columns :=
  intros src; repeat constructor;
  cbv delta [fst snd] beta iota;
  match goal with
  | |- match src !! ?c with _ => _ end =>
      destruct (src !! c) as [v|] eqn:Hc;
      match goal with
      | |- ?r !! ?f = Some ?x =>
          change (r !! f) with (Some (get src c ""));
          unfold get; by rewrite Hc
      end
  end.

(** X5.  Every record of a table has exactly the keys of the table's
    schema, whatever columns the source rows have, and is built from one
    of the rows the transformer reads: each copied field holds the cell
    of its source column, the empty string when the row lacks the column;
    a column the schema does not name is ignored. *)
Theorem tables_have_their_schema (self : Pipeline) (rows : list Row)
    (code name : string) (out : list Row) :
  (_transform_gii_national self rows code = Ok out →
   schema_of gii_national_keys gii_national_columns
     (at_level "country" rows) out)
  ∧ (_transform_gii_subnational self rows code name = Ok out →
     schema_of gii_subnational_keys gii_subnational_columns
       (at_level "province" rows) out)
  ∧ (_transform_dimension_national self rows code = Ok out →
     schema_of dimension_national_keys dimension_national_columns
       (at_level "country" rows) out)
  ∧ (_transform_dimension_subnational self rows code name = Ok out →
     schema_of dimension_subnational_keys dimension_subnational_columns
       (at_level "province" rows) out)
  ∧ (_transform_indicator_national self rows code name = Ok out →
     schema_of indicator_national_keys indicator_columns
       (at_level "country" rows) out)
  ∧ (_transform_indicator_subnational self rows code name = Ok out →
     schema_of indicator_subnational_keys indicator_columns
       (at_level "province" rows) out)
  ∧ (_transform_sex_disaggregated self rows code name = Ok out →
     schema_of sex_disaggregated_keys sex_disaggregated_columns rows out).
Proof.
  split_and!.
  - intros Hout%gii_national_records.
    eapply transformed_schema_of; [| |exact Hout]; [done|copies_columns].
  - intros Hout%gii_subnational_records.
    eapply transformed_schema_of; [| |exact Hout]; [done|copies_columns].
  - intros Hout%dimension_national_records.
    eapply transformed_schema_of; [| |exact Hout]; [done|copies_columns].
  - intros Hout%dimension_subnational_records.
    eapply transformed_schema_of; [| |exact Hout]; [done|copies_columns].
  - intros Hout%indicator_national_records.
    eapply transformed_schema_of; [| |exact Hout]; [done|copies_columns].
  - intros Hout%indicator_subnational_records.
    eapply transformed_schema_of; [| |exact Hout]; [done|copies_columns].
  - intros Hout%sex_disaggregated_records.
    eapply transformed_schema_of; [| |exact Hout]; [done|copies_columns].
Qed.

(** The index-national table of [ex_schema_rows]: the index of the first
    record is [None]; the name and the index of the second are empty. *)
Lemma tables_have_their_schema_witness :
  ∃ out, _transform_gii_national ex_self ex_schema_rows "KHM" = Ok out
         ∧ schema_of gii_national_keys gii_national_columns
             (at_level "country" ex_schema_rows) out
         ∧ (λ row : Row, (row !! "country", row !! "gender_inequality_index"))
             <$> out
           = [(Some (Str "Cambodia"), Some PyNone);
              (Some (Str ""), Some (Str ""))].
Proof.
  destruct (is_Ok_eval (_transform_gii_national ex_self ex_schema_rows "KHM"))
    as [out Hout]; [by_vm|].
  exists out. split; [exact Hout|]. split.
  - by apply (tables_have_their_schema ex_self ex_schema_rows "KHM"
                "Cambodia" out).
  - assert (fmap (M:=list)
              (λ row : Row,
                 (row !! "country", row !! "gender_inequality_index"))
              <$> _transform_gii_national ex_self ex_schema_rows "KHM"
            = Ok [(Some (Str "Cambodia"), Some PyNone);
                  (Some (Str ""), Some (Str ""))]) as Hval by by_vm.
    rewrite Hout in Hval. by injection Hval.
Defined.

Lemma for_rows_skip_all (body : Row → result (option Row)) (rows : list Row) :
  (∀ row, row ∈ rows → body row = Ok None) → for_rows body rows = Ok [].
Proof.
  induction rows as [|row rows IH]; intros Hskip; [done|]. simpl.
  rewrite Hskip by left. simpl. rewrite IH; [done|].
  intros r Hr. apply Hskip. by right.
Qed.

Lemma at_level_nil (level : string) (rows : list Row) (row : Row) :
  at_level level rows = [] → row ∈ rows →
  bool_decide (row !! "admin_level" ≠ Some (Str level)) = true.
Proof.
  intros Hnil Hin. apply bool_decide_eq_true_2. intros Hlevel.
  assert (row ∈ at_level level rows) as Hrow
    by (by apply list_elem_of_filter).
  rewrite Hnil in Hrow. by apply elem_of_nil in Hrow.
Qed.

(** X6.  A transformer written for one level returns the empty table when
    no row has that level, without looking at the other rows: their years
    and area identifiers may be anything. *)
Theorem no_row_of_level_empty_table (self : Pipeline) (rows : list Row)
    (code name : string) :
  (at_level "country" rows = [] →
   _transform_gii_national self rows code = Ok []
   ∧ _transform_dimension_national self rows code = Ok []
   ∧ _transform_indicator_national self rows code name = Ok [])
  ∧ (at_level "province" rows = [] →
     _transform_gii_subnational self rows code name = Ok []
     ∧ _transform_dimension_subnational self rows code name = Ok []
     ∧ _transform_indicator_subnational self rows code name = Ok []).
Proof.
  split; intros Hnil.
  - unfold _transform_gii_national, _transform_dimension_national,
      _transform_indicator_national.
    rewrite !for_rows_skip_all; [done|..];
      intros row Hrow; by rewrite (at_level_nil "country" rows).
  - unfold _transform_gii_subnational, _transform_dimension_subnational,
      _transform_indicator_subnational.
    rewrite !for_rows_skip_all; [done|..];
      intros row Hrow; by rewrite (at_level_nil "province" rows).
Qed.

(** Province rows with a year and an area identifier that do not parse:
    the national transformers return the empty table. *)
Lemma no_row_of_level_empty_table_witness :
  _transform_gii_national ex_self
    [ex_bad_area_row; row_of [("admin_level", "province"); ("year", "abc")]]
    "KHM" = Ok []
  ∧ _transform_dimension_national ex_self
      [ex_bad_area_row; row_of [("admin_level", "province"); ("year", "abc")]]
      "KHM" = Ok []
  ∧ _transform_indicator_national ex_self
      [ex_bad_area_row; row_of [("admin_level", "province"); ("year", "abc")]]
      "KHM" "Cambodia" = Ok [].
Proof.
  apply (no_row_of_level_empty_table ex_self
           [ex_bad_area_row;
            row_of [("admin_level", "province"); ("year", "abc")]]
           "KHM" "Cambodia").
  by_vm.
Defined.

(** X7.  Whenever a national transformer returns a table, adjacent rows
    are in order: the year does not increase; in the dimension and
    indicator tables, at equal years the category and then the name do
    not decrease. *)
Theorem national_tables_sorted (self : Pipeline) (rows : list Row)
    (code name : string) :
  (∀ out, _transform_gii_national self rows code = Ok out →
          Sorted (ordered_by []) out)
  ∧ (∀ out, _transform_dimension_national self rows code = Ok out →
            Sorted (ordered_by ["dimension_category"; "dimension"]) out)
  ∧ (∀ out, _transform_indicator_national self rows code name = Ok out →
            Sorted (ordered_by ["indicator_category"; "indicator"]) out).
Proof.
  split_and!; intros out Hout; apply bind_Ok in Hout as (t & _ & Hs).
  - apply py_sorted_sorted in Hs; [|apply lt_rev_asym].
    eapply Sorted_weaken; [|exact Hs].
    intros a b (ka & kb & Ha & Hb & Hlt).
    apply bind_Ok in Ha as (sa & Hsa & Ha). apply getitem_Ok in Hsa as <-.
    apply bind_Ok in Hb as (sb & Hsb & Hb). apply getitem_Ok in Hsb as <-.
    exists ka, kb. split_and!; [done..|].
    unfold lt_rev in Hlt. injection Hlt as Hlt. apply Z.ltb_ge in Hlt.
    simpl. lia.
  - apply py_sorted_sorted in Hs; [|apply lt_key3_asym].
    eapply Sorted_weaken; [|exact Hs]. intros a b. apply key3_ordered.
  - apply py_sorted_sorted in Hs; [|apply lt_key3_asym].
    eapply Sorted_weaken; [|exact Hs]. intros a b. apply key3_ordered.
Qed.

(** The index-national table of Cambodia on the example data. *)
Lemma national_tables_sorted_witness :
  ∃ out, _transform_gii_national ex_self
           (filter (keeps ex_self "KHM") (gii_data ex_inputs)) "KHM" = Ok out
         ∧ length out = 2%nat ∧ Sorted (ordered_by []) out.
Proof.
  destruct (is_Ok_eval (_transform_gii_national ex_self
              (filter (keeps ex_self "KHM") (gii_data ex_inputs)) "KHM"))
    as [out Hout]; [by_vm|].
  exists out. split; [exact Hout|]. split.
  - eapply eval_length; [|exact Hout]. by_vm.
  - by apply (national_tables_sorted ex_self
                (filter (keeps ex_self "KHM") (gii_data ex_inputs))
                "KHM" "Cambodia").
Defined.

(** ** The aggregator: levels, years and failure *)

Lemma kept_row_level (self : Pipeline) (code : string) (rows : list Row)
    (row : Row) :
  row ∈ filter (keeps self code) rows →
  (row !! "admin_level" = Some (Str "country")
   ∨ row !! "admin_level" = Some (Str "province"))
  ∧ is_Ok (row_area_id row).
Proof.
  intros [(a & Ha & Hlevel) _]%list_elem_of_filter.
  split; [|by exists a]. unfold get in Hlevel.
  destruct (row !! "admin_level") as [l|]; simpl in Hlevel;
    destruct Hlevel as [[? _]|[? _]]; naive_solver.
Qed.

Lemma length_levels (self : Pipeline) (code : string) (rows : list Row) :
  (length (at_level "country" (filter (keeps self code) rows))
   + length (at_level "province" (filter (keeps self code) rows)))%nat
  = length (filter (keeps self code) rows).
Proof.
  assert (∀ row, row ∈ filter (keeps self code) rows →
            row !! "admin_level" = Some (Str "country")
            ∨ row !! "admin_level" = Some (Str "province")) as Hlevel
    by (intros row Hrow; by apply kept_row_level in Hrow as [? _]).
  unfold at_level.
  induction (filter (keeps self code) rows) as [|row l IH]; [done|].
  rewrite !filter_cons.
  destruct (Hlevel row ltac:(by left)) as [Hl|Hl];
    rewrite Hl; repeat case_decide; simplify_eq; simpl;
    rewrite <- IH by (intros; apply Hlevel; by right); lia.
Qed.

(** X8.  The split by level loses and duplicates nothing: for the index,
    dimension and indicator sources, the national and the subnational table
    of a country together have one record per partitioned source row; the
    sex-disaggregated table has one record per partitioned row. *)
Theorem level_split_is_lossless (set_iter : list Z → list Z) (self : Pipeline)
    (inp : Inputs) (country : Country) (r : CountryResult) :
  country_data set_iter self inp country = Ok r →
  let part rows := filter (keeps self (c_iso3 country)) rows in
  (length (table r "gii-national") + length (table r "gii-subnational"))%nat
    = length (part (gii_data inp))
  ∧ (length (table r "dimension-national")
     + length (table r "dimension-subnational"))%nat
    = length (part (dimension_data inp))
  ∧ (length (table r "indicator-national")
     + length (table r "indicator-subnational"))%nat
    = length (part (indicator_data inp))
  ∧ length (table r "sex-disaggregated") = length (part (sex_disagg_data inp)).
Proof.
  intros Hr. apply country_data_Ok in Hr
    as (t1 & t2 & t3 & t4 & t5 & t6 & t7 & mn & mx
        & H1 & H2 & H3 & H4 & H5 & H6 & H7 & _ & ->).
  intros part.
  change (table _ "gii-national") with t1.
  change (table _ "gii-subnational") with t2.
  change (table _ "dimension-national") with t3.
  change (table _ "dimension-subnational") with t4.
  change (table _ "indicator-national") with t5.
  change (table _ "indicator-subnational") with t6.
  change (table _ "sex-disaggregated") with t7.
  apply gii_national_records in H1. apply gii_subnational_records in H2.
  apply dimension_national_records in H3.
  apply dimension_subnational_records in H4.
  apply indicator_national_records in H5.
  apply indicator_subnational_records in H6.
  apply sex_disaggregated_records in H7.
  rewrite H1, H2, H3, H4, H5, H6, H7, !length_fmap.
  unfold part. by rewrite !length_levels.
Qed.

(** Cambodia on the example data. *)
Lemma level_split_is_lossless_witness :
  ∃ r, country_data remove_dups ex_self ex_inputs (mkCountry "KHM" "Cambodia" 1)
       = Ok r
       ∧ (length (table r "gii-national")
          + length (table r "gii-subnational"))%nat = 5%nat
       ∧ length (table r "sex-disaggregated") = 3%nat.
Proof.
  destruct (is_Ok_eval (country_data remove_dups ex_self ex_inputs
                          (mkCountry "KHM" "Cambodia" 1))) as [r Hr]; [by_vm|].
  exists r. split; [exact Hr|].
  destruct (level_split_is_lossless remove_dups ex_self ex_inputs
              (mkCountry "KHM" "Cambodia" 1) r Hr) as (Hg & _ & _ & Hs).
  split; [rewrite Hg | rewrite Hs]; by_vm.
Defined.

Lemma py_sorted_keys_Ok {A K} (key : A → result K) le (l out : list A) :
  py_sorted key le l = Ok out → Forall (λ x, is_Ok (key x)) out.
Proof.
  intros Hs. pose proof (py_sorted_perm _ _ _ _ Hs) as Hperm.
  rewrite Hperm. unfold py_sorted in Hs.
  destruct (decorate key l) as [d|] eqn:Hd; [|done].
  apply decorate_Ok in Hd as [<- Hd]. apply Forall_fmap.
  eapply Forall_impl; [exact Hd|]. intros [k x] Hk. by exists k.
Qed.

Lemma neg_year_parses (x : Row) (n : Z) : neg_year x = Ok n → year_parses x.
Proof. intros (y & Hy & _)%neg_year_Ok. by exists y. Qed.

(** Every row of a returned table has a year that parses: its sort key was
    computed. *)
Lemma returned_rows_year_parses (self : Pipeline) (rows : list Row)
    (code name : string) (out : list Row) :
  _transform_gii_national self rows code = Ok out
  ∨ _transform_gii_subnational self rows code name = Ok out
  ∨ _transform_dimension_national self rows code = Ok out
  ∨ _transform_dimension_subnational self rows code name = Ok out
  ∨ _transform_indicator_national self rows code name = Ok out
  ∨ _transform_indicator_subnational self rows code name = Ok out
  ∨ _transform_sex_disaggregated self rows code name = Ok out →
  Forall year_parses out.
Proof.
  intros HT.
  assert (∃ K (key : Row → result K) le t,
            py_sorted key le t = Ok out
            ∧ ∀ x k, key x = Ok k → year_parses x) as (K & key & le & t & Hs & Hk).
  { destruct HT as [HT|[HT|[HT|[HT|[HT|[HT|HT]]]]]];
      apply bind_Ok in HT as (t & _ & Hs);
      eexists _, _, _, t; (split; [exact Hs|]); intros x k Hx.
    - apply bind_Ok in Hx as (s & Hs' & Hx). apply getitem_Ok in Hs' as <-.
      by exists k.
    - apply bind_Ok in Hx as (n & Hn & _). by eapply neg_year_parses.
    - apply bind_Ok in Hx as (n & Hn & _). by eapply neg_year_parses.
    - apply bind_Ok in Hx as (n & Hn & _). by eapply neg_year_parses.
    - apply bind_Ok in Hx as (n & Hn & _). by eapply neg_year_parses.
    - apply bind_Ok in Hx as (n & Hn & _). by eapply neg_year_parses.
    - apply bind_Ok in Hx as (n & Hn & _). by eapply neg_year_parses. }
  apply py_sorted_keys_Ok in Hs.
  eapply Forall_impl; [exact Hs|]. intros x [k Hx]. by eapply Hk.
Qed.

Lemma elem_of_parsable_years (rows : list Row) (y : Z) :
  y ∈ parsable_years rows ↔
  ∃ row, row ∈ rows ∧ py_int (get row "year" "") = Ok y.
Proof.
  unfold parsable_years. rewrite list_elem_of_omap. split.
  - intros (row & Hrow & Hy). exists row. split; [done|]. unfold get.
    destruct (row !! "year") as [s|]; [|done]. simpl.
    destruct (py_int s); congruence.
  - intros (row & Hrow & Hy). exists row. split; [done|]. unfold get in Hy.
    destruct (row !! "year") as [s|]; [simpl in Hy; by rewrite Hy|].
    by vm_compute in Hy.
Qed.

(** The rows of all tables of a result, and their years. *)
Lemma country_data_rows (set_iter : list Z → list Z) (self : Pipeline)
    (inp : Inputs) (country : Country) (r : CountryResult) :
  country_data set_iter self inp country = Ok r →
  _get_years_from_rows set_iter (concat (r_csv_data r).*2)
    = Ok (r_min_year r, r_max_year r)
  ∧ Forall year_parses (concat (r_csv_data r).*2).
Proof.
  intros Hr. apply country_data_Ok in Hr
    as (t1 & t2 & t3 & t4 & t5 & t6 & t7 & mn & mx
        & H1 & H2 & H3 & H4 & H5 & H6 & H7 & Hy & ->).
  cbn [r_csv_data r_min_year r_max_year fmap list_fmap snd concat].
  rewrite app_nil_r. split; [done|].
  pose proof (λ rows out H, returned_rows_year_parses self rows
                (c_iso3 country) (c_name country) out H) as Hrows.
  rewrite !Forall_app. split_and!; eapply Hrows; eauto 10.
Qed.

Lemma elem_of_tables (r : CountryResult) (row : Row) :
  row ∈ concat (r_csv_data r).*2 ↔
  ∃ name t, (name, t) ∈ r_csv_data r ∧ row ∈ t.
Proof.
  induction (r_csv_data r) as [|[n t] l IH]; simpl.
  - split; [by intros ?%elem_of_nil|]. by intros (? & ? & ?%elem_of_nil & _).
  - rewrite elem_of_app, IH. split.
    + intros [Hrow|(name & t' & Ht & Hrow)].
      * exists n, t. split; [by left|done].
      * exists name, t'. split; [by right|done].
    + intros (name & t' & [[= -> ->]|Ht]%elem_of_cons & Hrow); [by left|].
      right. eauto.
Qed.

(** X9.  The time period of a country's result covers the year of every
    row of every one of its tables. *)
Theorem time_period_covers_rows (set_iter : list Z → list Z) (self : Pipeline)
    (inp : Inputs) (country : Country) (r : CountryResult) :
  set_order set_iter →
  country_data set_iter self inp country = Ok r →
  ∀ name t row, (name, t) ∈ r_csv_data r → row ∈ t →
    ∃ y, py_int (get row "year" "") = Ok y
         ∧ r_min_year r ≤ y ≤ r_max_year r.
Proof.
  intros Hord [Hyears Hparse]%country_data_rows name t row Ht Hrow.
  assert (row ∈ concat (r_csv_data r).*2) as Hin
    by (apply elem_of_tables; eauto).
  rewrite Forall_forall in Hparse. destruct (Hparse row Hin) as [y Hy].
  exists y. split; [done|].
  assert (y ∈ parsable_years (concat (r_csv_data r).*2)) as Hy'
    by (apply elem_of_parsable_years; eauto).
  destruct (get_years_from_rows_range set_iter
              (concat (r_csv_data r).*2) Hord) as [_ Hne].
  destruct Hne as (mn & mx & Heq & _ & _ & Hb).
  { intros Hnil. rewrite Hnil in Hy'. by apply elem_of_nil in Hy'. }
  rewrite Hyears in Heq. injection Heq as -> ->. by apply Hb.
Qed.

(** Cambodia on the example data: the period is 1990 to 2019. *)
Lemma time_period_covers_rows_witness :
  ∃ r, country_data remove_dups ex_self ex_inputs (mkCountry "KHM" "Cambodia" 1)
       = Ok r
       ∧ (r_min_year r, r_max_year r) = (1990, 2019)
       ∧ ∀ name t row, (name, t) ∈ r_csv_data r → row ∈ t →
           ∃ y, py_int (get row "year" "") = Ok y
                ∧ r_min_year r ≤ y ≤ r_max_year r.
Proof.
  destruct (is_Ok_eval (country_data remove_dups ex_self ex_inputs
                          (mkCountry "KHM" "Cambodia" 1))) as [r Hr]; [by_vm|].
  exists r. split; [exact Hr|]. split.
  - assert ((λ r, (r_min_year r, r_max_year r))
              <$> country_data remove_dups ex_self ex_inputs
                    (mkCountry "KHM" "Cambodia" 1) = Ok (1990, 2019)) as Hp
      by by_vm.
    rewrite Hr in Hp. simpl in Hp. congruence.
  - exact (time_period_covers_rows remove_dups ex_self ex_inputs
             (mkCountry "KHM" "Cambodia" 1) r remove_dups_set_order Hr).
Defined.

(** X10.  The fallback period (2000, 2024) is what a country with seven
    empty tables gets; a country with at least one row gets the smallest
    and the largest year found in its rows. *)
Theorem time_period_fallback_or_attained (set_iter : list Z → list Z)
    (self : Pipeline) (inp : Inputs) (country : Country) (r : CountryResult) :
  set_order set_iter →
  country_data set_iter self inp country = Ok r →
  (Forall (λ nt : string * list Row, nt.2 = []) (r_csv_data r) →
   r_min_year r = 2000 ∧ r_max_year r = 2024)
  ∧ (Exists (λ nt : string * list Row, nt.2 ≠ []) (r_csv_data r) →
     ∃ n1 t1 row1 n2 t2 row2,
       (n1, t1) ∈ r_csv_data r ∧ row1 ∈ t1
       ∧ py_int (get row1 "year" "") = Ok (r_min_year r)
       ∧ (n2, t2) ∈ r_csv_data r ∧ row2 ∈ t2
       ∧ py_int (get row2 "year" "") = Ok (r_max_year r)).
Proof.
  intros Hord [Hyears Hparse]%country_data_rows.
  destruct (get_years_from_rows_range set_iter (concat (r_csv_data r).*2) Hord)
    as [Hnil Hne].
  split.
  - intros Hempty.
    assert (concat (r_csv_data r).*2 = []) as Hrows.
    { clear -Hempty. induction Hempty as [|[n t] l Ht _ IH]; [done|].
      simpl in Ht. subst t. exact IH. }
    rewrite Hrows in Hnil, Hyears. rewrite Hnil in Hyears by done.
    by injection Hyears as <- <-.
  - intros ([n t] & Ht & Hrows)%Exists_exists. simpl in Hrows.
    destruct t as [|row t]; [done|].
    assert (row ∈ concat (r_csv_data r).*2) as Hin.
    { apply elem_of_tables. exists n, (row :: t). split; [done|by left]. }
    rewrite Forall_forall in Hparse. destruct (Hparse row Hin) as [y Hy].
    destruct Hne as (mn & mx & Heq & Hmn & Hmx & _).
    { intros Hnone.
      assert (y ∈ parsable_years (concat (r_csv_data r).*2)) as Hy'
        by (apply elem_of_parsable_years; eauto).
      rewrite Hnone in Hy'. by apply elem_of_nil in Hy'. }
    rewrite Hyears in Heq. injection Heq as <- <-.
    apply elem_of_parsable_years in Hmn as (row1 & Hrow1 & Hy1).
    apply elem_of_parsable_years in Hmx as (row2 & Hrow2 & Hy2).
    apply elem_of_tables in Hrow1 as (n1 & t1 & ? & ?).
    apply elem_of_tables in Hrow2 as (n2 & t2 & ? & ?).
    by exists n1, t1, row1, n2, t2, row2.
Qed.

(** Viet Nam on the sex-only example data: no row, fallback period. *)
Lemma time_period_fallback_or_attained_witness :
  ∃ r, country_data remove_dups ex_self ex_sex_only_inputs
         (mkCountry "VNM" "Viet Nam" 2) = Ok r
       ∧ r_min_year r = 2000 ∧ r_max_year r = 2024.
Proof.
  destruct (is_Ok_eval (country_data remove_dups ex_self ex_sex_only_inputs
                          (mkCountry "VNM" "Viet Nam" 2))) as [r Hr]; [by_vm|].
  exists r. split; [exact Hr|].
  apply (time_period_fallback_or_attained remove_dups ex_self
           ex_sex_only_inputs (mkCountry "VNM" "Viet Nam" 2) r
           remove_dups_set_order Hr).
  assert (bool_decide (Forall (λ nt : string * list Row, nt.2 = [])
            (default [] (match country_data remove_dups ex_self
                                 ex_sex_only_inputs
                                 (mkCountry "VNM" "Viet Nam" 2) with
                         | Ok r => Some (r_csv_data r)
                         | Raise _ => None
                         end))) = true) as Hb by by_vm.
  rewrite Hr in Hb. by apply bool_decide_eq_true in Hb.
Defined.
(** The first element of a list that fails a decidable test. *)
Lemma first_failing {A} (P : A → Prop) `{∀ x, Decision (P x)} (l : list A) :
  ¬ Forall P l →
  ∃ pre x post, l = (pre ++ x :: post)%list ∧ Forall P pre ∧ ¬ P x.
Proof.
  induction l as [|x l IH]; intros Hn; [by destruct Hn|].
  destruct (decide (P x)) as [Hx|Hx].
  - destruct IH as (pre & y & post & -> & Hpre & Hy).
    { intros Hl. apply Hn. by constructor. }
    exists (x :: pre), y, post. split; [done|]. split; [by constructor|done].
  - by exists [], x, l.
Qed.

(** What the outcome of a transformer tells about its sources. *)
Lemma all_or_error_Ok (T : result (list Row)) (sources records : list Row) :
  all_or_error T sources records → is_Ok T → Forall year_parses sources.
Proof.
  intros (_ & Hbad & _) [out Hout].
  destruct (decide (Forall year_parses sources)) as [Hy|Hn]; [done|].
  apply first_failing in Hn as (pre & row & post & Hsplit & Hpre & Hrow);
    [|apply _].
  destruct (py_int (get row "year" "")) as [n|e] eqn:Hyear.
  - exfalso. apply Hrow. by exists n.
  - destruct (Hbad pre row post e Hsplit Hpre Hyear) as [HT _]. congruence.
Qed.

Lemma all_or_error_Raise (T : result (list Row)) (sources records : list Row)
    (e : exn) :
  all_or_error T sources records → T = Raise e →
  (e = ValueError ∨ e = TypeError)
  ∧ ¬ Forall (λ row, year_parses row ∧ full_record row) sources.
Proof.
  intros (_ & Hbad & Htype & Hfull) HT.
  destruct (decide (Forall year_parses sources)) as [Hy|Hn].
  - split; [right; by eapply Htype|]. intros Hall.
    destruct (Hfull Hy) as (out & Hout & _); [|congruence].
    eapply Forall_impl; [exact Hall|]. by intros row [_ ?].
  - split.
    + apply first_failing in Hn as (pre & row & post & Hsplit & Hpre & Hrow);
        [|apply _].
      destruct (py_int (get row "year" "")) as [n|e'] eqn:Hyear.
      * exfalso. apply Hrow. by exists n.
      * destruct (Hbad pre row post e' Hsplit Hpre Hyear) as [HT' He].
        congruence.
    + intros Hall. apply Hn. eapply Forall_impl; [exact Hall|].
      by intros row [? _].
Qed.

Lemma Forall_levels (self : Pipeline) (code : string) (rows : list Row)
    (P : Row → Prop) :
  Forall P (at_level "country" (filter (keeps self code) rows)) →
  Forall P (at_level "province" (filter (keeps self code) rows)) →
  Forall P (filter (keeps self code) rows).
Proof.
  rewrite !Forall_forall. intros Hc Hp row Hrow.
  destruct (kept_row_level self code rows row Hrow) as [[Hl|Hl] _].
  - apply Hc. by apply list_elem_of_filter.
  - apply Hp. by apply list_elem_of_filter.
Qed.

Lemma Forall_at_level (level : string) (rows : list Row) (P : Row → Prop) :
  Forall P rows → Forall P (at_level level rows).
Proof.
  rewrite !Forall_forall. intros HP row [_ Hrow]%list_elem_of_filter. auto.
Qed.

Lemma get_years_from_rows_succeeds (set_iter : list Z → list Z)
    (rows : list Row) :
  set_order set_iter → is_Ok (_get_years_from_rows set_iter rows).
Proof.
  intros Hord.
  destruct (get_years_from_rows_range set_iter rows Hord) as [Hnil Hne].
  destruct (decide (parsable_years rows = [])) as [H|H].
  - rewrite Hnil by done. by eexists.
  - destruct (Hne H) as (mn & mx & -> & _). by eexists.
Qed.

Lemma kept_area_ok (self : Pipeline) (code : string) (rows : list Row) :
  Forall (λ row, is_Ok (row_area_id row)) (filter (keeps self code) rows).
Proof.
  apply Forall_forall. intros row Hrow.
  by apply kept_row_level in Hrow as [_ ?].
Qed.

(** One country.  The pass returns when every kept row has a year that
    parses and no [None]; it raises nothing but [ValueError] and
    [TypeError], and only when some kept row is not so; when it returns,
    every kept row has a year that parses. *)
Lemma country_data_outcome (set_iter : list Z → list Z) (self : Pipeline)
    (inp : Inputs) (country : Country) :
  set_order set_iter →
  let good row := year_parses row ∧ full_record row in
  (Forall good (kept_rows self inp country) →
   is_Ok (country_data set_iter self inp country))
  ∧ (∀ e, country_data set_iter self inp country = Raise e →
       (e = ValueError ∨ e = TypeError)
       ∧ ¬ Forall good (kept_rows self inp country))
  ∧ (is_Ok (country_data set_iter self inp country) →
     Forall year_parses (kept_rows self inp country)).
Proof.
  intros Hord good. unfold kept_rows. rewrite !filter_app, !Forall_app.
  set (code := c_iso3 country). set (name := c_name country).
  set (g := filter (keeps self code) (gii_data inp)).
  set (d := filter (keeps self code) (dimension_data inp)).
  set (i := filter (keeps self code) (indicator_data inp)).
  set (s := filter (keeps self code) (sex_disagg_data inp)).
  pose proof (proj2 (gii_national_outcome self g code)
                (kept_area_ok _ _ _)) as A1.
  pose proof (proj2 (gii_subnational_outcome self g code name)
                (kept_area_ok _ _ _)) as A2.
  pose proof (proj2 (dimension_national_outcome self d code)
                (kept_area_ok _ _ _)) as A3.
  pose proof (proj2 (dimension_subnational_outcome self d code name)
                (kept_area_ok _ _ _)) as A4.
  pose proof (proj2 (indicator_national_outcome self i code name)
                (kept_area_ok _ _ _)) as A5.
  pose proof (proj2 (indicator_subnational_outcome self i code name)
                (kept_area_ok _ _ _)) as A6.
  pose proof (proj2 (sex_disaggregated_outcome self s code name)
                (kept_area_ok _ _ _)) as A7.
  cbv zeta in A1, A2, A3, A4, A5, A6, A7.
  assert (∀ e, country_data set_iter self inp country = Raise e →
            (e = ValueError ∨ e = TypeError)
            ∧ ¬ (Forall good g ∧ Forall good d ∧ Forall good i
                 ∧ Forall good s)) as Hraise.
  { intros e. unfold country_data, _filter_csv_by_country.
    rewrite !filter_loop_spec. cbn [mbind result_bind].
    fold code name g d i s.
    destruct (_transform_gii_national _ _ _) as [t1|e1] eqn:H1;
      cbn [mbind result_bind].
    2: { intros [= ->].
         destruct (all_or_error_Raise _ _ _ _ A1 eq_refl) as [He Hn].
         split; [done|]. intros (Fg & _). apply Hn.
         by apply Forall_at_level. }
    destruct (_transform_gii_subnational _ _ _ _) as [t2|e2] eqn:H2;
      cbn [mbind result_bind].
    2: { intros [= ->].
         destruct (all_or_error_Raise _ _ _ _ A2 eq_refl) as [He Hn].
         split; [done|]. intros (Fg & _). apply Hn.
         by apply Forall_at_level. }
    destruct (_transform_dimension_national _ _ _) as [t3|e3] eqn:H3;
      cbn [mbind result_bind].
    2: { intros [= ->].
         destruct (all_or_error_Raise _ _ _ _ A3 eq_refl) as [He Hn].
         split; [done|]. intros (_ & Fd & _). apply Hn.
         by apply Forall_at_level. }
    destruct (_transform_dimension_subnational _ _ _ _) as [t4|e4] eqn:H4;
      cbn [mbind result_bind].
    2: { intros [= ->].
         destruct (all_or_error_Raise _ _ _ _ A4 eq_refl) as [He Hn].
         split; [done|]. intros (_ & Fd & _). apply Hn.
         by apply Forall_at_level. }
    destruct (_transform_indicator_national _ _ _ _) as [t5|e5] eqn:H5;
      cbn [mbind result_bind].
    2: { intros [= ->].
         destruct (all_or_error_Raise _ _ _ _ A5 eq_refl) as [He Hn].
         split; [done|]. intros (_ & _ & Fi & _). apply Hn.
         by apply Forall_at_level. }
    destruct (_transform_indicator_subnational _ _ _ _) as [t6|e6] eqn:H6;
      cbn [mbind result_bind].
    2: { intros [= ->].
         destruct (all_or_error_Raise _ _ _ _ A6 eq_refl) as [He Hn].
         split; [done|]. intros (_ & _ & Fi & _). apply Hn.
         by apply Forall_at_level. }
    destruct (_transform_sex_disaggregated _ _ _ _) as [t7|e7] eqn:H7;
      cbn [mbind result_bind].
    2: { intros [= ->].
         destruct (all_or_error_Raise _ _ _ _ A7 eq_refl) as [He Hn].
         split; [done|]. by intros (_ & _ & _ & Fs). }
    cbv zeta.
    destruct (get_years_from_rows_succeeds set_iter
                (concat ([("gii-national", t1); ("gii-subnational", t2);
                          ("dimension-national", t3);
                          ("dimension-subnational", t4);
                          ("indicator-national", t5);
                          ("indicator-subnational", t6);
                          ("sex-disaggregated", t7)].*2)) Hord)
      as [[mn mx] Hy].
    rewrite Hy. done. }
  split_and!.
  - intros Hgood.
    destruct (country_data set_iter self inp country) as [r|e] eqn:Hr;
      [by eexists|].
    by destruct (Hraise e eq_refl) as [_ []].
  - intros e He. rewrite !Forall_app. by apply Hraise.
  - intros [r Hr]. apply country_data_Ok in Hr
      as (t1 & t2 & t3 & t4 & t5 & t6 & t7 & mn & mx
          & H1 & H2 & H3 & H4 & H5 & H6 & H7 & _ & _).
    fold code name g d i s in H1, H2, H3, H4, H5, H6, H7.
    rewrite !Forall_app. split_and!.
    + apply Forall_levels;
        [ exact (all_or_error_Ok _ _ _ A1 (ex_intro _ _ H1))
        | exact (all_or_error_Ok _ _ _ A2 (ex_intro _ _ H2)) ].
    + apply Forall_levels;
        [ exact (all_or_error_Ok _ _ _ A3 (ex_intro _ _ H3))
        | exact (all_or_error_Ok _ _ _ A4 (ex_intro _ _ H4)) ].
    + apply Forall_levels;
        [ exact (all_or_error_Ok _ _ _ A5 (ex_intro _ _ H5))
        | exact (all_or_error_Ok _ _ _ A6 (ex_intro _ _ H6)) ].
    + exact (all_or_error_Ok _ _ _ A7 (ex_intro _ _ H7)).
Qed.

Lemma for_countries_Raise (set_iter : list Z → list Z) (self : Pipeline)
    (inp : Inputs) (countries : list Country) (e : exn) :
  for_countries set_iter self inp countries = Raise e →
  ∃ c, c ∈ countries ∧ country_data set_iter self inp c = Raise e.
Proof.
  induction countries as [|c cs IH]; cbn [for_countries]; [done|].
  destruct (country_data _ _ _ c) as [r|e'] eqn:Hc; cbn [mbind result_bind].
  - destruct (for_countries _ _ _ cs) as [rs|e']; cbn [mbind result_bind];
      [done|].
    intros [= ->]. destruct (IH eq_refl) as (c' & Hin & Hc').
    exists c'. split; [by right|done].
  - intros [= ->]. exists c. split; [by left|done].
Qed.

(** X11.  The aggregator returns when, for every loaded country, every
    source row kept for it has a year that parses and no [None] cell.  One
    kept row with a missing or non-integer year, in any of the four source
    tables and for any country, makes the whole call raise, [ValueError]
    or [TypeError]: no result is returned for any country.  The call
    raises nothing else, and only when some kept row has such a year or a
    [None] cell. *)
Theorem get_country_data_outcome (set_iter : list Z → list Z) (self : Pipeline)
    (inp : Inputs) :
  set_order set_iter →
  let good row := year_parses row ∧ full_record row in
  (Forall (λ c, Forall good (kept_rows self inp c)) (_countries self) →
   is_Ok (get_country_data set_iter self inp))
  ∧ (Exists (λ c, Exists (λ row, ¬ year_parses row) (kept_rows self inp c))
       (_countries self) →
     get_country_data set_iter self inp = Raise ValueError
     ∨ get_country_data set_iter self inp = Raise TypeError)
  ∧ (∀ e, get_country_data set_iter self inp = Raise e →
       (e = ValueError ∨ e = TypeError)
       ∧ Exists (λ c, Exists (λ row, ¬ good row) (kept_rows self inp c))
           (_countries self)).
Proof.
  intros Hord good.
  assert (∀ e, get_country_data set_iter self inp = Raise e →
            (e = ValueError ∨ e = TypeError)
            ∧ Exists (λ c, Exists (λ row, ¬ good row) (kept_rows self inp c))
                (_countries self)) as Hraise.
  { intros e (c & Hc & Hr)%for_countries_Raise.
    destruct (country_data_outcome set_iter self inp c Hord)
      as (_ & Hbad & _).
    destruct (Hbad e Hr) as [He Hn]. split; [done|].
    apply Exists_exists. exists c. split; [done|].
    apply not_Forall_Exists; [apply _|done]. }
  split_and!; [| |exact Hraise].
  - intros Hgood.
    destruct (get_country_data set_iter self inp) as [rs|e] eqn:Hr;
      [by eexists|].
    destruct (Hraise e eq_refl) as [_ Hex]. exfalso.
    apply Exists_exists in Hex as (c & Hc & Hex).
    apply Exists_exists in Hex as (row & Hrow & Hbad).
    rewrite Forall_forall in Hgood. specialize (Hgood c Hc).
    rewrite Forall_forall in Hgood. by apply Hbad, Hgood.
  - intros Hex.
    destruct (get_country_data set_iter self inp) as [rs|e] eqn:Hr.
    + exfalso. apply Exists_exists in Hex as (c & Hc & Hex).
      apply Exists_exists in Hex as (row & Hrow & Hbad).
      apply for_countries_Ok in Hr.
      apply list_elem_of_lookup in Hc as [k Hk].
      destruct (Forall2_lookup_l _ _ _ _ _ Hr Hk) as (r & _ & Hcr).
      destruct (country_data_outcome set_iter self inp c Hord)
        as (_ & _ & Hyears).
      specialize (Hyears (ex_intro _ r Hcr)).
      rewrite Forall_forall in Hyears. by apply Hbad, Hyears.
    + destruct (Hraise e eq_refl) as [[-> | ->] _]; auto.
Qed.

(** The example data returns.  With two rows of year ["abc"] added to one
    source the call raises [ValueError]; with the record of a short line
    added it raises [TypeError]. *)
Lemma get_country_data_outcome_witness :
  is_Ok (get_country_data remove_dups ex_self ex_inputs)
  ∧ (get_country_data remove_dups ex_self ex_inputs_bad_year
       = Raise ValueError
     ∨ get_country_data remove_dups ex_self ex_inputs_bad_year
       = Raise TypeError)
  ∧ get_country_data remove_dups ex_self ex_inputs_bad_year = Raise ValueError
  ∧ get_country_data remove_dups ex_self ex_inputs_short = Raise TypeError
  ∧ Exists (λ c, Exists (λ row, ¬ (year_parses row ∧ full_record row))
                   (kept_rows ex_self ex_inputs_short c))
      (_countries ex_self).
Proof.
  destruct (get_country_data_outcome remove_dups ex_self ex_inputs
              remove_dups_set_order) as (Hok & _ & _).
  destruct (get_country_data_outcome remove_dups ex_self ex_inputs_bad_year
              remove_dups_set_order) as (_ & Hbad & _).
  destruct (get_country_data_outcome remove_dups ex_self ex_inputs_short
              remove_dups_set_order) as (_ & _ & Hshort).
  assert (get_country_data remove_dups ex_self ex_inputs_short
          = Raise TypeError) as Htype by by_vm.
  split_and!.
  - apply Hok. by_vm.
  - apply Hbad. by_vm.
  - by_vm.
  - exact Htype.
  - by apply (Hshort TypeError).
Defined.

(** ** Geometries *)

Lemma filter_geojson_by_country_members (geojson : list Feature)
    (country_code : string) (f : Feature) :
  f ∈ fc_features (_filter_geojson_by_country geojson country_code) ↔
  f ∈ geojson ∧ f_properties f !! "iso" = Some (JStr country_code).
Proof.
  unfold _filter_geojson_by_country. cbn [fc_features].
  rewrite list_elem_of_filter. tauto.
Qed.

(** X12.  The geometry partitioner keeps, in their order, exactly the
    features whose [iso] property is the string [country_code]; a feature
    without that property belongs to no country.  Filtering a country's
    collection again by the same code returns it unchanged, and by another
    code returns no feature. *)
Theorem filter_geojson_by_country_spec (geojson : list Feature)
    (country_code : string) :
  let fc := _filter_geojson_by_country geojson country_code in
  fc_features fc `sublist_of` geojson
  ∧ (∀ f, f ∈ fc_features fc ↔
          f ∈ geojson ∧ f_properties f !! "iso" = Some (JStr country_code))
  ∧ _filter_geojson_by_country (fc_features fc) country_code = fc
  ∧ ∀ other, other ≠ country_code →
      fc_features (_filter_geojson_by_country (fc_features fc) other) = [].
Proof.
  unfold _filter_geojson_by_country. cbn [fc_features]. split_and!.
  - apply sublist_filter.
  - intros f. rewrite list_elem_of_filter. tauto.
  - f_equal. induction geojson as [|f l IH]; [done|].
    rewrite filter_cons. case_decide as Hf; [|done].
    rewrite filter_cons, decide_True by done. by rewrite IH.
  - intros other Hother. induction geojson as [|f l IH]; [done|].
    rewrite filter_cons. case_decide as Hf; [|done].
    rewrite filter_cons, decide_False; [done|]. rewrite Hf. congruence.
Qed.

(** X13.  In every result of the aggregator, the country-boundary and
    province-boundaries collections hold exactly the features of the
    respective input collection whose [iso] is the result's code: no
    feature of another country, and none of this country missing. *)
Theorem result_geometries (set_iter : list Z → list Z) (self : Pipeline)
    (inp : Inputs) (results : list CountryResult) :
  get_country_data set_iter self inp = Ok results →
  Forall (λ r,
    (∀ f, f ∈ geometry r "country-boundary" ↔
          f ∈ country_geojson inp
          ∧ f_properties f !! "iso" = Some (JStr (r_iso3 r)))
    ∧ (∀ f, f ∈ geometry r "province-boundaries" ↔
            f ∈ province_geojson inp
            ∧ f_properties f !! "iso" = Some (JStr (r_iso3 r)))) results.
Proof.
  intros Hres%for_countries_Ok.
  induction Hres as [|country r countries results Hr _ IH]; constructor;
    [|exact IH].
  apply country_data_Ok in Hr
    as (t1 & t2 & t3 & t4 & t5 & t6 & t7 & mn & mx & _ & _ & _ & _ & _ & _ & _
        & _ & ->).
  split; intros f.
  - change (geometry _ "country-boundary")
      with (fc_features (_filter_geojson_by_country (country_geojson inp)
                           (c_iso3 country))).
    apply (filter_geojson_by_country_members (country_geojson inp)).
  - change (geometry _ "province-boundaries")
      with (fc_features (_filter_geojson_by_country (province_geojson inp)
                           (c_iso3 country))).
    apply (filter_geojson_by_country_members (province_geojson inp)).
Qed.

(** The example data: Cambodia has one boundary and two provinces. *)
Lemma result_geometries_witness :
  ∃ results,
    get_country_data remove_dups ex_self ex_inputs = Ok results
    ∧ (λ r, (r_iso3 r, length (geometry r "country-boundary"),
             length (geometry r "province-boundaries"))) <$> results
      = [("KHM", 1%nat, 2%nat); ("VNM", 1%nat, 1%nat)]
    ∧ Forall (λ r,
        (∀ f, f ∈ geometry r "country-boundary" ↔
              f ∈ country_geojson ex_inputs
              ∧ f_properties f !! "iso" = Some (JStr (r_iso3 r)))
        ∧ (∀ f, f ∈ geometry r "province-boundaries" ↔
                f ∈ province_geojson ex_inputs
                ∧ f_properties f !! "iso" = Some (JStr (r_iso3 r)))) results.
Proof.
  destruct (is_Ok_eval (get_country_data remove_dups ex_self ex_inputs))
    as [results Hres]; [by_vm|].
  exists results. split; [exact Hres|]. split.
  - assert (fmap (M:=list)
              (λ r, (r_iso3 r, length (geometry r "country-boundary"),
                     length (geometry r "province-boundaries")))
              <$> get_country_data remove_dups ex_self ex_inputs
            = Ok [("KHM", 1%nat, 2%nat); ("VNM", 1%nat, 1%nat)]) as Hl
      by by_vm.
    rewrite Hres in Hl. simpl in Hl. congruence.
  - exact (result_geometries remove_dups ex_self ex_inputs results Hres).
Defined.

(** ** The dataset sink *)

Section sink_facts.
Context (temp_dir : string) (tags : list string)
  (known_location : string → bool).

Lemma resource_names_call (dataset : Dataset) (c : Call) :
  resource_names (call dataset c)
  = List.app (resource_names dataset)
      match c with
      | generate_resource _ filename _ _ _ _ => [filename]
      | add_update_resource name _ _ _ _ => [name]
      | _ => []
      end.
Proof.
  unfold resource_names, call. cbn [ds_calls]. rewrite omap_app.
  by destruct c.
Qed.

Lemma csv_loop_names (iso_lower country_name : string)
    (csv : list (string * list Row)) (dataset : Dataset) :
  resource_names
    (foldl (λ dataset '(suffix, rows),
              _add_csv_resource temp_dir dataset rows
                (iso_lower ++ "-gem-" ++ suffix ++ ".csv")
                (default "" (csv_descriptions country_name !! suffix)))
       dataset csv)
  = List.app (resource_names dataset)
      (omap (λ '(suffix, rows),
               match rows : list Row with
               | [] => None
               | _ :: _ => Some (iso_lower ++ "-gem-" ++ suffix ++ ".csv")
               end) csv).
Proof.
  revert dataset. induction csv as [|[suffix rows] csv IH]; intros dataset.
  - by rewrite app_nil_r.
  - cbn [foldl]. rewrite IH. cbn [omap list_omap].
    destruct rows as [|row0 rows]; [done|].
    unfold _add_csv_resource. rewrite resource_names_call.
    by rewrite <- app_assoc.
Qed.

Lemma geojson_loop_names (iso_lower country_name : string)
    (geo : list (string * FeatureCollection)) (dataset : Dataset) :
  resource_names
    (foldl (λ dataset '(suffix, geojson),
              _add_geojson_resource temp_dir dataset geojson
                (iso_lower ++ "-gem-" ++ suffix ++ ".geojson")
                (default "" (geojson_descriptions country_name !! suffix)))
       dataset geo)
  = List.app (resource_names dataset)
      (omap (λ '(suffix, geojson),
               match fc_features geojson with
               | [] => None
               | _ :: _ => Some (iso_lower ++ "-gem-" ++ suffix ++ ".geojson")
               end) geo).
Proof.
  revert dataset. induction geo as [|[suffix fc] geo IH]; intros dataset.
  - by rewrite app_nil_r.
  - cbn [foldl]. rewrite IH. cbn [omap list_omap].
    unfold _add_geojson_resource.
    destruct (fc_features fc) as [|f fs]; [done|].
    rewrite resource_names_call. by rewrite <- app_assoc.
Qed.

Lemma csv_loop_meta (iso_lower country_name : string)
    (csv : list (string * list Row)) (dataset : Dataset) :
  let dataset' :=
    foldl (λ dataset '(suffix, rows),
             _add_csv_resource temp_dir dataset rows
               (iso_lower ++ "-gem-" ++ suffix ++ ".csv")
               (default "" (csv_descriptions country_name !! suffix)))
      dataset csv in
  ds_name dataset' = ds_name dataset ∧ ds_title dataset' = ds_title dataset.
Proof.
  revert dataset. induction csv as [|[suffix rows] csv IH]; intros dataset;
    [done|].
  cbn [foldl]. cbv zeta in IH. rewrite !(proj1 (IH _)), !(proj2 (IH _)).
  by destruct rows.
Qed.

Lemma geojson_loop_meta (iso_lower country_name : string)
    (geo : list (string * FeatureCollection)) (dataset : Dataset) :
  let dataset' :=
    foldl (λ dataset '(suffix, geojson),
             _add_geojson_resource temp_dir dataset geojson
               (iso_lower ++ "-gem-" ++ suffix ++ ".geojson")
               (default "" (geojson_descriptions country_name !! suffix)))
      dataset geo in
  ds_name dataset' = ds_name dataset ∧ ds_title dataset' = ds_title dataset.
Proof.
  revert dataset. induction geo as [|[suffix fc] geo IH]; intros dataset;
    [done|].
  cbn [foldl]. cbv zeta in IH. rewrite !(proj1 (IH _)), !(proj2 (IH _)).
  unfold _add_geojson_resource. by destruct (fc_features fc).
Qed.

(** The shape of the dataset built for a result. *)
Lemma generate_dataset_shape (r : CountryResult) :
  match generate_dataset temp_dir tags known_location r with
  | None => known_location (r_iso3 r) = false
  | Some dataset =>
      known_location (r_iso3 r) = true
      ∧ ds_name dataset = lower (r_iso3 r) ++ "-adpc-gem"
      ∧ ds_title dataset = r_name r ++ " - Gender Equality Monitor"
      ∧ resource_names dataset = expected_resource_names r
  end.
Proof.
  unfold generate_dataset. destruct (known_location (r_iso3 r)); [|done].
  split; [done|]. split_and!.
  - by rewrite (proj1 (geojson_loop_meta _ _ _ _)),
      (proj1 (csv_loop_meta _ _ _ _)).
  - by rewrite (proj2 (geojson_loop_meta _ _ _ _)),
      (proj2 (csv_loop_meta _ _ _ _)).
  - rewrite geojson_loop_names, csv_loop_names. done.
Qed.

End sink_facts.

(** X14.  [generate_dataset] returns no dataset exactly when the country's
    location is unknown to the catalogue.  Otherwise the dataset is named
    after the lower-cased code and receives one CSV resource per non-empty
    table, in table order, then one GeoJSON resource per non-empty feature
    collection; an empty table or collection gives no resource. *)
Theorem generate_dataset_resources (temp_dir : string) (tags : list string)
    (known_location : string → bool) (r : CountryResult) :
  match generate_dataset temp_dir tags known_location r with
  | None => known_location (r_iso3 r) = false
  | Some dataset =>
      known_location (r_iso3 r) = true
      ∧ ds_name dataset = lower (r_iso3 r) ++ "-adpc-gem"
      ∧ ds_title dataset = r_name r ++ " - Gender Equality Monitor"
      ∧ resource_names dataset = expected_resource_names r
  end.
Proof. apply generate_dataset_shape. Qed.

Section sink_on_results.
Context (temp_dir : string) (tags : list string)
  (known_location : string → bool).
Context (set_iter : list Z → list Z) (self : Pipeline) (inp : Inputs)
  (country : Country) (r : CountryResult) (dataset : Dataset).
Hypothesis Hr : country_data set_iter self inp country = Ok r.
Hypothesis Hds : generate_dataset temp_dir tags known_location r = Some dataset.

Lemma dataset_names : resource_names dataset = expected_resource_names r.
Proof using Hds.
  pose proof (generate_dataset_shape temp_dir tags known_location r) as Hshape.
  rewrite Hds in Hshape. by destruct Hshape as (_ & _ & _ & ?).
Qed.

(** A CSV name is among the resources exactly when its table is not
    empty. *)
Lemma csv_name_present (suffix : string) (t : list Row) :
  (suffix, t) ∈ r_csv_data r →
  lower (r_iso3 r) ++ "-gem-" ++ suffix ++ ".csv" ∈ resource_names dataset
  ↔ t ≠ [].
Proof using Hr Hds.
  intros Ht. rewrite dataset_names. unfold expected_resource_names.
  rewrite elem_of_app. unfold expected_csv_names, expected_geojson_names.
  rewrite !list_elem_of_omap. split.
  - intros [([s t'] & Hin & Heq)|([s fc] & Hin & Heq)].
    + destruct t' as [|row0 t']; [done|]. injection Heq as Heq.
      apply (inj (String.app _)) in Heq. apply (inj (String.app _)) in Heq.
      clear Hds. apply country_data_Ok in Hr
        as (t1 & t2 & t3 & t4 & t5 & t6 & t7 & mn & mx & _ & _ & _ & _ & _ & _
            & _ & _ & ->).
      cbn [r_csv_data] in Ht, Hin.
      rewrite !elem_of_cons, elem_of_nil in Ht, Hin.
      destruct Hin as [Hin|[Hin|[Hin|[Hin|[Hin|[Hin|[Hin|[]]]]]]]];
        injection Hin as -> <-;
        destruct Ht as [Ht|[Ht|[Ht|[Ht|[Ht|[Ht|[Ht|[]]]]]]]];
        injection Ht as -> ->; first [done | by vm_compute in Heq].
    + destruct (fc_features fc); [done|]. injection Heq as Heq.
      apply (inj (String.app _)) in Heq. apply (inj (String.app _)) in Heq.
      clear Hds. apply country_data_Ok in Hr
        as (t1 & t2 & t3 & t4 & t5 & t6 & t7 & mn & mx & _ & _ & _ & _ & _ & _
            & _ & _ & ->).
      cbn [r_csv_data r_geojson_data] in Ht, Hin.
      rewrite !elem_of_cons, elem_of_nil in Ht.
      rewrite !elem_of_cons, elem_of_nil in Hin.
      destruct Hin as [Hin|[Hin|[]]]; injection Hin as -> _;
        destruct Ht as [Ht|[Ht|[Ht|[Ht|[Ht|[Ht|[Ht|[]]]]]]]];
        injection Ht as -> ->; by vm_compute in Heq.
  - intros Hne. left. exists (suffix, t). split; [done|].
    by destruct t.
Qed.
End sink_on_results.

Lemma omap_sublist_fmap {A B} (f : A → option B) (g : A → B) (l : list A) :
  (∀ x y, f x = Some y → y = g x) → omap f l `sublist_of` g <$> l.
Proof.
  intros Hf. induction l as [|x l IH]; [done|].
  cbn [omap list_omap]. rewrite fmap_cons.
  destruct (f x) as [y|] eqn:Hx.
  - rewrite (Hf _ _ Hx). by apply sublist_skip.
  - by apply sublist_cons.
Qed.

Lemma csv_loop_calls (temp_dir iso_lower country_name : string)
    (csv : list (string * list Row)) (dataset : Dataset) (c : Call) :
  c ∈ ds_calls
        (foldl (λ dataset '(suffix, rows),
                  _add_csv_resource temp_dir dataset rows
                    (iso_lower ++ "-gem-" ++ suffix ++ ".csv")
                    (default "" (csv_descriptions country_name !! suffix)))
           dataset csv) →
  c ∈ ds_calls dataset
  ∨ ∃ suffix row0 rest,
      (suffix, row0 :: rest) ∈ csv
      ∧ c = generate_resource temp_dir
              (iso_lower ++ "-gem-" ++ suffix ++ ".csv") (row0 :: rest)
              (dom row0) (iso_lower ++ "-gem-" ++ suffix ++ ".csv")
              (default "" (csv_descriptions country_name !! suffix)).
Proof.
  revert dataset. induction csv as [|[suffix rows] csv IH]; intros dataset;
    [by left|].
  cbn [foldl]. intros [Hc|(s & row0 & rest & Hin & ->)]%IH.
  - destruct rows as [|row0 rest]; [by left|].
    unfold _add_csv_resource, call in Hc. cbn [ds_calls] in Hc.
    apply elem_of_app in Hc as [Hc|Hc%list_elem_of_singleton]; [by left|].
    right. exists suffix, row0, rest. split; [by left|done].
  - right. exists s, row0, rest. split; [by right|done].
Qed.

Lemma geojson_loop_calls (temp_dir iso_lower country_name : string)
    (geo : list (string * FeatureCollection)) (dataset : Dataset) (c : Call) :
  c ∈ ds_calls
        (foldl (λ dataset '(suffix, geojson),
                  _add_geojson_resource temp_dir dataset geojson
                    (iso_lower ++ "-gem-" ++ suffix ++ ".geojson")
                    (default "" (geojson_descriptions country_name !! suffix)))
           dataset geo) →
  c ∈ ds_calls dataset
  ∨ ∃ name description format path geojson,
      c = add_update_resource name description format path geojson.
Proof.
  revert dataset. induction geo as [|[suffix fc] geo IH]; intros dataset;
    [by left|].
  cbn [foldl]. intros [Hc|Hc]%IH; [|by right].
  unfold _add_geojson_resource in Hc.
  destruct (fc_features fc); [by left|].
  unfold call in Hc. cbn [ds_calls] in Hc.
  apply elem_of_app in Hc as [Hc|Hc%list_elem_of_singleton]; [by left|].
  right. by eexists _, _, _, _, _.
Qed.

(** The rows of one table of a result share their keys. *)
Lemma country_data_homogeneous (set_iter : list Z → list Z) (self : Pipeline)
    (inp : Inputs) (country : Country) (r : CountryResult)
    (name : string) (t : list Row) :
  country_data set_iter self inp country = Ok r →
  (name, t) ∈ r_csv_data r →
  ∃ keys : gset string, Forall (λ row, dom row = keys) t.
Proof.
  intros Hr Ht. apply country_data_Ok in Hr
    as (t1 & t2 & t3 & t4 & t5 & t6 & t7 & mn & mx
        & H1 & H2 & H3 & H4 & H5 & H6 & H7 & _ & ->).
  cbn [r_csv_data] in Ht. rewrite !elem_of_cons, elem_of_nil in Ht.
  destruct Ht as [Ht|[Ht|[Ht|[Ht|[Ht|[Ht|[Ht|[]]]]]]]]; injection Ht as -> ->.
  - exists gii_national_keys.
    eapply transformed_schema;
      [|by eapply gii_national_records]; done.
  - exists gii_subnational_keys.
    eapply transformed_schema;
      [|by eapply gii_subnational_records]; done.
  - exists dimension_national_keys.
    eapply transformed_schema;
      [|by eapply dimension_national_records]; done.
  - exists dimension_subnational_keys.
    eapply transformed_schema;
      [|by eapply dimension_subnational_records]; done.
  - exists indicator_national_keys.
    eapply transformed_schema;
      [|by eapply indicator_national_records]; done.
  - exists indicator_subnational_keys.
    eapply transformed_schema;
      [|by eapply indicator_subnational_records]; done.
  - exists sex_disaggregated_keys.
    eapply transformed_schema;
      [|by eapply sex_disaggregated_records]; done.
Qed.

(** X15.  Every CSV resource built from a result of the aggregator holds a
    non-empty table of that result, is named
    [<iso3 in lower case>-gem-<table>.csv], and its headers, taken from
    the first row, are the keys of every row of the table. *)
Theorem csv_resource_headers_fit (temp_dir : string) (tags : list string)
    (known_location : string → bool) (set_iter : list Z → list Z)
    (self : Pipeline) (inp : Inputs) (country : Country) (r : CountryResult)
    (dataset : Dataset) :
  country_data set_iter self inp country = Ok r →
  generate_dataset temp_dir tags known_location r = Some dataset →
  ∀ folder filename rows headers name description,
    generate_resource folder filename rows headers name description
      ∈ ds_calls dataset →
    rows ≠ []
    ∧ Forall (λ row, dom row = headers) rows
    ∧ ∃ suffix, (suffix, rows) ∈ r_csv_data r
        ∧ filename = lower (c_iso3 country) ++ "-gem-" ++ suffix ++ ".csv"
        ∧ name = filename.
Proof.
  intros Hr Hds folder filename rows headers name description Hc.
  assert (r_iso3 r = c_iso3 country) as Hiso.
  { apply country_data_Ok in Hr
      as (? & ? & ? & ? & ? & ? & ? & ? & ? & _ & _ & _ & _ & _ & _ & _ & _
          & ->). done. }
  unfold generate_dataset in Hds.
  destruct (known_location (r_iso3 r)); [|done]. injection Hds as <-.
  apply geojson_loop_calls in Hc as [Hc|(? & ? & ? & ? & ? & [=])].
  apply csv_loop_calls in Hc as [Hc|(suffix & row0 & rest & Hin & Heq)].
  - unfold call in Hc. cbn [ds_calls app] in Hc.
    rewrite !elem_of_cons, elem_of_nil in Hc. naive_solver.
  - injection Heq as -> -> -> -> -> ->. split; [done|].
    destruct (country_data_homogeneous _ _ _ _ _ _ _ Hr Hin) as [keys Hkeys].
    split.
    + pose proof Hkeys as [Hrow0 _]%Forall_cons. simpl in Hrow0.
      by rewrite Hrow0.
    + exists suffix. by rewrite Hiso.
Qed.

(** Cambodia on the example data: seven CSV resources, each with fitting
    headers. *)
Lemma csv_resource_headers_fit_witness :
  ∃ r dataset,
    country_data remove_dups ex_self ex_inputs (mkCountry "KHM" "Cambodia" 1)
      = Ok r
    ∧ generate_dataset "/tmp" ["gender"] ex_known_location r = Some dataset
    ∧ resource_names dataset
      = ["khm-gem-gii-national.csv"; "khm-gem-gii-subnational.csv";
         "khm-gem-dimension-national.csv"; "khm-gem-dimension-subnational.csv";
         "khm-gem-indicator-national.csv"; "khm-gem-indicator-subnational.csv";
         "khm-gem-sex-disaggregated.csv"; "khm-gem-country-boundary.geojson";
         "khm-gem-province-boundaries.geojson"]
    ∧ ∀ folder filename rows headers name description,
        generate_resource folder filename rows headers name description
          ∈ ds_calls dataset →
        rows ≠ [] ∧ Forall (λ row, dom row = headers) rows.
Proof.
  destruct (is_Ok_eval (country_data remove_dups ex_self ex_inputs
                          (mkCountry "KHM" "Cambodia" 1))) as [r Hr]; [by_vm|].
  assert (r_iso3 r = "KHM") as Hiso.
  { assert (r_iso3 <$> country_data remove_dups ex_self ex_inputs
                         (mkCountry "KHM" "Cambodia" 1) = Ok "KHM") as Hi
      by by_vm.
    rewrite Hr in Hi. simpl in Hi. congruence. }
  destruct (generate_dataset "/tmp" ["gender"] ex_known_location r)
    as [dataset|] eqn:Hds.
  - exists r, dataset. split; [exact Hr|]. split; [exact Hds|]. split.
    + assert ((λ r, resource_names
                      <$> generate_dataset "/tmp" ["gender"]
                            ex_known_location r)
                <$> country_data remove_dups ex_self ex_inputs
                      (mkCountry "KHM" "Cambodia" 1)
              = Ok (Some
                  ["khm-gem-gii-national.csv"; "khm-gem-gii-subnational.csv";
                   "khm-gem-dimension-national.csv";
                   "khm-gem-dimension-subnational.csv";
                   "khm-gem-indicator-national.csv";
                   "khm-gem-indicator-subnational.csv";
                   "khm-gem-sex-disaggregated.csv";
                   "khm-gem-country-boundary.geojson";
                   "khm-gem-province-boundaries.geojson"])) as Hn by by_vm.
      rewrite Hr in Hn. simpl in Hn. rewrite Hds in Hn. simpl in Hn.
      congruence.
    + intros folder filename rows headers name description Hc.
      destruct (csv_resource_headers_fit "/tmp" ["gender"] ex_known_location
                  remove_dups ex_self ex_inputs (mkCountry "KHM" "Cambodia" 1)
                  r dataset Hr Hds folder filename rows headers name
                  description Hc) as (Hne & Hfit & _).
      by split.
  - exfalso. unfold generate_dataset in Hds. rewrite Hiso in Hds.
    by vm_compute in Hds.
Defined.

(** X16.  A table's CSV resource is in the dataset exactly when a source
    row of the table's level was kept for the country: a country without
    province-level rows for a metric gets no [-subnational.csv] resource
    for it, one without country-level rows no [-national.csv]. *)
Theorem resource_iff_rows_of_level (temp_dir : string) (tags : list string)
    (known_location : string → bool) (set_iter : list Z → list Z)
    (self : Pipeline) (inp : Inputs) (country : Country) (r : CountryResult)
    (dataset : Dataset) :
  country_data set_iter self inp country = Ok r →
  generate_dataset temp_dir tags known_location r = Some dataset →
  let part rows := filter (keeps self (c_iso3 country)) rows in
  let csv suffix := lower (c_iso3 country) ++ "-gem-" ++ suffix ++ ".csv" in
  (csv "gii-national" ∈ resource_names dataset
   ↔ at_level "country" (part (gii_data inp)) ≠ [])
  ∧ (csv "gii-subnational" ∈ resource_names dataset
     ↔ at_level "province" (part (gii_data inp)) ≠ [])
  ∧ (csv "dimension-national" ∈ resource_names dataset
     ↔ at_level "country" (part (dimension_data inp)) ≠ [])
  ∧ (csv "dimension-subnational" ∈ resource_names dataset
     ↔ at_level "province" (part (dimension_data inp)) ≠ [])
  ∧ (csv "indicator-national" ∈ resource_names dataset
     ↔ at_level "country" (part (indicator_data inp)) ≠ [])
  ∧ (csv "indicator-subnational" ∈ resource_names dataset
     ↔ at_level "province" (part (indicator_data inp)) ≠ [])
  ∧ (csv "sex-disaggregated" ∈ resource_names dataset
     ↔ part (sex_disagg_data inp) ≠ []).
Proof.
  intros Hr Hds part csv.
  pose proof (λ suffix t, csv_name_present temp_dir tags known_location
                set_iter self inp country r dataset Hr Hds suffix t) as Hname.
  apply country_data_Ok in Hr
    as (t1 & t2 & t3 & t4 & t5 & t6 & t7 & mn & mx
        & H1 & H2 & H3 & H4 & H5 & H6 & H7 & _ & ->).
  cbn [r_iso3 r_csv_data] in Hname. subst csv. cbv beta.
  assert (∀ (t : list Row) (rec : Row → Row) sources,
            t ≡ₚ rec <$> sources → (t ≠ [] ↔ sources ≠ [])) as Hnil.
  { intros t rec sources Hperm. split; intros Hne Heq; apply Hne.
    - subst sources. by apply Permutation_nil_r in Hperm.
    - subst t. symmetry in Hperm. apply Permutation_nil_r in Hperm.
      by apply fmap_nil_inv in Hperm. }
  apply gii_national_records in H1. apply gii_subnational_records in H2.
  apply dimension_national_records in H3.
  apply dimension_subnational_records in H4.
  apply indicator_national_records in H5.
  apply indicator_subnational_records in H6.
  apply sex_disaggregated_records in H7.
  split_and!.
  - rewrite (Hname _ t1), (Hnil _ _ _ H1); [done|].
    rewrite !elem_of_cons; auto 12.
  - rewrite (Hname _ t2), (Hnil _ _ _ H2); [done|].
    rewrite !elem_of_cons; auto 12.
  - rewrite (Hname _ t3), (Hnil _ _ _ H3); [done|].
    rewrite !elem_of_cons; auto 12.
  - rewrite (Hname _ t4), (Hnil _ _ _ H4); [done|].
    rewrite !elem_of_cons; auto 12.
  - rewrite (Hname _ t5), (Hnil _ _ _ H5); [done|].
    rewrite !elem_of_cons; auto 12.
  - rewrite (Hname _ t6), (Hnil _ _ _ H6); [done|].
    rewrite !elem_of_cons; auto 12.
  - rewrite (Hname _ t7), (Hnil _ _ _ H7); [done|].
    rewrite !elem_of_cons; auto 12.
Qed.

(** Cambodia with only a sex-disaggregated row that is not kept: no
    index-subnational resource. *)
Lemma resource_iff_rows_of_level_witness :
  ∃ r dataset,
    country_data remove_dups ex_self ex_sex_only_inputs
      (mkCountry "KHM" "Cambodia" 1) = Ok r
    ∧ generate_dataset "/tmp" ["gender"] ex_known_location r = Some dataset
    ∧ "khm-gem-gii-subnational.csv" ∉ resource_names dataset.
Proof.
  destruct (is_Ok_eval (country_data remove_dups ex_self ex_sex_only_inputs
                          (mkCountry "KHM" "Cambodia" 1))) as [r Hr]; [by_vm|].
  assert (r_iso3 r = "KHM") as Hiso.
  { assert (r_iso3 <$> country_data remove_dups ex_self ex_sex_only_inputs
                         (mkCountry "KHM" "Cambodia" 1) = Ok "KHM") as Hi
      by by_vm.
    rewrite Hr in Hi. simpl in Hi. congruence. }
  destruct (generate_dataset "/tmp" ["gender"] ex_known_location r)
    as [dataset|] eqn:Hds.
  - exists r, dataset. split; [exact Hr|]. split; [exact Hds|].
    destruct (resource_iff_rows_of_level "/tmp" ["gender"] ex_known_location
                remove_dups ex_self ex_sex_only_inputs
                (mkCountry "KHM" "Cambodia" 1) r dataset Hr Hds)
      as (_ & Hsub & _).
    intros Hin. apply Hsub in Hin. by apply Hin.
  - exfalso. unfold generate_dataset in Hds. rewrite Hiso in Hds.
    by vm_compute in Hds.
Defined.

(** X17.  The resources of a dataset built from a result of the aggregator
    have pairwise distinct names, and there are at most nine of them. *)
Theorem resource_names_distinct (temp_dir : string) (tags : list string)
    (known_location : string → bool) (set_iter : list Z → list Z)
    (self : Pipeline) (inp : Inputs) (country : Country) (r : CountryResult)
    (dataset : Dataset) :
  country_data set_iter self inp country = Ok r →
  generate_dataset temp_dir tags known_location r = Some dataset →
  NoDup (resource_names dataset) ∧ (length (resource_names dataset) ≤ 9)%nat.
Proof.
  intros Hr Hds.
  rewrite (dataset_names temp_dir tags known_location r dataset Hds).
  apply country_data_Ok in Hr
    as (t1 & t2 & t3 & t4 & t5 & t6 & t7 & mn & mx & _ & _ & _ & _ & _ & _ & _
        & _ & ->).
  set (r := {| r_iso3 := c_iso3 country |}).
  set (pre := String.app (lower (c_iso3 country))).
  set (csvs := ["-gem-gii-national.csv"; "-gem-gii-subnational.csv";
                "-gem-dimension-national.csv";
                "-gem-dimension-subnational.csv";
                "-gem-indicator-national.csv";
                "-gem-indicator-subnational.csv";
                "-gem-sex-disaggregated.csv"]).
  set (geos := ["-gem-country-boundary.geojson";
                "-gem-province-boundaries.geojson"]).
  assert (expected_resource_names r `sublist_of` pre <$> (csvs ++ geos)%list)
    as Hsub.
  { unfold expected_resource_names. rewrite fmap_app. apply sublist_app.
    - apply (omap_sublist_fmap _
               (λ '(suffix, _),
                  lower (c_iso3 country) ++ "-gem-" ++ suffix ++ ".csv")
               (r_csv_data r)).
      intros [s t] y. destruct t; [done|]. by intros [= <-].
    - apply (omap_sublist_fmap _
               (λ '(suffix, _),
                  lower (c_iso3 country) ++ "-gem-" ++ suffix ++ ".geojson")
               (r_geojson_data r)).
      intros [s fc] y. destruct (fc_features fc); [done|]. by intros [= <-]. }
  split.
  - eapply sublist_NoDup; [|exact Hsub].
    apply (NoDup_fmap_2 pre). by_vm.
  - apply sublist_length in Hsub. by rewrite length_fmap in Hsub.
Qed.

(** Cambodia on the example data. *)
Lemma resource_names_distinct_witness :
  ∃ r dataset,
    country_data remove_dups ex_self ex_inputs (mkCountry "KHM" "Cambodia" 1)
      = Ok r
    ∧ generate_dataset "/tmp" ["gender"] ex_known_location r = Some dataset
    ∧ NoDup (resource_names dataset)
    ∧ (length (resource_names dataset) ≤ 9)%nat.
Proof.
  destruct (is_Ok_eval (country_data remove_dups ex_self ex_inputs
                          (mkCountry "KHM" "Cambodia" 1))) as [r Hr]; [by_vm|].
  assert (r_iso3 r = "KHM") as Hiso.
  { assert (r_iso3 <$> country_data remove_dups ex_self ex_inputs
                         (mkCountry "KHM" "Cambodia" 1) = Ok "KHM") as Hi
      by by_vm.
    rewrite Hr in Hi. simpl in Hi. congruence. }
  destruct (generate_dataset "/tmp" ["gender"] ex_known_location r)
    as [dataset|] eqn:Hds.
  - exists r, dataset. split; [exact Hr|]. split; [exact Hds|].
    exact (resource_names_distinct "/tmp" ["gender"] ex_known_location
             remove_dups ex_self ex_inputs (mkCountry "KHM" "Cambodia" 1)
             r dataset Hr Hds).
  - exfalso. unfold generate_dataset in Hds. rewrite Hiso in Hds.
    by vm_compute in Hds.
Defined.

(** ** The reference data loader *)

Lemma json_getitem_cases (props : gmap string json) (k : string) :
  match json_getitem props k with
  | Ok v => props !! k = Some v
  | Raise e => e = KeyError ∧ props !! k = None
  end.
Proof. unfold json_getitem. by destruct (props !! k). Qed.

Lemma load_countries_cases (features : list Feature) :
  match _load_countries features with
  | Ok countries =>
      Forall2 (λ feature c,
        f_properties feature !! "iso" = Some (lc_iso3 c)
        ∧ f_properties feature !! "name_0" = Some (lc_name c)
        ∧ f_properties feature !! "area_id" = Some (lc_area_id c))
        features countries
  | Raise e =>
      e = KeyError
      ∧ Exists (λ feature,
          f_properties feature !! "iso" = None
          ∨ f_properties feature !! "name_0" = None
          ∨ f_properties feature !! "area_id" = None) features
  end.
Proof.
  induction features as [|f fs IH]; cbn [_load_countries]; [constructor|].
  pose proof (json_getitem_cases (f_properties f) "iso") as Hiso.
  pose proof (json_getitem_cases (f_properties f) "name_0") as Hname.
  pose proof (json_getitem_cases (f_properties f) "area_id") as Harea.
  destruct (json_getitem (f_properties f) "iso") as [iso|e1];
    cbn [mbind result_bind]; [|destruct Hiso as [-> ?]; split; [done|]; left; auto].
  destruct (json_getitem (f_properties f) "name_0") as [name|e2];
    cbn [mbind result_bind];
    [|destruct Hname as [-> ?]; split; [done|]; left; auto].
  destruct (json_getitem (f_properties f) "area_id") as [area|e3];
    cbn [mbind result_bind];
    [|destruct Harea as [-> ?]; split; [done|]; left; auto].
  destruct (_load_countries fs) as [cs|e]; cbn [mbind result_bind].
  - by constructor.
  - destruct IH as [-> IH]. split; [done|]. by right.
Qed.

(** X18.  [_load_countries] returns one country per feature, in the order
    of the features, holding the feature's [iso], [name_0] and [area_id];
    it raises [KeyError] exactly when some feature lacks one of the
    three. *)
Theorem load_countries_outcome (features : list Feature) :
  match _load_countries features with
  | Ok countries =>
      Forall2 (λ feature c,
        f_properties feature !! "iso" = Some (lc_iso3 c)
        ∧ f_properties feature !! "name_0" = Some (lc_name c)
        ∧ f_properties feature !! "area_id" = Some (lc_area_id c))
        features countries
  | Raise e =>
      e = KeyError
      ∧ Exists (λ feature,
          f_properties feature !! "iso" = None
          ∨ f_properties feature !! "name_0" = None
          ∨ f_properties feature !! "area_id" = None) features
  end.
Proof. apply load_countries_cases. Qed.

Lemma py_eq_key (a b : json) : py_eq a b = bool_decide (py_key a = py_key b).
Proof.
  destruct a as [|[]|m|s], b as [|[]|n|t]; simpl;
    repeat case_bool_decide; naive_solver.
Qed.

Lemma dict_get_set {V} (d : list (json * V)) (k' k : json) (v : V) :
  dict_get (dict_set d k' v) k
  = if py_eq k' k then Some v else dict_get d k.
Proof.
  induction d as [|[k0 v0] d IH]; simpl; [done|].
  rewrite !py_eq_key in *.
  destruct (decide (py_key k0 = py_key k')) as [H0|H0].
  - rewrite (bool_decide_eq_true_2 _ H0). simpl. rewrite !py_eq_key.
    repeat case_bool_decide; congruence.
  - rewrite (bool_decide_eq_false_2 _ H0). simpl. rewrite IH, !py_eq_key.
    repeat case_bool_decide; congruence.
Qed.

Lemma build_province_mapping_loop_get (features : list Feature)
    (mapping d : list (json * LoadedProvince)) (k : json) :
  build_province_mapping_loop mapping features = Ok d →
  match last_with_area features k with
  | Some feature =>
      ∃ v, dict_get d k = Some v
           ∧ f_properties feature !! "iso" = Some (lp_iso3 v)
           ∧ f_properties feature !! "name_1" = Some (lp_name v)
  | None => dict_get d k = dict_get mapping k
  end.
Proof.
  revert mapping. induction features as [|f fs IH]; intros mapping;
    cbn [build_province_mapping_loop last_with_area].
  - by intros [= ->].
  - pose proof (json_getitem_cases (f_properties f) "iso") as Hiso.
    pose proof (json_getitem_cases (f_properties f) "name_1") as Hname.
    pose proof (json_getitem_cases (f_properties f) "area_id") as Harea.
    destruct (json_getitem (f_properties f) "iso") as [iso|];
      cbn [mbind result_bind]; [|done].
    destruct (json_getitem (f_properties f) "name_1") as [name|];
      cbn [mbind result_bind]; [|done].
    destruct (json_getitem (f_properties f) "area_id") as [area|];
      cbn [mbind result_bind]; [|done].
    intros Hd. specialize (IH _ Hd).
    destruct (last_with_area fs k) as [later|]; [done|].
    rewrite IH, dict_get_set. unfold has_area. rewrite Harea.
    destruct (py_eq area k); [|done].
    eexists. split; [done|]. by split.
Qed.

(** X19.  In the mapping built by [_build_province_mapping], the entry
    found for an area identifier is the one of the last feature carrying
    that identifier (later features overwrite earlier ones), and there is
    no entry when no feature carries it. *)
Theorem build_province_mapping_last_wins (features : list Feature)
    (d : list (json * LoadedProvince)) (k : json) :
  _build_province_mapping features = Ok d →
  match last_with_area features k with
  | Some feature =>
      ∃ v, dict_get d k = Some v
           ∧ f_properties feature !! "iso" = Some (lp_iso3 v)
           ∧ f_properties feature !! "name_1" = Some (lp_name v)
  | None => dict_get d k = None
  end.
Proof.
  intros Hd.
  apply (build_province_mapping_loop_get features [] d k) in Hd.
  by destruct (last_with_area features k).
Qed.

(** Area 12345 appears in two features; the later name is kept. *)
Lemma build_province_mapping_last_wins_witness :
  ∃ d v, _build_province_mapping ex_province_features = Ok d
         ∧ dict_get d (JNum 12345) = Some v
         ∧ lp_name v = JStr "Phnom Penh"
         ∧ dict_get d (JNum 5) = None.
Proof.
  destruct (is_Ok_eval (_build_province_mapping ex_province_features))
    as [d Hd]; [by_vm|].
  pose proof (build_province_mapping_last_wins ex_province_features d
                (JNum 12345) Hd) as H1.
  pose proof (build_province_mapping_last_wins ex_province_features d
                (JNum 5) Hd) as H2.
  assert (last_with_area ex_province_features (JNum 12345)
          = Some (mkFeature (<["iso" := JStr "KHM"]>
                    (<["name_1" := JStr "Phnom Penh"]>
                       {[ "area_id" := JNum 12345 ]})) "polygon-c")) as Hlast
    by by_vm.
  assert (last_with_area ex_province_features (JNum 5) = None) as Hnone
    by by_vm.
  rewrite Hlast in H1. rewrite Hnone in H2.
  destruct H1 as (v & Hv & _ & Hname).
  exists d, v. split; [exact Hd|]. split; [exact Hv|]. split; [|exact H2].
  assert (f_properties (mkFeature (<["iso" := JStr "KHM"]>
            (<["name_1" := JStr "Phnom Penh"]>
               {[ "area_id" := JNum 12345 ]})) "polygon-c") !! "name_1"
          = Some (JStr "Phnom Penh")) as Hlook by by_vm.
  rewrite Hlook in Hname. by injection Hname.
Defined.

(** X20.  When the country list is the typed reading of what
    [_load_countries] returns for the features of the country collection,
    every result of the aggregator has a non-empty country-boundary
    collection (the country's own feature is in it), so every dataset that
    is built carries the country-boundary resource. *)
Theorem loaded_countries_have_boundaries (temp_dir : string)
    (tags : list string) (known_location : string → bool)
    (set_iter : list Z → list Z) (self : Pipeline) (inp : Inputs)
    (loaded : list LoadedCountry) (results : list CountryResult) :
  _load_countries (country_geojson inp) = Ok loaded →
  mapM typed_country loaded = Some (_countries self) →
  get_country_data set_iter self inp = Ok results →
  Forall (λ r,
    geometry r "country-boundary" ≠ []
    ∧ ∀ dataset,
        generate_dataset temp_dir tags known_location r = Some dataset →
        lower (r_iso3 r) ++ "-gem-country-boundary.geojson"
          ∈ resource_names dataset) results.
Proof.
  intros Hload Htyped Hres%for_countries_Ok.
  pose proof (load_countries_cases (country_geojson inp)) as Hfeat.
  rewrite Hload in Hfeat. apply mapM_Some in Htyped.
  apply Forall_forall. intros r [i Hi]%list_elem_of_lookup.
  destruct (Forall2_lookup_r _ _ _ _ _ Hres Hi) as (c & Hc & Hcd).
  destruct (Forall2_lookup_r _ _ _ _ _ Htyped Hc) as (lc & Hlc & Hty).
  destruct (Forall2_lookup_r _ _ _ _ _ Hfeat Hlc) as (f & Hf & Hiso & _).
  assert (lc_iso3 lc = JStr (c_iso3 c)) as Hcode.
  { unfold typed_country in Hty.
    destruct (lc_iso3 lc), (lc_name lc), (lc_area_id lc); try done.
    by injection Hty as <-. }
  rewrite Hcode in Hiso.
  assert (f ∈ fc_features (_filter_geojson_by_country (country_geojson inp)
                             (c_iso3 c))) as Hown.
  { apply filter_geojson_by_country_members. split; [|done].
    by eapply list_elem_of_lookup_2. }
  apply country_data_Ok in Hcd
    as (t1 & t2 & t3 & t4 & t5 & t6 & t7 & mn & mx & _ & _ & _ & _ & _ & _ & _
        & _ & ->).
  change (geometry _ "country-boundary")
    with (fc_features (_filter_geojson_by_country (country_geojson inp)
                         (c_iso3 c))).
  split.
  - intros Hnil. rewrite Hnil in Hown. by apply elem_of_nil in Hown.
  - intros dataset Hds.
    rewrite (dataset_names temp_dir tags known_location _ dataset Hds).
    unfold expected_resource_names. apply elem_of_app. right.
    unfold expected_geojson_names. cbn [r_geojson_data r_iso3 omap list_omap].
    destruct (fc_features (_filter_geojson_by_country (country_geojson inp)
                             (c_iso3 c))) as [|f0 fs];
      [by apply elem_of_nil in Hown|].
    by left.
Qed.

(** The example countries, loaded from the example country features and
    processed with those features as the country collection. *)
Lemma loaded_countries_have_boundaries_witness :
  ∃ results,
    get_country_data remove_dups ex_self
      (mkInputs (gii_data ex_inputs) [] [] [] ex_country_features []) = Ok results
    ∧ Forall (λ r,
        geometry r "country-boundary" ≠ []
        ∧ ∀ dataset,
            generate_dataset "/tmp" ["gender"] ex_known_location r
              = Some dataset →
            lower (r_iso3 r) ++ "-gem-country-boundary.geojson"
              ∈ resource_names dataset) results.
Proof.
  destruct (is_Ok_eval (get_country_data remove_dups ex_self
              (mkInputs (gii_data ex_inputs) [] [] [] ex_country_features [])))
    as [results Hres]; [by_vm|].
  exists results. split; [exact Hres|].
  destruct (is_Ok_eval (_load_countries ex_country_features))
    as [loaded Hload]; [by_vm|].
  apply (loaded_countries_have_boundaries "/tmp" ["gender"] ex_known_location
           remove_dups ex_self
           (mkInputs (gii_data ex_inputs) [] [] [] ex_country_features [])
           loaded results Hload); [|exact Hres].
  assert ((λ l, mapM typed_country l)
            <$> _load_countries ex_country_features
          = Ok (Some (_countries ex_self))) as Hty by by_vm.
  rewrite Hload in Hty.
  change (Ok (mapM typed_country loaded) = Ok (Some (_countries ex_self)))
    in Hty.
  exact (f_equal (λ m, match m with Ok o => o | Raise _ => None end) Hty).
Defined.

(** ** The province mapping as the partitioner reads it *)

Lemma typed_mapping_lookup (d : list (json * LoadedProvince))
    (kvs : list (Z * ProvinceInfo)) (area_id : Z) :
  mapM typed_province d = Some kvs →
  (list_to_map kvs : gmap Z ProvinceInfo) !! area_id
  = dict_get d (JNum area_id)
      ≫= λ v, snd <$> typed_province (JNum area_id, v).
Proof.
  intros Hty%mapM_Some.
  induction Hty as [|[k v] [a info] d kvs Hkv _ IH]; [done|].
  unfold typed_province in Hkv. cbn [fst snd] in Hkv.
  destruct k as [| |a'|]; try done.
  destruct (lp_iso3 v) as [| | |iso3] eqn:Hiso; try done.
  destruct (lp_name v) as [| | |name] eqn:Hname; try done.
  injection Hkv as <- <-.
  cbn [list_to_map foldr dict_get py_eq uncurry].
  case_bool_decide as Heq.
  - subst a'. rewrite lookup_insert_eq. cbn.
    unfold typed_province. cbn [fst snd]. by rewrite Hiso, Hname.
  - by rewrite lookup_insert_ne.
Qed.

Lemma dict_get_typed (d : list (json * LoadedProvince))
    (kvs : list (Z * ProvinceInfo)) (k : json) (v : LoadedProvince) :
  mapM typed_province d = Some kvs →
  dict_get d k = Some v →
  ∃ iso3 name, lp_iso3 v = JStr iso3 ∧ lp_name v = JStr name.
Proof.
  intros Hty%mapM_Some.
  induction Hty as [|[k0 v0] [a info] d kvs Hkv _ IH]; [done|].
  cbn [dict_get]. destruct (py_eq k0 k); [|done].
  intros [= ->]. unfold typed_province in Hkv. cbn [fst snd] in Hkv.
  destruct k0; try done.
  destruct (lp_iso3 v) as [| | |iso3]; try done.
  destruct (lp_name v) as [| | |name]; try done.
  by exists iso3, name.
Qed.

(** X21.  When the province mapping of the engine is the typed reading of
    what [_build_province_mapping] returns for a feature collection, an
    area identifier belongs to a country's province identifiers exactly
    when the last feature carrying that identifier has the country's code:
    an earlier feature for another country does not count. *)
Theorem province_area_ids_last_feature (self : Pipeline)
    (features : list Feature) (d : list (json * LoadedProvince))
    (kvs : list (Z * ProvinceInfo)) (country_code : string) (area_id : Z) :
  _build_province_mapping features = Ok d →
  mapM typed_province d = Some kvs →
  _province_mapping self = list_to_map kvs →
  area_id ∈ _get_province_area_ids self country_code
  ↔ ∃ feature,
      last_with_area features (JNum area_id) = Some feature
      ∧ f_properties feature !! "iso" = Some (JStr country_code).
Proof.
  intros Hd Hty Hmap.
  apply (build_province_mapping_loop_get features [] d (JNum area_id)) in Hd.
  pose proof (typed_mapping_lookup d kvs area_id Hty) as Hlook.
  unfold _get_province_area_ids. rewrite elem_of_dom. unfold is_Some.
  setoid_rewrite map_lookup_filter_Some. rewrite Hmap, Hlook.
  destruct (last_with_area features (JNum area_id)) as [feature|].
  - destruct Hd as (v & Hv & Hiso & _).
    destruct (dict_get_typed d kvs _ v Hty Hv) as (iso3 & name & Hi & Hn).
    rewrite Hv. cbn [mbind option_bind].
    unfold typed_province. cbn [fst snd]. rewrite Hi, Hn. cbn.
    rewrite Hi in Hiso. split.
    + intros (info & [= <-] & Hcode). cbn in Hcode. subst iso3.
      by exists feature.
    + intros (? & [= <-] & Hcode). rewrite Hiso in Hcode.
      injection Hcode as ->. by eexists.
  - rewrite Hd. cbn. naive_solver.
Qed.

(** Area 12345 is carried by a feature of each kind in the example
    collection up to its last feature, which is Cambodia's. *)
Lemma province_area_ids_last_feature_witness :
  let self :=
    mkPipeline (_countries ex_self)
      (list_to_map [(12345, mkProvinceInfo "KHM" "Phnom Penh");
                    (777, mkProvinceInfo "VNM" "Ha Noi")]) in
  12345 ∈ _get_province_area_ids self "KHM"
  ∧ 12345 ∉ _get_province_area_ids self "VNM".
Proof.
  intros self.
  destruct (is_Ok_eval (_build_province_mapping ex_province_features))
    as [d Hd]; [by_vm|].
  assert (mapM typed_province d
          = Some [(12345, mkProvinceInfo "KHM" "Phnom Penh");
                  (777, mkProvinceInfo "VNM" "Ha Noi")]) as Hty.
  { assert ((λ d, mapM typed_province d)
              <$> _build_province_mapping ex_province_features
            = Ok (Some [(12345, mkProvinceInfo "KHM" "Phnom Penh");
                        (777, mkProvinceInfo "VNM" "Ha Noi")])) as H
      by by_vm.
    rewrite Hd in H.
    exact (f_equal (λ m, match m with Ok o => o | Raise _ => None end) H). }
  assert (last_with_area ex_province_features (JNum 12345)
          = Some (mkFeature (<["iso" := JStr "KHM"]>
                    (<["name_1" := JStr "Phnom Penh"]>
                       {[ "area_id" := JNum 12345 ]})) "polygon-c")) as Hlast
    by by_vm.
  assert (f_properties (mkFeature (<["iso" := JStr "KHM"]>
            (<["name_1" := JStr "Phnom Penh"]>
               {[ "area_id" := JNum 12345 ]})) "polygon-c") !! "iso"
          = Some (JStr "KHM")) as Hiso by by_vm.
  split.
  - apply (province_area_ids_last_feature self ex_province_features d _
             "KHM" 12345 Hd Hty eq_refl).
    eexists. split; [exact Hlast|exact Hiso].
  - intros Hin.
    apply (province_area_ids_last_feature self ex_province_features d _
             "VNM" 12345 Hd Hty eq_refl) in Hin as (f & Hf & Hcode).
    rewrite Hlast in Hf. injection Hf as <-. rewrite Hiso in Hcode.
    discriminate Hcode.
Defined.

(** ** When a table can be sorted *)

Lemma string_le_trans (s t u : string) :
  String.ltb t s = false → String.ltb u t = false → String.ltb u s = false.
Proof.
  unfold String.ltb.
  rewrite (String.compare_antisym t s), (String.compare_antisym u t),
    (String.compare_antisym u s).
  assert (∀ s t u, String.compare s t ≠ Gt → String.compare t u ≠ Gt →
                   String.compare s u ≠ Gt) as Htrans.
  { clear. induction s as [|a s IH]; intros [|b t] [|c u]; simpl; try done.
    unfold Ascii.compare.
    destruct (N.compare_spec (N_of_ascii a) (N_of_ascii b)) as [Hab|Hab|Hab],
      (N.compare_spec (N_of_ascii b) (N_of_ascii c)) as [Hbc|Hbc|Hbc],
      (N.compare_spec (N_of_ascii a) (N_of_ascii c)) as [Hac|Hac|Hac];
      try done; try lia.
    apply IH. }
  intros Hst Htu. specialize (Htrans s t u).
  destruct (String.compare s t), (String.compare t u),
    (String.compare s u); simpl in *; try done; exfalso; by apply Htrans.
Qed.

Lemma string_le_antisym (s t : string) :
  String.ltb t s = false → String.ltb s t = false → s = t.
Proof.
  unfold String.ltb. rewrite (String.compare_antisym t s).
  destruct (String.compare s t) eqn:Hc; [|done..].
  intros _ _. by apply String.compare_eq_iff.
Qed.

Lemma lt_Z_cell_order : cell_order lt_Z.
Proof.
  unfold lt_Z. split_and!.
  - apply lt_Z_asym.
  - intros a b _. by eexists.
  - intros a b c [= H1%Z.ltb_ge] [= H2%Z.ltb_ge]. f_equal.
    apply Z.ltb_ge. lia.
  - intros a b [= H1%Z.ltb_ge] [= H2%Z.ltb_ge]. lia.
Qed.

Lemma lt_cell_cell_order : cell_order lt_cell.
Proof.
  split_and!.
  - apply lt_cell_asym.
  - intros [s|] [t|] [? H']; simpl in *; try done. by eexists.
  - intros [s|] [t|] [u|]; simpl; try done.
    intros [= H1] [= H2]. f_equal. by eapply string_le_trans.
  - intros [s|] [t|]; simpl; try done.
    intros [= H1] [= H2]. f_equal. by apply string_le_antisym.
Qed.

Lemma lt_rev_key_order : key_order lt_rev.
Proof.
  unfold lt_rev. split_and!.
  - intros a. f_equal. apply Z.ltb_irrefl.
  - apply lt_rev_asym.
  - intros a b _. by eexists.
  - intros a b c [= H1%Z.ltb_ge] [= H2%Z.ltb_ge]. f_equal.
    apply Z.ltb_ge. lia.
Qed.

Lemma lt_last_key_order {A} `{EqDecision A} (ltA : A → A → result bool) :
  cell_order ltA → key_order (lt_last ltA).
Proof.
  intros (Hasym & Hsym & Htrans & _). unfold lt_last. split_and!.
  - intros a. by rewrite decide_True.
  - intros a b. repeat case_decide; try done. apply Hasym.
  - intros a b. repeat case_decide; try done; try (by eexists).
    apply Hsym.
  - intros a b c. repeat case_decide; subst; try done. apply Htrans.
Qed.

Lemma lt_cons_key_order {A B} `{EqDecision A} (ltA : A → A → result bool)
    (ltB : B → B → result bool) :
  cell_order ltA → key_order ltB → key_order (lt_cons ltA ltB).
Proof.
  intros (HasymA & HsymA & HtransA & HantiA)
    (HreflB & HasymB & HsymB & HtransB).
  unfold lt_cons. split_and!.
  - intros a. by rewrite decide_True.
  - intros a b. repeat case_decide; try congruence; [apply HasymB|].
    apply HasymA.
  - intros a b. repeat case_decide; try congruence; [apply HsymB|].
    apply HsymA.
  - intros a b c. repeat case_decide; try congruence.
    + apply HtransB.
    + intros Hba Hcb. exfalso.
      assert (b.1 = a.1) as Heq; [|congruence].
      apply HantiA; [|done]. replace (a.1) with (c.1) by congruence. done.
    + apply HtransA.
Qed.

Lemma lt_key2_order : key_order lt_key2.
Proof.
  apply lt_cons_key_order; [apply lt_Z_cell_order|].
  apply lt_last_key_order, lt_cell_cell_order.
Qed.

Lemma lt_key3_order : key_order lt_key3.
Proof.
  apply lt_cons_key_order; [apply lt_Z_cell_order|].
  apply lt_cons_key_order; [apply lt_cell_cell_order|].
  apply lt_last_key_order, lt_cell_cell_order.
Qed.

Lemma lt_key4_order : key_order lt_key4.
Proof.
  apply lt_cons_key_order; [apply lt_Z_cell_order|].
  apply lt_cons_key_order; [apply lt_cell_cell_order|].
  apply lt_cons_key_order; [apply lt_cell_cell_order|].
  apply lt_last_key_order, lt_cell_cell_order.
Qed.

(** The sort returns exactly when every key is computed and any two keys
    compare: which pairs the algorithm happens to compare does not
    matter. *)
Section sort_returns.
Context {A K : Type} (key : A → result K) (lt : K → K → result bool).
Hypothesis lt_order : key_order lt.

Lemma strongly_sorted_related (R : relation (K * A)) (l : list (K * A))
    (x y : K * A) :
  StronglySorted R l → x ∈ l → y ∈ l → x = y ∨ R x y ∨ R y x.
Proof.
  induction 1 as [|z l Hl IH Hz]; [by intros ?%elem_of_nil|].
  rewrite Forall_forall in Hz.
  intros [->|Hx]%elem_of_cons [->|Hy]%elem_of_cons; auto.
Qed.

Lemma sort_keyed_comparable (d s : list (K * A)) (x y : K * A) :
  sort_keyed lt d = Ok s → x ∈ d → y ∈ d → is_Ok (lt x.1 y.1).
Proof.
  destruct lt_order as (Hrefl & Hasym & Hsym & Htrans).
  intros Hs Hx Hy. pose proof (sort_keyed_perm _ _ _ Hs) as Hperm.
  rewrite <- Hperm in Hx, Hy.
  apply sort_keyed_sorted in Hs; [|done].
  assert (Transitive (keyed_le (A:=A) lt)) as Htr.
  { intros a b c Hab Hbc. unfold keyed_le in *. by eapply Htrans. }
  apply (Sorted_StronglySorted (keyed_le lt)) in Hs.
  destruct (strongly_sorted_related _ _ x y Hs Hx Hy) as [->|[Hxy|Hyx]].
  - rewrite Hrefl. by eexists.
  - apply Hsym. unfold keyed_le in Hxy. rewrite Hxy. by eexists.
  - unfold keyed_le in Hyx. rewrite Hyx. by eexists.
Qed.

Lemma py_sorted_Ok_iff (l : list A) :
  is_Ok (py_sorted key lt l) ↔
  Forall (λ x, is_Ok (key x)) l
  ∧ ∀ x y kx ky, x ∈ l → y ∈ l → key x = Ok kx → key y = Ok ky →
                 is_Ok (lt kx ky).
Proof.
  split.
  - intros [out Hout]. unfold py_sorted in Hout.
    destruct (decorate key l) as [d|] eqn:Hd; simpl in Hout; [|done].
    destruct (sort_keyed lt d) as [s|] eqn:Hs; simpl in Hout; [|done].
    apply decorate_Ok in Hd as [<- Hd]. split.
    + apply Forall_fmap. eapply Forall_impl; [exact Hd|].
      intros p Hp. by exists p.1.
    + rewrite Forall_forall in Hd.
      intros x y kx ky (p & -> & Hp)%list_elem_of_fmap
        (q & -> & Hq)%list_elem_of_fmap Hkx Hky.
      rewrite (Hd p Hp) in Hkx. rewrite (Hd q Hq) in Hky.
      injection Hkx as <-. injection Hky as <-.
      by eapply sort_keyed_comparable.
  - intros [Hkeys Hcmp].
    destruct (py_sorted_succeeds key lt l Hkeys Hcmp) as (out & Hout & _).
    by exists out.
Qed.
End sort_returns.

Lemma lt_last_cell_ok (x y : cell) :
  is_Ok (lt_last lt_cell x y) ↔ cells_orderable [x] [y].
Proof.
  unfold lt_last. simpl. case_decide; [split; [done|by eexists]|].
  destruct x as [s|], y as [t|]; simpl; split;
    try (by intros [? ?]); try (by intros [[? ?] [? ?]]).
  - intros _. split; by eexists.
  - intros _. by eexists.
Qed.

Lemma lt_cons_cell_ok {B} (ltB : B → B → result bool) (x y : cell)
    (xs ys : B) (l k : list cell) :
  (is_Ok (ltB xs ys) ↔ cells_orderable l k) →
  is_Ok (lt_cons lt_cell ltB (x, xs) (y, ys)) ↔
  cells_orderable (x :: l) (y :: k).
Proof.
  intros HB. unfold lt_cons. simpl. case_decide; [done|].
  destruct x as [s|], y as [t|]; simpl; split;
    try (by intros [? ?]); try (by intros [[? ?] [? ?]]).
  - intros _. split; by eexists.
  - intros _. by eexists.
Qed.

Lemma lt_cons_Z_ok {B} (ltB : B → B → result bool) (m n : Z) (xs ys : B)
    (P : Prop) :
  (is_Ok (ltB xs ys) ↔ P) →
  is_Ok (lt_cons lt_Z ltB (m, xs) (n, ys)) ↔ m ≠ n ∨ P.
Proof.
  intros HB. unfold lt_cons. simpl. case_decide.
  - rewrite HB. naive_solver.
  - split; [by left|]. intros _. by eexists.
Qed.

(** Two keys computed from records compare exactly when the records can
    be put in order. *)
Ltac key_orderable :=
  intros a b ka kb Hka Hkb; invert_key Hka; invert_key Hkb;
  unfold orderable;
  match goal with
  | Ha : py_int (get _ "year" _) = Ok ?ya,
    Hb : py_int (get _ "year" _) = Ok ?yb |- _ =>
      rewrite Ha, Hb;
      let Hiff := fresh "Hiff" in
      assert (Ok ya ≠ Ok yb ↔ - ya ≠ - yb) as Hiff
        by (split; intros Hne ?; apply Hne; [f_equal; lia|congruence]);
      rewrite Hiff
  end;
  apply lt_cons_Z_ok;
  repeat first [ apply lt_last_cell_ok | apply lt_cons_cell_ok ].

Lemma key2_orderable (f : string) (a b : Row) ka kb :
  (n ← neg_year a; p ← getitem a f; Ok (n, p)) = Ok ka →
  (n ← neg_year b; p ← getitem b f; Ok (n, p)) = Ok kb →
  is_Ok (lt_key2 ka kb) ↔ orderable [f] a b.
Proof. revert a b ka kb. key_orderable. Qed.

Lemma key3_orderable (f g : string) (a b : Row) ka kb :
  (n ← neg_year a; p ← getitem a f; i ← getitem a g; Ok (n, (p, i))) = Ok ka →
  (n ← neg_year b; p ← getitem b f; i ← getitem b g; Ok (n, (p, i))) = Ok kb →
  is_Ok (lt_key3 ka kb) ↔ orderable [f; g] a b.
Proof. revert a b ka kb. key_orderable. Qed.

Lemma key4_orderable (f g h : string) (a b : Row) ka kb :
  (n ← neg_year a; p ← getitem a f; c ← getitem a g; d ← getitem a h;
   Ok (n, (p, (c, d)))) = Ok ka →
  (n ← neg_year b; p ← getitem b f; c ← getitem b g; d ← getitem b h;
   Ok (n, (p, (c, d)))) = Ok kb →
  is_Ok (lt_key4 ka kb) ↔ orderable [f; g; h] a b.
Proof. revert a b ka kb. key_orderable. Qed.

Section transformer_returns.
Context {K : Type} (body : Row → result (option Row))
  (key : Row → result K) (lt : K → K → result bool).
Context (keep : Row → Prop) `{∀ row, Decision (keep row)} (rec : Row → Row).
Context (fields : list string).

Hypothesis body_skip : ∀ row, ¬ keep row → body row = Ok None.
Hypothesis body_keep : ∀ row o, keep row → body row = Ok o → o = Some (rec row).
Hypothesis body_raise : ∀ row e,
  body row = Raise e → e = ValueError ∧ ¬ is_Ok (row_area_id row).
Hypothesis key_spec : ∀ row,
  match py_int (get row "year" "") with
  | Ok _ => is_Ok (key (rec row))
  | Raise e => key (rec row) = Raise e
  end.
Hypothesis lt_order : key_order lt.
Hypothesis key_cmp : ∀ a b ka kb,
  key a = Ok ka → key b = Ok kb → is_Ok (lt ka kb) ↔ orderable fields a b.

Lemma transformer_returns_iff (rows : list Row) :
  Forall (λ row, is_Ok (row_area_id row)) rows →
  returns_iff (for_rows body rows ≫= py_sorted key lt)
    (filter keep rows) (rec <$> filter keep rows) fields.
Proof.
  intros Hrows. unfold returns_iff.
  rewrite (transformer_loop_succeeds body keep rec) by done.
  change (Ok (rec <$> filter keep rows) ≫= py_sorted key lt)
    with (py_sorted key lt (rec <$> filter keep rows)).
  rewrite (py_sorted_Ok_iff key lt lt_order). split.
  - intros [Hkeys Hcmp]. split.
    + apply Forall_forall. intros row Hrow. rewrite Forall_forall in Hkeys.
      destruct (Hkeys (rec row)) as [k Hk]; [by apply list_elem_of_fmap_2|].
      pose proof (key_spec row) as Hspec. unfold year_parses.
      destruct (py_int (get row "year" "")); [by eexists|]. congruence.
    + intros a b Ha Hb. rewrite Forall_forall in Hkeys.
      destruct (Hkeys a Ha) as [ka Hka]. destruct (Hkeys b Hb) as [kb Hkb].
      apply (key_cmp a b ka kb Hka Hkb). exact (Hcmp a b ka kb Ha Hb Hka Hkb).
  - intros [Hyears Hord]. split.
    + apply Forall_fmap. eapply Forall_impl; [exact Hyears|].
      intros row [n Hn]. simpl. pose proof (key_spec row) as Hrow.
      by rewrite Hn in Hrow.
    + intros a b ka kb Ha Hb Hka Hkb.
      apply (key_cmp a b ka kb Hka Hkb). exact (Hord a b Ha Hb).
Qed.
End transformer_returns.

Lemma pairs_Forall {A} (R : A → A → Prop) (l : list A) :
  (∀ a b, a ∈ l → b ∈ l → R a b) ↔ Forall (λ a, Forall (R a) l) l.
Proof.
  rewrite Forall_forall. setoid_rewrite Forall_forall. naive_solver.
Qed.

(** X22.  On country-filtered rows each of the seven transformers returns
    a table exactly when the year of every row it reads parses and any
    two of its records can be put in order: their years differ, or at the
    first sort field where they differ both hold a text.  Which pairs the
    sort happens to compare does not matter.  The index-national table,
    sorted by year alone, needs the years only. *)
Theorem transformers_return_iff_orderable (self : Pipeline)
    (raw rows : list Row) (country_code code name : string) :
  _filter_csv_by_country self raw country_code = Ok rows →
  let national := at_level "country" rows in
  let subnational := at_level "province" rows in
  returns_iff (_transform_gii_national self rows code) national
    (gii_national_row code <$> national) []
  ∧ returns_iff (_transform_gii_subnational self rows code name) subnational
      ((λ row, gii_subnational_row code name (resolved_province self row) row)
         <$> subnational)
      ["province"]
  ∧ returns_iff (_transform_dimension_national self rows code) national
      (dimension_national_row code <$> national)
      ["dimension_category"; "dimension"]
  ∧ returns_iff (_transform_dimension_subnational self rows code name)
      subnational
      ((λ row, dimension_subnational_row code name
                 (resolved_province self row) row) <$> subnational)
      ["province"; "dimension_category"; "dimension"]
  ∧ returns_iff (_transform_indicator_national self rows code name) national
      (indicator_national_row code name <$> national)
      ["indicator_category"; "indicator"]
  ∧ returns_iff (_transform_indicator_subnational self rows code name)
      subnational
      ((λ row, indicator_subnational_row code name
                 (resolved_province self row) row) <$> subnational)
      ["province"; "indicator_category"; "indicator"]
  ∧ returns_iff (_transform_sex_disaggregated self rows code name) rows
      ((λ row, sex_disaggregated_row code name (resolved_province self row)
                 row) <$> rows)
      ["province"; "indicator"].
Proof.
  intros [_ Harea]%partitioned_area_ok. cbv zeta. split_and!.
  - apply (transformer_returns_iff _ _ _
             (λ row : Row, row !! "admin_level" = Some (Str "country"))
             (gii_national_row code) []); national_body; [| | |done].
    + year_key.
    + apply lt_rev_key_order.
    + intros a b ka kb _ _. split; [intros _; by right|]. intros _.
      by eexists.
  - apply (transformer_returns_iff _ _ _
             (λ row : Row, row !! "admin_level" = Some (Str "province"))
             (λ row, gii_subnational_row code name
                       (resolved_province self row) row) ["province"]);
      subnational_body; [| | |done].
    + year_key.
    + apply lt_key2_order.
    + intros a b ka kb. apply key2_orderable.
  - apply (transformer_returns_iff _ _ _
             (λ row : Row, row !! "admin_level" = Some (Str "country"))
             (dimension_national_row code)
             ["dimension_category"; "dimension"]); national_body;
      [| | |done].
    + year_key.
    + apply lt_key3_order.
    + intros a b ka kb. apply key3_orderable.
  - apply (transformer_returns_iff _ _ _
             (λ row : Row, row !! "admin_level" = Some (Str "province"))
             (λ row, dimension_subnational_row code name
                       (resolved_province self row) row)
             ["province"; "dimension_category"; "dimension"]);
      subnational_body; [| | |done].
    + year_key.
    + apply lt_key4_order.
    + intros a b ka kb. apply key4_orderable.
  - apply (transformer_returns_iff _ _ _
             (λ row : Row, row !! "admin_level" = Some (Str "country"))
             (indicator_national_row code name)
             ["indicator_category"; "indicator"]); national_body;
      [| | |done].
    + year_key.
    + apply lt_key3_order.
    + intros a b ka kb. apply key3_orderable.
  - apply (transformer_returns_iff _ _ _
             (λ row : Row, row !! "admin_level" = Some (Str "province"))
             (λ row, indicator_subnational_row code name
                       (resolved_province self row) row)
             ["province"; "indicator_category"; "indicator"]);
      subnational_body; [| | |done].
    + year_key.
    + apply lt_key4_order.
    + intros a b ka kb. apply key4_orderable.
  - pose proof (λ Hskip Hkeep Hraise Hkey Hlt Hcmp,
      transformer_returns_iff
        (λ row, province_name ← province_name_of self row;
                Ok (Some (sex_disaggregated_row code name province_name row)))
        (λ x, n ← neg_year x; p ← getitem x "province";
              i ← getitem x "indicator"; Ok (n, (p, i)))
        lt_key3 (λ _ : Row, True)
        (λ row, sex_disaggregated_row code name (resolved_province self row)
                  row)
        ["province"; "indicator"]
        Hskip Hkeep Hraise Hkey Hlt Hcmp rows Harea) as Hout.
    rewrite filter_all in Hout. apply Hout; clear Hout.
    + intros row []. done.
    + intros row o _. destruct (province_name_of self row) as [p|] eqn:Hp;
        simpl; [|done].
      apply province_name_of_Ok in Hp as ->. congruence.
    + intros row e. destruct (province_name_of self row) as [p|e'] eqn:Hp;
        simpl; [done|].
      intros [= ->]. by apply province_name_of_raise in Hp.
    + year_key.
    + apply lt_key3_order.
    + intros a b ka kb. apply key3_orderable.
Qed.

(** Cambodia's dimension-subnational table of the example data is
    returned.  Of two national dimension rows of one year, one has no
    category: the dimension-national table is not returned. *)
Lemma transformers_return_iff_orderable_witness :
  is_Ok (_transform_dimension_subnational ex_self
           (filter (keeps ex_self "KHM") (dimension_data ex_inputs))
           "KHM" "Cambodia")
  ∧ ¬ is_Ok (_transform_dimension_national ex_self
               (filter (keeps ex_self "KHM") ex_uncomparable_rows) "KHM").
Proof.
  split.
  - destruct (transformers_return_iff_orderable ex_self
                (dimension_data ex_inputs)
                (filter (keeps ex_self "KHM") (dimension_data ex_inputs))
                "KHM" "KHM" "Cambodia") as (_ & _ & _ & Hsub & _); [by_vm|].
    apply Hsub. split; [by_vm|]. apply pairs_Forall. by_vm.
  - destruct (transformers_return_iff_orderable ex_self ex_uncomparable_rows
                (filter (keeps ex_self "KHM") ex_uncomparable_rows)
                "KHM" "KHM" "Cambodia") as (_ & _ & Hnat & _); [by_vm|].
    intros [_ Hord]%Hnat. apply pairs_Forall in Hord. revert Hord. by_vm.
Defined.
